(** * ReviewIQ: task queue, worker, scraper and report statistics

    A shallow embedding of the background pipeline of the ReviewIQ backend:
    - [backend/task_queue.py]: the SQLite table [tasks] and the worker loop;
    - [backend/scrapers/tripadvisor/scraper.py]: the field extractors and the
      pagination loop of [TripAdvisorScraper];
    - [backend/report_service.py]: the statistics stored with a report,
      and the reports table;
    - [backend/main.py]: the orders and reports tables and the request
      handlers.

    Conventions.  Python [str] is modelled by [string]: the model speaks
    about ASCII text, and the statements that depend on it say so.  SQLite INTEGER columns are
    [Z].  Timestamps are [Z] (an order-preserving reading of the ISO text the
    code stores); the clock reading of [datetime.now()] is an explicit
    argument.  Ratings are exact rationals: the rounding of [float] to
    binary64 is not modelled. *)

From Stdlib Require Import ZArith QArith String Ascii List Bool Lia.
From stdpp Require Import base option list relations gmap strings pretty.

Local Open Scope string_scope.
Local Open Scope Z_scope.

(* ===================================================================== *)
(** * backend/task_queue.py *)
(* ===================================================================== *)

Module TaskQueue.

(** [class TaskStatus(str, Enum)] *)
Inductive TaskStatus := PENDING | PROCESSING | COMPLETED | FAILED.

#[export] Instance TaskStatus_eq_dec : EqDecision TaskStatus.
Proof. solve_decision. Defined.

Definition value (s : TaskStatus) : string :=
  match s with
  | PENDING => "pending"
  | PROCESSING => "processing"
  | COMPLETED => "completed"
  | FAILED => "failed"
  end.

(** One row of the table [tasks] created by [init_task_db]. *)
Record task_row := {
  id : Z;
  task_type : string;
  payload : string;
  status : TaskStatus;
  result : option string;
  error : option string;
  created_at : Z;
  started_at : option Z;
  completed_at : option Z;
  retries : Z
}.

(** The database: the rows of [tasks] in the order SQLite reads the table,
    by rowid, and the AUTOINCREMENT counter (the next id SQLite hands out,
    larger than every id used so far).  [id] is the rowid, and no statement
    of the code deletes a row: the rows stand in the order they were
    inserted in. *)
Record db := {
  tasks : list task_row;
  next_id : Z
}.

(** The table right after [CREATE TABLE IF NOT EXISTS tasks]. *)
Definition init_task_db : db := {| tasks := []; next_id := 1 |}.

(** [add_task]: INSERT INTO tasks (task_type, payload); every other column
    takes its default.  Returns the new database and [cursor.lastrowid]. *)
Definition add_task (now : Z) (ty pl : string) (d : db) : db * Z :=
  let row := {| id := next_id d; task_type := ty; payload := pl;
                status := PENDING; result := None; error := None;
                created_at := now; started_at := None;
                completed_at := None; retries := 0 |} in
  ({| tasks := tasks d ++ [row]; next_id := next_id d + 1 |}, next_id d).

(** The dict [get_pending_task] builds from the selected row. *)
Record task := {
  t_id : Z;
  t_task_type : string;
  t_payload : string;
  t_retries : Z
}.

Definition task_of_row (r : task_row) : task :=
  {| t_id := id r; t_task_type := task_type r;
     t_payload := payload r; t_retries := retries r |}.

(** [WHERE status = 'pending'] *)
Definition is_pending (r : task_row) : bool :=
  bool_decide (status r = PENDING).

Definition pending_rows (d : db) : list task_row :=
  List.filter is_pending (tasks d).

(** [ORDER BY created_at ASC]: the pending rows whose [created_at] is
    minimal come first.  The query orders by [created_at] only; SQLite
    sorts the rows it reads with the position in the scan as the last key,
    so rows with equal [created_at] keep the order of the table. *)
Definition first_by_created_at (l : list task_row) : list task_row :=
  List.filter (fun r => forallb (fun r' => created_at r <=? created_at r') l) l.

Definition get_pending_task_rows (d : db) : list task_row :=
  first_by_created_at (pending_rows d).

(** [get_pending_task() -> Optional[dict]]: [LIMIT 1] and [fetchone] take
    the first of these rows. *)
Definition get_pending_task (d : db) : option task :=
  option_map task_of_row (List.hd_error (get_pending_task_rows d)).

(** [UPDATE tasks SET ... WHERE id = ?] *)
Definition update_where_id (task_id : Z) (f : task_row -> task_row)
    (d : db) : db :=
  {| tasks := List.map (fun r => if id r =? task_id then f r else r) (tasks d);
     next_id := next_id d |}.

Definition set_processing (now : Z) (r : task_row) : task_row :=
  {| id := id r; task_type := task_type r; payload := payload r;
     status := PROCESSING; result := result r; error := error r;
     created_at := created_at r; started_at := Some now;
     completed_at := completed_at r; retries := retries r |}.

Definition set_completed (now : Z) (res : option string) (r : task_row)
    : task_row :=
  {| id := id r; task_type := task_type r; payload := payload r;
     status := COMPLETED; result := res; error := error r;
     created_at := created_at r; started_at := started_at r;
     completed_at := Some now; retries := retries r |}.

Definition set_failed (now : Z) (err : option string) (r : task_row)
    : task_row :=
  {| id := id r; task_type := task_type r; payload := payload r;
     status := FAILED; result := result r; error := err;
     created_at := created_at r; started_at := started_at r;
     completed_at := Some now; retries := retries r + 1 |}.

Definition set_pending (r : task_row) : task_row :=
  {| id := id r; task_type := task_type r; payload := payload r;
     status := PENDING; result := result r; error := error r;
     created_at := created_at r; started_at := started_at r;
     completed_at := completed_at r; retries := retries r |}.

(** [update_task_status(task_id, status, result=None, error=None)];
    [now] is the reading of [datetime.now()].  No branch exists for
    [TaskStatus.PENDING]: the call then changes nothing. *)
Definition update_task_status (now : Z) (task_id : Z) (st : TaskStatus)
    (res err : option string) (d : db) : db :=
  match st with
  | PROCESSING => update_where_id task_id (set_processing now) d
  | COMPLETED => update_where_id task_id (set_completed now res) d
  | FAILED => update_where_id task_id (set_failed now err) d
  | PENDING => d
  end.

(** What a call of [process_scrape_task(payload)] does, seen from the worker:
    it returns a result string or raises an exception [e], of which the worker
    reads [type(e).__name__] and [str(e)]. *)
Inductive outcome :=
| Returned (res : string)
| Raised (kind msg : string).

(** The body of the [try] in [run_worker]. *)
Definition handler (ty : string) (o : outcome) : outcome :=
  if String.eqb ty "scrape_and_report" then o
  else Raised "ValueError" ("Unknown task type: " ++ ty).

(** [error_msg = f"{type(e).__name__}: {str(e)}"] *)
Definition error_msg (kind msg : string) : string := kind ++ ": " ++ msg.

(** The first statement of the loop body after a task was found. *)
Definition worker_begin (now : Z) (t : task) (d : db) : db :=
  update_task_status now (t_id t) PROCESSING None None d.

(** The [try ... except] of the loop body.  [t] is the dict read at dequeue
    time: [t_retries t] is the value of [retries] before this attempt. *)
Definition worker_end (now : Z) (t : task) (o : outcome) (d : db) : db :=
  match handler (t_task_type t) o with
  | Returned res =>
      update_task_status now (t_id t) COMPLETED (Some res) None d
  | Raised kind msg =>
      let d1 := update_task_status now (t_id t) FAILED None
                  (Some (error_msg kind msg)) d in
      if t_retries t <? 3 then update_where_id (t_id t) set_pending d1
      else d1
  end.

(** One pass of the [while True] loop that found the task [t]. *)
Definition worker_iteration (t0 t1 : Z) (t : task) (o : outcome) (d : db)
    : db :=
  worker_end t1 t o (worker_begin t0 t d).

(** The worker process next to the request handlers that enqueue: the
    worker is either polling or inside the handler of the task it took.
    The table is a file: when the worker process is stopped inside a
    handler and started again, the row of the task it had taken is left as
    it is. *)
Inductive worker_pc := Polling | Handling (t : task).

Record system := {
  store : db;
  pc : worker_pc
}.

Definition initial : system := {| store := init_task_db; pc := Polling |}.

Inductive step : system -> system -> Prop :=
| step_enqueue now ty pl s :
    step s {| store := fst (add_task now ty pl (store s)); pc := pc s |}
| step_dequeue now t s :
    pc s = Polling ->
    get_pending_task (store s) = Some t ->
    step s {| store := worker_begin now t (store s); pc := Handling t |}
| step_sleep s :
    pc s = Polling ->
    get_pending_task (store s) = None ->
    step s s
| step_finish now t o s :
    pc s = Handling t ->
    step s {| store := worker_end now t o (store s); pc := Polling |}
| step_restart t s :
    pc s = Handling t ->
    step s {| store := store s; pc := Polling |}.

Definition reachable (s : system) : Prop := rtc step initial s.

End TaskQueue.

(* ===================================================================== *)
(** * Python strings and the regular expressions of the scraper *)
(* ===================================================================== *)

Module PyStr.

(** A [str] of ASCII characters is modelled by the [string] of its
    characters.  On such text the character classes below are those of
    Python ([str.isspace], [str.lower], the classes of [re] on [str] and
    the digits of [float]), [len] counts the characters and [strip] strips
    what Python strips.  Text with other characters is outside the model:
    a statement that depends on the classes, on [strip] or on [len] is made
    about ASCII text ([isascii]). *)

Definition code (c : ascii) : nat := nat_of_ascii c.


Definition LF : ascii := ascii_of_nat 10.

(** The digits of [re] and of [float] on ASCII. *)
Definition is_digit (c : ascii) : bool :=
  (48 <=? code c)%nat && (code c <=? 57)%nat.

Definition is_upper (c : ascii) : bool :=
  (65 <=? code c)%nat && (code c <=? 90)%nat.

Definition is_lower (c : ascii) : bool :=
  (97 <=? code c)%nat && (code c <=? 122)%nat.

(** [str.isspace] on ASCII: TAB, LF, VT, FF, CR, FS, GS, RS, US, space. *)
Definition is_space (c : ascii) : bool :=
  ((9 <=? code c)%nat && (code c <=? 13)%nat)
  || ((28 <=? code c)%nat && (code c <=? 32)%nat).

(** The word characters of [re] on ASCII. *)
Definition is_word (c : ascii) : bool :=
  is_digit c || is_upper c || is_lower c || Ascii.eqb c "_"%char.

Definition lower_char (c : ascii) : ascii :=
  if is_upper c then ascii_of_nat (code c + 32) else c.

(** [s.lower()] *)
Fixpoint lower (s : string) : string :=
  match s with
  | EmptyString => EmptyString
  | String c s' => String (lower_char c) (lower s')
  end.

(** [s.startswith(p)] *)
Fixpoint startswith (p s : string) : bool :=
  match p, s with
  | EmptyString, _ => true
  | String a p', String b s' => Ascii.eqb a b && startswith p' s'
  | String _ _, EmptyString => false
  end.

(** [needle in hay] *)
Fixpoint contains (needle hay : string) : bool :=
  startswith needle hay ||
  match hay with
  | EmptyString => false
  | String _ hay' => contains needle hay'
  end.

(** [s.split(sep)] for a one-character separator. *)
Fixpoint split (sep : ascii) (s : string) : list string :=
  match s with
  | EmptyString => [EmptyString]
  | String c s' =>
      if Ascii.eqb c sep then EmptyString :: split sep s'
      else match split sep s' with
           | l :: ls => String c l :: ls
           | [] => [String c EmptyString]
           end
  end.

Fixpoint lstrip (s : string) : string :=
  match s with
  | EmptyString => EmptyString
  | String c s' => if is_space c then lstrip s' else s
  end.

Fixpoint rstrip (s : string) : string :=
  match s with
  | EmptyString => EmptyString
  | String c s' =>
      match rstrip s' with
      | EmptyString => if is_space c then EmptyString else String c EmptyString
      | r => String c r
      end
  end.

(** [s.strip()] of ASCII text. *)
Definition strip (s : string) : string := rstrip (lstrip s).

(** [len(s)] of ASCII text. *)
Definition len (s : string) : Z := Z.of_nat (String.length s).

(** ** Regular expressions

    The patterns of the scraper are sequences of single-character classes
    under a greedy quantifier.  [match_here] is the backtracking matcher of
    [re]: each quantifier first takes as much as it can and gives characters
    back one at a time while the rest of the pattern fails.  The result lists
    the text each atom consumed. *)

Inductive quantifier := One | Opt | Star | Plus.

Record atom := {
  cls : ascii -> bool;
  quant : quantifier
}.

Definition pattern := list atom.

Fixpoint repeat_greedy (p : ascii -> bool)
    (k : string -> option (list string)) (taken : string) (s : string)
    : option (list string) :=
  let stop := option_map (cons taken) (k s) in
  match s with
  | String c s' =>
      if p c then
        match repeat_greedy p k (taken ++ String c EmptyString) s' with
        | Some r => Some r
        | None => stop
        end
      else stop
  | EmptyString => stop
  end.

Fixpoint match_here (pat : pattern) (s : string) : option (list string) :=
  match pat with
  | [] => Some []
  | a :: pat' =>
      let skip := option_map (cons EmptyString) (match_here pat' s) in
      match quant a, s with
      | One, String c s' =>
          if cls a c
          then option_map (cons (String c EmptyString)) (match_here pat' s')
          else None
      | One, EmptyString => None
      | Opt, String c s' =>
          if cls a c then
            match match_here pat' s' with
            | Some r => Some (String c EmptyString :: r)
            | None => skip
            end
          else skip
      | Opt, EmptyString => skip
      | Star, _ => repeat_greedy (cls a) (match_here pat') EmptyString s
      | Plus, String c s' =>
          if cls a c
          then repeat_greedy (cls a) (match_here pat') (String c EmptyString) s'
          else None
      | Plus, EmptyString => None
      end
  end.

(** [re.search(pat, s)]: the match at the leftmost position that has one. *)
Fixpoint search (pat : pattern) (s : string) : option (list string) :=
  match match_here pat s with
  | Some r => Some r
  | None =>
      match s with
      | EmptyString => None
      | String _ s' => search pat s'
      end
  end.

Definition lit (c : ascii) : atom := {| cls := Ascii.eqb c; quant := One |}.

(** The text of the first [n] atoms: a group that spans them. *)
Definition group (n : nat) (m : list string) : string :=
  List.fold_right String.append EmptyString (firstn n m).

(** [float(s)] on the texts made of digits, an optional dot and digits (all
    that the rating pattern can capture): the exact decimal value.  Any other
    text is a [ValueError], here [None]. *)
Definition digit_val (c : ascii) : Z := Z.of_nat (code c) - 48.

Fixpoint digits_val (acc : Z) (s : string) : Z :=
  match s with
  | EmptyString => acc
  | String c s' => digits_val (10 * acc + digit_val c) s'
  end.

Fixpoint span (p : ascii -> bool) (s : string) : string * string :=
  match s with
  | EmptyString => (EmptyString, EmptyString)
  | String c s' =>
      if p c then let '(a, b) := span p s' in (String c a, b)
      else (EmptyString, s)
  end.

Definition float (s : string) : option Q :=
  let '(ip, r) := span is_digit s in
  let '(fp, r') :=
    match r with
    | String c r1 =>
        if Ascii.eqb c "."%char then span is_digit r1 else (EmptyString, r)
    | EmptyString => (EmptyString, r)
    end in
  match r', (ip ++ fp)%string with
  | EmptyString, String _ _ =>
      Some (Qred (Qmake (digits_val 0 (ip ++ fp))
                        (Z.to_pos (10 ^ Z.of_nat (String.length fp)))))
  | _, _ => None
  end.

End PyStr.

(* ===================================================================== *)
(** * backend/scrapers/tripadvisor/scraper.py *)
(* ===================================================================== *)

Module Scraper.
Import PyStr.

(** ** What the browser shows

    A review card is described by what each [find_element] of the extractors
    observes on it; [None] stands for [NoSuchElementException]. *)

(** The element [a.BMQDV._F.G-.wSSLS.SwZTJ.FGwzt]: its text is the user name,
    its [href] attribute (possibly missing) the profile reference. *)
Record anchor := {
  anchor_text : string;
  href : option string
}.

(** The element [div.biGQs._P.pZUbB.KxBGd]: its text before and after the
    click on the button whose [span] carries [read_more]. *)
Record text_container := {
  collapsed : string;
  read_more : option string;
  expanded : string
}.

(** What happens when the profile reference of the card is opened in a new
    window: the script raises, no window appears, the wait for
    [span.default-typography_heading-s__fuO7P] times out, or the heading is
    read. *)
Inductive profile_visit :=
| OpenRaises
| NoNewWindow
| HeadingTimeout
| Heading (text : string).

Record card := {
  scroll_raises : bool;
  profile_link : option anchor;
  contrib_elem : option string;
  bubble : option string;
  date_elem : option string;
  text_elem : option text_container;
  profile : profile_visit
}.

(** A page: the result of the two [find_elements] calls of [scrape_page]. *)
Record page := {
  find_raises : bool;
  review_cards : list card;
  review_selector : list card
}.

(** The dict [scrape_page] builds for a card. *)
Record review := {
  username : string;
  location : string;
  rating : option Q;
  date : option string;
  text : string
}.

(** The fields of [TripAdvisorScraper] the loops read and write, and
    [opened]: the profile references passed to [window.open], oldest first. *)
Record scraper := {
  max_reviews : Z;
  reviews : list review;
  location_cache : gmap string string;
  opened : list string
}.

(** [__init__] *)
Definition init (max : Z) : scraper :=
  {| max_reviews := max; reviews := []; location_cache := ∅; opened := [] |}.

(** ** Extractors *)

(** The pattern of [extract_rating]: a group of one or more digits, an
    optional dot and any number of digits; then optional white space, the
    letters of, optional white space and the digit 5. *)
Definition rating_pattern : pattern :=
  [ {| cls := is_digit; quant := Plus |};
    {| cls := Ascii.eqb "."%char; quant := Opt |};
    {| cls := is_digit; quant := Star |};
    {| cls := is_space; quant := Star |};
    lit "o"%char; lit "f"%char;
    {| cls := is_space; quant := Star |};
    lit "5"%char ].

(** The part of [extract_rating] after the aria-label was read. *)
Definition parse_rating (aria : string) : option Q :=
  match search rating_pattern aria with
  | Some m => float (group 3 m)
  | None => None
  end.

Definition extract_rating (c : card) : option Q :=
  match bubble c with
  | Some aria => parse_rating aria
  | None => None
  end.

(** [r'(\w+\s+\d{4})'] *)
Definition date_pattern : pattern :=
  [ {| cls := is_word; quant := Plus |};
    {| cls := is_space; quant := Plus |};
    {| cls := is_digit; quant := One |};
    {| cls := is_digit; quant := One |};
    {| cls := is_digit; quant := One |};
    {| cls := is_digit; quant := One |} ].

Definition extract_date (c : card) : option string :=
  match date_elem c with
  | Some date_text =>
      if contains "wrote a review" (lower date_text) then
        match search date_pattern date_text with
        | Some m => Some (group 6 m)
        | None => None
        end
      else None
  | None => None
  end.

Definition extract_username (c : card) : string :=
  match profile_link c with
  | Some a => anchor_text a
  | None => "Anonymous"
  end.

Definition extract_review_text (c : card) : string :=
  match text_elem c with
  | Some tc =>
      match read_more tc with
      | Some label =>
          if contains "Read more" label || contains "more" (lower label)
          then expanded tc else collapsed tc
      | None => collapsed tc
      end
  | None => ""
  end.

(** The [for line in lines] loop of the first [try] of
    [get_user_location_fast]. *)
Fixpoint first_location (lines : list string) : option string :=
  match lines with
  | [] => None
  | line :: rest =>
      if negb (contains " contribution" (lower line)) then
        let location := strip line in
        if negb (String.eqb location "") && (2 <? len location)
        then Some location
        else first_location rest
      else first_location rest
  end.

(** The first [try]: the location read next to the contribution count. *)
Definition inline_location (c : card) : option string :=
  match contrib_elem c with
  | Some text =>
      if contains " contribution" (lower text)
      then first_location (split LF text)
      else None
  | None => None
  end.

Definition log_open (h : string) (s : scraper) : scraper :=
  {| max_reviews := max_reviews s; reviews := reviews s;
     location_cache := location_cache s; opened := opened s ++ [h] |}.

Definition cache_store (h v : string) (s : scraper) : scraper :=
  {| max_reviews := max_reviews s; reviews := reviews s;
     location_cache := <[h := v]> (location_cache s); opened := opened s |}.

(** The second [try]: the profile link method. *)
Definition profile_location (c : card) (s : scraper) : string * scraper :=
  match profile_link c with
  | None => ("Unknown", s)
  | Some a =>
      match href a with
      | None => ("Unknown", s)
      | Some h =>
          if String.eqb h "" then ("Unknown", s)
          else
            match location_cache s !! h with
            | Some v => (v, s)
            | None =>
                let s1 := log_open h s in
                match profile c with
                | Heading loc => (loc, cache_store h loc s1)
                | OpenRaises | NoNewWindow | HeadingTimeout => ("Unknown", s1)
                end
            end
      end
  end.

Definition get_user_location_fast (c : card) (s : scraper)
    : string * scraper :=
  match inline_location c with
  | Some loc => (loc, s)
  | None => profile_location c s
  end.

(** ** Pages *)

Definition count (l : list review) : Z := Z.of_nat (List.length l).

Definition make_review (c : card) (loc : string) : review :=
  {| username := extract_username c;
     location := loc;
     rating := extract_rating c;
     date := extract_date c;
     text := extract_review_text c |}.

(** The [for i, card in enumerate(review_cards)] loop; [reviews_on_page] is
    the list built so far. *)
Fixpoint scrape_cards (cards : list card) (reviews_on_page : list review)
    (s : scraper) : list review * scraper :=
  match cards with
  | [] => (reviews_on_page, s)
  | c :: rest =>
      if max_reviews s <=? count (reviews s) then (reviews_on_page, s)
      else if scroll_raises c then scrape_cards rest reviews_on_page s
      else
        let '(loc, s1) := get_user_location_fast c s in
        let r := make_review c loc in
        match rating r with
        | Some _ => scrape_cards rest (reviews_on_page ++ [r]) s1
        | None => scrape_cards rest reviews_on_page s1
        end
  end.

Definition found_cards (p : page) : list card :=
  match review_cards p with
  | [] => review_selector p
  | cs => cs
  end.

Definition scrape_page (p : page) (s : scraper) : list review * scraper :=
  if find_raises p then ([], s)
  else scrape_cards (found_cards p) [] s.

(** [self.reviews.extend(page_reviews)] *)
Definition extend (page_reviews : list review) (s : scraper) : scraper :=
  {| max_reviews := max_reviews s; reviews := reviews s ++ page_reviews;
     location_cache := location_cache s; opened := opened s |}.

(** How the [while] loop of [run] was left. *)
Inductive exit := LoopCondition | ReachedTarget | NoMorePages.

(** The [while len(self.reviews) < self.max_reviews] loop.  [cur] is the page
    the browser shows and [more] the pages behind its enabled next buttons:
    [go_to_next_page] succeeds exactly while [more] is not empty. *)
Fixpoint run_loop (cur : page) (more : list page) (s : scraper)
    : exit * scraper :=
  if count (reviews s) <? max_reviews s then
    let '(page_reviews, s1) := scrape_page cur s in
    let s2 := extend page_reviews s1 in
    if max_reviews s2 <=? count (reviews s2) then (ReachedTarget, s2)
    else
      match more with
      | [] => (NoMorePages, s2)
      | next :: more' => run_loop next more' s2
      end
  else (LoopCondition, s).

(** [TripAdvisorScraper(base_url, max_reviews).run()] on a site given by its
    pages. *)
Definition run (max : Z) (cur : page) (more : list page) : exit * scraper :=
  run_loop cur more (init max).

End Scraper.

(* ===================================================================== *)
(** * backend/report_service.py *)
(* ===================================================================== *)

Module ReportService.

(** A pandas float: a number or NaN. *)
Inductive number := NaN | Num (q : Q).

(** A column of the frame [pd.read_csv] returns: numbers or text, each cell
    possibly missing (NaN). *)
Inductive column :=
| NumCol (cells : list (option Q))
| StrCol (cells : list (option string)).

(** [df]: [len(df)] and the named columns, in file order. *)
Record DataFrame := {
  index : nat;
  columns : list (string * column)
}.

(** [col in df.columns] *)
Definition has_column (name : string) (df : DataFrame) : bool :=
  existsb (fun nc => String.eqb name (fst nc)) (columns df).

(** [df[col]] *)
Definition get_column (name : string) (df : DataFrame) : option column :=
  option_map snd
    (List.find (fun nc => String.eqb name (fst nc)) (columns df)).

(** The cells that are not missing. *)
Fixpoint present {A : Type} (cells : list (option A)) : list A :=
  match cells with
  | [] => []
  | Some x :: rest => x :: present rest
  | None :: rest => present rest
  end.

(** One representative of every value of the list. *)
Fixpoint unique {A : Type} (eqb : A -> A -> bool) (l : list A) : list A :=
  match l with
  | [] => []
  | x :: rest =>
      if existsb (eqb x) rest then unique eqb rest
      else x :: unique eqb rest
  end.

(** [Series.nunique()]: the number of distinct values, missing cells
    excluded. *)
Definition nunique (c : column) : nat :=
  match c with
  | NumCol cells => List.length (unique Qeq_bool (present cells))
  | StrCol cells => List.length (unique String.eqb (present cells))
  end.

Definition total (l : list Q) : Q := List.fold_right Qplus 0%Q l.

(** [Series.mean()]: the mean of the cells that are not missing, NaN when
    there is none; it raises on a text column ([None]). *)
Definition mean (c : column) : option number :=
  match c with
  | NumCol cells =>
      match present cells with
      | [] => Some NaN
      | v :: vs =>
          Some (Num (total (v :: vs) / inject_Z (Z.of_nat (List.length (v :: vs)))))
      end
  | StrCol _ => None
  end.

(** The statistics [generate_report_for_order] and [update_report_with_data]
    compute from the frame and store with the report. *)
Record stats := {
  total_reviews : nat;
  countries_count : nat;
  avg_rating : number
}.

(** [# Get country count] *)
Definition count_countries (df : DataFrame) : nat :=
  if has_column "location" df || has_column "nationality" df then
    let loc_col :=
      if has_column "location" df then "location" else "nationality" in
    match get_column loc_col df with
    | Some c => nunique c
    | None => 0%nat
    end
  else 0%nat.

(** [# Get avg rating]: the [for col in ...] loop with its [else]. *)
Fixpoint first_mean (names : list string) (df : DataFrame) : option number :=
  match names with
  | [] => Some (Num 0)
  | col :: rest =>
      match get_column col df with
      | Some c => mean c
      | None => first_mean rest df
      end
  end.

Definition mean_rating (df : DataFrame) : option number :=
  first_mean ["rating"; "overall_rating"; "stars"] df.

(** The statistics block of both functions; [None] when [mean] raises. *)
Definition read_stats (df : DataFrame) : option stats :=
  match mean_rating df with
  | Some avg =>
      Some {| total_reviews := index df;
              countries_count := count_countries df;
              avg_rating := avg |}
  | None => None
  end.

End ReportService.

(* ===================================================================== *)
(** * Notions used in the statements *)
(* ===================================================================== *)

(** ** What a pattern describes *)

Module Shape.
Import PyStr.

Fixpoint all_chars (p : ascii -> bool) (w : string) : bool :=
  match w with
  | EmptyString => true
  | String c w' => p c && all_chars p w'
  end.

(** The texts an atom stands for. *)
Definition conforms (a : atom) (w : string) : bool :=
  match quant a, w with
  | One, String c EmptyString => cls a c
  | One, _ => false
  | Opt, EmptyString => true
  | Opt, String c EmptyString => cls a c
  | Opt, _ => false
  | Star, _ => all_chars (cls a) w
  | Plus, EmptyString => false
  | Plus, _ => all_chars (cls a) w
  end.

(** The lists of texts a pattern stands for, one text per atom. *)
Fixpoint conform (pat : pattern) (m : list string) : bool :=
  match pat, m with
  | [], [] => true
  | a :: pat', w :: m' => conforms a w && conform pat' m'
  | _, _ => false
  end.

Definition join (m : list string) : string :=
  List.fold_right String.append EmptyString m.

(** Some part of [s] has the shape of [pat]. *)
Definition occurs (pat : pattern) (s : string) : Prop :=
  exists pre m post,
    conform pat m = true /\ s = (pre ++ join m ++ post)%string.

End Shape.

(** ** The queue: row updates, invariant, dequeue order and scenarios *)

Module QueueTerms.
Import TaskQueue.

(** What [worker_end] does to the row of the task it handled. *)
Definition finish_row (now : Z) (t : task) (o : outcome) (r : task_row)
    : task_row :=
  match handler (t_task_type t) o with
  | Returned res => set_completed now (Some res) r
  | Raised kind msg =>
      let r1 := set_failed now (Some (error_msg kind msg)) r in
      if t_retries t <? 3 then set_pending r1 else r1
  end.

(** What a pass of the worker loop does to the row of a task of unknown
    type. *)
Definition unknown_type_row (t0 t1 : Z) (t : task) (r : task_row)
    : task_row :=
  {| id := id r; task_type := task_type r; payload := payload r;
     status := if t_retries t <? 3 then PENDING else FAILED;
     result := result r;
     error := Some ("ValueError: Unknown task type: " ++ t_task_type t);
     created_at := created_at r; started_at := Some t0;
     completed_at := Some t1; retries := retries r + 1 |}.

(** [retries = retries + 1] once more. *)
Definition retry_again (r : task_row) : task_row :=
  {| id := id r; task_type := task_type r; payload := payload r;
     status := status r; result := result r; error := error r;
     created_at := created_at r; started_at := started_at r;
     completed_at := completed_at r; retries := retries r + 1 |}.

(** The retry counter of a row, by status. *)
Definition row_ok (r : task_row) : Prop :=
  0 <= retries r
  /\ (status r = FAILED -> retries r = 4)
  /\ (status r <> FAILED -> retries r <= 3).

(** The invariant of the queue: ids are unique and below the AUTOINCREMENT
    counter, every row is [row_ok], and the dict the worker holds agrees
    with the row it was read from, which is [processing]. *)
Definition inv (s : system) : Prop :=
  NoDup (List.map id (tasks (store s)))
  /\ (forall r, In r (tasks (store s)) ->
        id r < next_id (store s) /\ row_ok r)
  /\ match pc s with
     | Polling => True
     | Handling t =>
         t_id t < next_id (store s)
         /\ forall r, In r (tasks (store s)) -> id r = t_id t ->
              retries r = t_retries t /\ status r = PROCESSING
     end.




(** *** Scenarios *)

(** A handler that raises. *)
Definition boom : outcome := Raised "RuntimeError" "browser crashed".

(** Task 1 as [get_pending_task] returns it after [n] failures. *)
Definition attempt (n : nat) : task :=
  {| t_id := 1; t_task_type := "scrape_and_report"; t_payload := "{}";
     t_retries := Z.of_nat n |}.

(** One task enqueued in an empty queue. *)
Definition queued : db :=
  fst (add_task 100 "scrape_and_report" "{}" init_task_db).

(** The queue after the worker took task 1 [n] times and its handler
    raised each time. *)
Fixpoint failed_times (n : nat) : db :=
  match n with
  | O => queued
  | S k => worker_iteration 101 102 (attempt k) boom (failed_times k)
  end.

Definition after_failures (n : nat) : system :=
  {| store := failed_times n; pc := Polling |}.

(** Two tasks enqueued within the same second. *)
Definition two_queued : db :=
  fst (add_task 100 "scrape_and_report" "{b}"
         (fst (add_task 100 "scrape_and_report" "{a}" init_task_db))).

End QueueTerms.

(** ** The scraper: runs, pages and scenarios *)

Module ScraperTerms.
Import PyStr Scraper.

(** The card falls back to the profile reference [h]: no location is found
    next to the contribution count, and the profile link carries [h]. *)
Definition falls_back (c : card) (h : string) : Prop :=
  inline_location c = None
  /\ exists a, profile_link c = Some a /\ href a = Some h /\ h <> "".

(** What happens to the scraper within one run: the location of a card is
    resolved, or the records of a page are added to [reviews]. *)
Inductive run_step : scraper -> scraper -> Prop :=
| step_resolve c s : run_step s (snd (get_user_location_fast c s))
| step_extend rs s : run_step s (extend rs s).

(** The cards of the pages of a site. *)
Definition all_cards (pages : list page) : list card :=
  List.concat (List.map found_cards pages).

(** Every entry of the cache is the heading a card of [cs] made the scraper
    read on the profile the entry is keyed by. *)
Definition cache_from (cs : list card) (s : scraper) : Prop :=
  forall h v, location_cache s !! h = Some v ->
    exists c, In c cs /\ falls_back c h /\ profile c = Heading v.


(** The cards of a page that yield a record: the scroll does not raise and
    a rating is extracted. *)
Definition kept (c : card) : bool :=
  negb (scroll_raises c)
  && match extract_rating c with Some _ => true | None => false end.

Definition page_records (p : page) : list card :=
  if find_raises p then [] else List.filter kept (found_cards p).

(** The cards that yield the records of the first [k] pages. *)
Definition records_upto (k : nat) (pages : list page) : list card :=
  List.concat (List.map page_records (firstn k pages)).



(** *** Scenarios *)

(** The text of a block of lines. *)
Definition block (l : list string) : string :=
  List.fold_right
    (fun line rest =>
       match rest with
       | EmptyString => line
       | _ => line ++ String LF rest
       end) EmptyString l.


(** A card of the reviewer Ann, without a location next to the contribution
    count; [p] is what opening her profile gives. *)
Definition ann (p : profile_visit) : card :=
  {| scroll_raises := false;
     profile_link := Some {| anchor_text := "Ann";
                             href := Some "/Profile/ann" |};
     contrib_elem := Some "12 contributions";
     bubble := Some "5.0 of 5 bubbles";
     date_elem := Some "Ann wrote a review Mar 2023";
     text_elem := Some {| collapsed := "Great"; read_more := None;
                          expanded := "Great" |};
     profile := p |}.

(** A complete card with the rating label [label]. *)
Definition reviewer (name place label : string) : card :=
  {| scroll_raises := false;
     profile_link := Some {| anchor_text := name;
                             href := Some ("/Profile/" ++ name) |};
     contrib_elem := Some (block [place; "12 contributions"]);
     bubble := Some label;
     date_elem := Some (name ++ " wrote a review Mar 2023");
     text_elem := Some {| collapsed := "Great food"; read_more := None;
                          expanded := "Great food" |};
     profile := HeadingTimeout |}.

(** The fixture: one page, three candidate records, one without rating. *)
Definition fixture : page :=
  {| find_raises := false;
     review_cards := [ reviewer "Ann" "London, UK" "5.0 of 5 bubbles";
                       reviewer "Bob" "Paris, France" "N/A";
                       reviewer "Cid" "Zagreb, Croatia" "4.0 of 5 bubbles" ];
     review_selector := [] |}.


(** A page of three cards with a rating each. *)
Definition three_rated : page :=
  {| find_raises := false;
     review_cards := [ reviewer "Ann" "London, UK" "5.0 of 5 bubbles";
                       reviewer "Bob" "Paris, France" "3 of 5 bubbles";
                       reviewer "Cid" "Zagreb, Croatia" "4.0 of 5 bubbles" ];
     review_selector := [] |}.

End ScraperTerms.

(** ** The report: what the statistics count *)

Module ReportTerms.
Import ReportService.

(** The spec's wording of the origin count: the number of distinct
    origin_location values other than the default. *)
Definition distinct_non_default (cells : list (option string)) : nat :=
  List.length
    (unique String.eqb
       (List.filter (fun v => negb (String.eqb v "Unknown")) (present cells))).

(** What the statistics say about the rows, whatever the rating column. *)
Definition counts_rows_and_origins (df : DataFrame) (st : stats) : Prop :=
  total_reviews st = index df
  /\ forall cells, get_column "location" df = Some (StrCol cells) ->
       countries_count st = size (list_to_set (present cells) : gset string)
       /\ countries_count st
          = (distinct_non_default cells
             + (if existsb (String.eqb "Unknown") (present cells)
                then 1 else 0))%nat.

(** Four scraped rows, two of them with the default origin. *)
Definition four_rows : DataFrame :=
  {| index := 4;
     columns :=
       [ ("username", StrCol [Some "Ann"; Some "Bob"; Some "Cid"; Some "Dan"]);
         ("location", StrCol [Some "Unknown"; Some "London, UK";
                              Some "Unknown"; Some "London, UK"]);
         ("rating", NumCol [Some 4%Q; Some 5%Q; Some 3%Q; Some 4%Q]);
         ("date", StrCol [Some "Mar 2023"; None; None; None]);
         ("text", StrCol [Some "Great"; Some "Good"; None; Some "Fine"]) ] |}.

End ReportTerms.

(** ** The queue as a log: what never changes and what the columns record *)

Module QueueLog.
Import TaskQueue QueueTerms.

(** The columns of a row no statement of the worker writes. *)
Definition identity (r : task_row) : Z * string * string * Z :=
  (id r, task_type r, payload r, created_at r).

(** What the other columns record about the attempts made on the task. *)
Definition record_ok (r : task_row) : Prop :=
  (error r = None <-> retries r = 0)
  /\ (result r = None <-> status r <> COMPLETED)
  /\ (started_at r = None <-> status r = PENDING /\ retries r = 0)
  /\ (completed_at r = None <-> retries r = 0 /\ status r <> COMPLETED).

(** The row of the task the worker holds. *)
Definition in_flight (s : system) (r : task_row) : Prop :=
  match pc s with
  | Polling => False
  | Handling t => id r = t_id t
  end.

Definition log_inv (s : system) : Prop :=
  1 <= next_id (store s)
  /\ forall r, In r (tasks (store s)) -> 1 <= id r /\ record_ok r.

(** One task enqueued and taken by a worker that was stopped in its
    handler; then a second task enqueued and taken by the next worker. *)
Definition worker_stopped : system :=
  {| store := worker_begin 101 (attempt 0) queued; pc := Polling |}.

Definition second_task_taken : system :=
  let d := fst (add_task 103 "scrape_and_report" "{}"
                  (store worker_stopped)) in
  let t := {| t_id := 2; t_task_type := "scrape_and_report";
              t_payload := "{}"; t_retries := 0 |} in
  {| store := worker_begin 104 t d; pc := Handling t |}.

(** The row [add_task] inserts. *)
Definition new_row (now : Z) (ty pl : string) (d : db) : task_row :=
  {| id := next_id d; task_type := ty; payload := pl; status := PENDING;
     result := None; error := None; created_at := now; started_at := None;
     completed_at := None; retries := 0 |}.

End QueueLog.

(* ===================================================================== *)
(** * backend/scrapers/tripadvisor/scraper.py, continued *)
(* ===================================================================== *)

Module ScraperMore.
Import PyStr Scraper.

(** The [while current < total_height] loop of [quick_scroll].  [draws] are
    the values [random.randint(500, 800)] returns, in order; the result lists
    the positions passed to [window.scrollTo], and is [None] when the loop
    asks for more draws than the list holds. *)
Fixpoint scroll_loop (draws : list Z) (total_height current : Z)
    : option (list Z) :=
  if current <? total_height then
    match draws with
    | [] => None
    | scroll :: rest =>
        let current' := current + scroll in
        option_map (cons current') (scroll_loop rest total_height current')
    end
  else Some [].

(** [quick_scroll]: [current = 0] before the loop. *)
Definition quick_scroll (draws : list Z) (total_height : Z)
    : option (list Z) :=
  scroll_loop draws total_height 0.

(** The pattern of [save_results]: the text Reviews- followed by a group of
    one or more characters other than the hyphen, and a hyphen. *)
Definition name_pattern : pattern :=
  [ lit "R"%char; lit "e"%char; lit "v"%char; lit "i"%char; lit "e"%char;
    lit "w"%char; lit "s"%char; lit "-"%char;
    {| cls := fun c => negb (Ascii.eqb c "-"%char); quant := Plus |};
    lit "-"%char ].

(** [name_match.group(1) if name_match else "restaurant"] *)
Definition restaurant_name (base_url : string) : string :=
  match search name_pattern base_url with
  | Some m => nth 8 m EmptyString
  | None => "restaurant"
  end.

(** [os.path.join(a, b)] on POSIX paths. *)
Fixpoint ends_with_slash (a : string) : bool :=
  match a with
  | EmptyString => false
  | String c EmptyString => Ascii.eqb c "/"%char
  | String _ a' => ends_with_slash a'
  end.

Definition path_join (a b : string) : string :=
  if startswith "/" b then b
  else if String.eqb a "" || ends_with_slash a then a ++ b
  else a ++ "/" ++ b.

(** [save_results]: nothing is written when no review was collected;
    otherwise the CSV goes to [output_dir] under a name made of the
    restaurant name and [timestamp], the text [strftime] gives, and the
    file path is returned. *)
Definition save_results (base_url timestamp output_dir : string)
    (s : scraper) : option string :=
  match reviews s with
  | [] => None
  | _ :: _ =>
      let filename :=
        "tripadvisor_" ++ restaurant_name base_url ++ "_" ++ timestamp
        ++ ".csv" in
      Some (path_join output_dir filename)
  end.

End ScraperMore.

(** ** Further notions on runs of the scraper *)

Module ScraperTermsMore.
Import PyStr Scraper ScraperTerms.

(** The references in the cache were opened, each entry by a visit of its
    own. *)
Definition cache_paid (s : scraper) : Prop :=
  (forall h v, location_cache s !! h = Some v -> In h (opened s))
  /\ (size (location_cache s) <= List.length (opened s))%nat.


End ScraperTermsMore.

(* ===================================================================== *)
(** * The orders and reports database, and the code that writes it

    [backend/main.py] ([init_db] and the request handlers),
    [backend/report_service.py] and [process_scrape_task] of
    [backend/task_queue.py].  Calls that leave the repository (the browser,
    pandas, the report generator, the PDF printer, the mail API, uuid, the
    clock) are given by what they return or raise; creating directories
    and writing files is taken to succeed, the modules of the repository to
    import, and the database to be available: a statement raises only when
    it violates a constraint.  A time is a reading of
    [datetime.now()], counted in microseconds, the resolution of
    [datetime]. *)
(* ===================================================================== *)

Module Backend.
Import TaskQueue Scraper ReportService.

(** An exception: [type(e).__name__] and [str(e)]. *)
Definition exn : Type := string * string.

(** ** config.py *)

(** The settings read from the environment or computed from the install
    path. *)
Record Settings := {
  BASE_URL : string;
  REPORTS_PATH : string;
  ADMIN_API_KEY : string
}.

Definition REPORT_EXPIRY_DAYS : Z := 90.

(** [timedelta(days=d)] *)
Definition timedelta_days (d : Z) : Z := d * 86400000000.

(** ** The tables of [init_db]

    A column that no statement of the code writes or reads is left out;
    [NULL] is [None].  A [NaN] bound to the REAL column [avg_rating] is
    kept as [NaN]. *)

Record report_row := {
  rp_id : string;
  rp_order_id : string;
  rp_restaurant_name : option string;
  rp_total_reviews : nat;
  rp_countries_count : nat;
  rp_avg_rating : number;
  rp_positive_pct : Q;
  rp_html_path : string;
  rp_pdf_path : string;
  rp_expires_at : option Z;
  rp_view_count : Z
}.

Record order_row := {
  o_id : string;
  o_email : string;
  o_restaurant_url : string;
  o_restaurant_name : option string;
  o_stripe_session_id : option string;
  o_stripe_payment_intent : option string;
  o_status : string;
  o_amount : option Z;
  o_report_id : option string;
  o_report_url : option string;
  o_expires_at : option Z;
  o_updated_at : Z
}.

(** A mail handed to the mail API. *)
Record email := {
  to_email : option string;
  report_url : string;
  pdf_url : string;
  mail_restaurant_name : option string
}.

(** The database file and the mails sent so far. *)
Record world := {
  reports : list report_row;
  orders : list order_row;
  outbox : list email
}.

(** [init_db] on a new file: both tables are created empty. *)
Definition init_db : world := {| reports := []; orders := []; outbox := [] |}.

(** Code that reads and writes the database and may raise: what was
    written before an exception stays written. *)
Definition M (A : Type) : Type := world -> (exn + A) * world.

Definition ret {A : Type} (a : A) : M A := fun w => (inr a, w).

Definition raise {A : Type} (e : exn) : M A := fun w => (inl e, w).

Definition bind {A B : Type} (m : M A) (f : A -> M B) : M B :=
  fun w =>
    match m w with
    | (inl e, w') => (inl e, w')
    | (inr a, w') => f a w'
    end.

(** A call out of the repository: it returns or raises, and leaves the
    database alone. *)
Definition call {A : Type} (x : exn + A) : M A := fun w => (x, w).

Definition may_raise (e : option exn) : M unit :=
  match e with
  | Some x => raise x
  | None => ret tt
  end.

(** A statement that is executed and committed. *)
Definition execute (f : world -> world) : M unit := fun w => (inr tt, f w).

Declare Scope db_scope.
Delimit Scope db_scope with db.
Bind Scope db_scope with M.

Notation "x <- c1 ;; c2" := (bind c1 (fun x => c2))
  (at level 100, c1 at next level, right associativity) : db_scope.
Notation "c1 ;; c2" := (bind c1 (fun _ => c2))
  (at level 100, right associativity) : db_scope.
Local Open Scope db_scope.

(** [SELECT * FROM reports WHERE id = ?]; [id] is the primary key. *)
Definition find_report (report_id : string) (w : world) : option report_row :=
  List.find (fun r => String.eqb (rp_id r) report_id) (reports w).

(** [SELECT * FROM orders WHERE id = ?]; [id] is the primary key. *)
Definition find_order (order_id : string) (w : world) : option order_row :=
  List.find (fun o => String.eqb (o_id o) order_id) (orders w).

(** [SELECT id FROM reports WHERE order_id = ?] followed by [fetchone]:
    [order_id] is no key, so the query may deliver any row of that order. *)
Definition reports_of (order_id : string) (w : world) : list report_row :=
  List.filter (fun r => String.eqb (rp_order_id r) order_id) (reports w).

Definition existing_report (order_id : string) (w : world)
    (existing : option string) : Prop :=
  match existing with
  | None => reports_of order_id w = []
  | Some i => exists r, In r (reports_of order_id w) /\ rp_id r = i
  end.

(** [INSERT INTO reports]: the primary key rejects an id in use. *)
Definition insert_report (row : report_row) : M unit :=
  fun w =>
    if existsb (fun r => String.eqb (rp_id r) (rp_id row)) (reports w)
    then (inl ("IntegrityError", "UNIQUE constraint failed: reports.id"), w)
    else (inr tt, {| reports := reports w ++ [row]; orders := orders w;
                     outbox := outbox w |}).

Definition update_reports (report_id : string)
    (f : report_row -> report_row) (w : world) : world :=
  {| reports :=
       List.map (fun r => if String.eqb (rp_id r) report_id then f r else r)
         (reports w);
     orders := orders w; outbox := outbox w |}.

Definition update_orders (p : order_row -> bool)
    (f : order_row -> order_row) (w : world) : world :=
  {| reports := reports w;
     orders := List.map (fun o => if p o then f o else o) (orders w);
     outbox := outbox w |}.

Definition send (m : email) (w : world) : world :=
  {| reports := reports w; orders := orders w;
     outbox := outbox w ++ [m] |}.

(** ** report_service.py *)

(** What the calls out of [generate_report_for_order] and
    [update_report_with_data] do. *)
Record report_io := {
  new_id : string;
  clock : Z;
  generate_report_raises : option exn;
  generate_pdf_raises : option exn;
  mean_raises : exn
}.

(** [SET total_reviews = ?, countries_count = ?, avg_rating = ?] *)
Definition set_stats (st : stats) (r : report_row) : report_row :=
  {| rp_id := rp_id r; rp_order_id := rp_order_id r;
     rp_restaurant_name := rp_restaurant_name r;
     rp_total_reviews := total_reviews st;
     rp_countries_count := countries_count st;
     rp_avg_rating := avg_rating st;
     rp_positive_pct := rp_positive_pct r;
     rp_html_path := rp_html_path r; rp_pdf_path := rp_pdf_path r;
     rp_expires_at := rp_expires_at r; rp_view_count := rp_view_count r |}.

(** The statistics block, with the exception of [mean] on a text column. *)
Definition stats_of (io : report_io) (df : DataFrame) : exn + stats :=
  match read_stats df with
  | Some st => inr st
  | None => inl (mean_raises io)
  end.

(** [generate_report_for_order].  [csv] is [None] when no CSV path is given
    or the file does not exist, and otherwise what [pd.read_csv] returns or
    raises. *)
Definition generate_report_for_order (cfg : Settings) (io : report_io)
    (order_id : string) (restaurant_name : option string)
    (csv : option (exn + DataFrame)) : M string :=
  let report_id := new_id io in
  let report_dir := REPORTS_PATH cfg ++ "/" ++ report_id in
  figures <-
    match csv with
    | Some read =>
        may_raise (generate_report_raises io) ;;
        df <- call read ;;
        st <- call (stats_of io df) ;;
        ret (total_reviews st, countries_count st, avg_rating st, 85%Q)
    | None => ret (0%nat, 0%nat, Num 0, 0%Q)
    end ;;
  let '(total, countries, avg, positive) := figures in
  may_raise (generate_pdf_raises io) ;;
  insert_report
    {| rp_id := report_id; rp_order_id := order_id;
       rp_restaurant_name := restaurant_name;
       rp_total_reviews := total; rp_countries_count := countries;
       rp_avg_rating := avg; rp_positive_pct := positive;
       rp_html_path := report_dir ++ "/index.html";
       rp_pdf_path := report_dir ++ "/report.pdf";
       rp_expires_at := Some (clock io + timedelta_days REPORT_EXPIRY_DAYS);
       rp_view_count := 0 |} ;;
  ret report_id.

(** [update_report_with_data] *)
Definition update_report_with_data (io : report_io) (report_id : string)
    (read : exn + DataFrame) : M unit :=
  may_raise (generate_report_raises io) ;;
  may_raise (generate_pdf_raises io) ;;
  df <- call read ;;
  st <- call (stats_of io df) ;;
  execute (update_reports report_id (set_stats st)).

(** ** process_scrape_task *)

(** A JSON payload: a dict whose values are strings or null. *)
Abbreviation payload := (gmap string (option string)).

(** What the calls out of [process_scrape_task] do: the browser on the
    restaurant URL (an exception, or the pages the scraper sees), what
    [pd.read_csv] makes of the CSV written from the reviews, the report
    calls, and the mail call: the exception [send_report_email] raises, if
    any, and, when it raises, whether the mail API had taken the mail all
    the same (the answer to the POST is lost, or is not JSON). *)
Record task_io := {
  site : option string -> exn + (page * list page);
  read_back : list review -> exn + DataFrame;
  report_calls : report_io;
  send_raises : option exn;
  mail_taken : bool
}.

(** [payload[key]] *)
Definition item (p : payload) (key : string) : M (option string) :=
  match p !! key with
  | Some v => ret v
  | None => raise ("KeyError", "'" ++ key ++ "'")
  end.

(** [settings.REPORTS_PATH / order_id] *)
Definition path_under_reports (order_id : option string) : M string :=
  match order_id with
  | Some i => ret i
  | None =>
      raise ("TypeError",
             "unsupported operand type(s) for /: 'PosixPath' and 'NoneType'")
  end.

Definition set_completed_order (report_id : string) (o : order_row)
    : order_row :=
  {| o_id := o_id o; o_email := o_email o;
     o_restaurant_url := o_restaurant_url o;
     o_restaurant_name := o_restaurant_name o;
     o_stripe_session_id := o_stripe_session_id o;
     o_stripe_payment_intent := o_stripe_payment_intent o;
     o_status := "completed"; o_amount := o_amount o;
     o_report_id := Some report_id; o_report_url := o_report_url o;
     o_expires_at := o_expires_at o; o_updated_at := o_updated_at o |}.

(** [send_report_email]: the mail is posted to the mail API, and the call
    returns or raises; a call that raises may have left the mail with the
    API. *)
Definition send_report_email (raises : option exn) (taken : bool)
    (m : email) : M unit :=
  match raises with
  | None => execute (send m)
  | Some e => if taken then execute (send m) ;; raise e else raise e
  end.

(** The body of [process_scrape_task]; [existing] is what the query for a
    report of the order returned. *)
Definition scrape_and_report (cfg : Settings) (io : task_io)
    (existing : option string) (p : payload) : M string :=
  order_id <- item p "order_id" ;;
  restaurant_url <- item p "restaurant_url" ;;
  restaurant_name <- item p "restaurant_name" ;;
  customer_email <- item p "email" ;;
  order_id <- path_under_reports order_id ;;
  pages <- call (site io restaurant_url) ;;
  let '(cur, more) := pages in
  let reviews := Scraper.reviews (snd (run 500 cur more)) in
  let read := read_back io reviews in
  report_id <-
    match existing with
    | Some report_id =>
        update_report_with_data (report_calls io) report_id read ;;
        ret report_id
    | None =>
        generate_report_for_order cfg (report_calls io) order_id
          restaurant_name (Some read)
    end ;;
  send_report_email (send_raises io) (mail_taken io)
    {| to_email := customer_email;
       report_url := BASE_URL cfg ++ "/r/" ++ report_id;
       pdf_url := BASE_URL cfg ++ "/r/" ++ report_id ++ "/pdf";
       mail_restaurant_name := restaurant_name |} ;;
  execute (update_orders (fun o => String.eqb (o_id o) order_id)
             (set_completed_order report_id)) ;;
  ret ("Success: " ++ report_id).

(** [process_scrape_task(payload)] as the worker sees it: the result, or
    the exception its [except] clause raises again, and the database
    afterwards. *)
Definition process_scrape_task (cfg : Settings) (io : task_io)
    (existing : option string) (p : payload) (w : world) : outcome * world :=
  match scrape_and_report cfg io existing p w with
  | (inr res, w') => (Returned res, w')
  | (inl (kind, msg), w') => (Raised kind msg, w')
  end.


(** ** main.py: the request handlers *)

(** What a handler answers: a response, or the [HTTPException] it raises;
    an exception nothing catches is answered with status 500. *)
Inductive response :=
| JSONResponse (body : list (string * string))
| ScrapeResponse (order_id status message : string)
| CheckoutResponse (checkout_url session_id : string)
| HTMLResponse (content : string)
| FileResponse (path media_type filename : string)
| HTTPException (status_code : Z) (detail : string)
| InternalServerError.

(** A path of the file system: nothing there, something that cannot be
    read as text, or a file with its text. *)
Inductive file :=
| Missing
| Unreadable
| Text (content : string).

(** [str(x)] of a string or [None], as an f-string formats it. *)
Definition format (x : option string) : string :=
  match x with
  | Some s => s
  | None => "None"
  end.

(** [if report["expires_at"]: ... if datetime.now() > expires] *)
Definition expired (now : Z) (r : report_row) : bool :=
  match rp_expires_at r with
  | Some expires => expires <? now
  | None => false
  end.

(** [SET view_count = view_count + 1] *)
Definition add_view (r : report_row) : report_row :=
  {| rp_id := rp_id r; rp_order_id := rp_order_id r;
     rp_restaurant_name := rp_restaurant_name r;
     rp_total_reviews := rp_total_reviews r;
     rp_countries_count := rp_countries_count r;
     rp_avg_rating := rp_avg_rating r;
     rp_positive_pct := rp_positive_pct r;
     rp_html_path := rp_html_path r; rp_pdf_path := rp_pdf_path r;
     rp_expires_at := rp_expires_at r;
     rp_view_count := rp_view_count r + 1 |}.

(** [view_report] *)
Definition view_report (now : Z) (fs : string -> file) (report_id : string)
    (w : world) : response * world :=
  match find_report report_id w with
  | None => (HTTPException 404 "Report not found", w)
  | Some report =>
      if expired now report then (HTTPException 410 "Report has expired", w)
      else
        let w' := update_reports report_id add_view w in
        match fs (rp_html_path report) with
        | Missing => (HTTPException 404 "Report file not found", w')
        | Unreadable => (InternalServerError, w')
        | Text content => (HTMLResponse content, w')
        end
  end.

(** [download_report_pdf]: it only reads the database. *)
Definition download_report_pdf (now : Z) (fs : string -> file)
    (report_id : string) (w : world) : response :=
  match find_report report_id w with
  | None => HTTPException 404 "Report not found"
  | Some report =>
      if expired now report then HTTPException 410 "Report has expired"
      else
        match fs (rp_pdf_path report) with
        | Missing => HTTPException 404 "PDF not found"
        | _ =>
            FileResponse (rp_pdf_path report) "application/pdf"
              ("ReviewIQ_" ++ format (rp_restaurant_name report) ++ ".pdf")
        end
  end.

(** [process_order]'s update of the order. *)
Definition set_delivered (report_id url : string) (expires now : Z)
    (o : order_row) : order_row :=
  {| o_id := o_id o; o_email := o_email o;
     o_restaurant_url := o_restaurant_url o;
     o_restaurant_name := o_restaurant_name o;
     o_stripe_session_id := o_stripe_session_id o;
     o_stripe_payment_intent := o_stripe_payment_intent o;
     o_status := "completed"; o_amount := o_amount o;
     o_report_id := Some report_id; o_report_url := Some url;
     o_expires_at := Some expires; o_updated_at := now |}.

(** [SET status = ?, updated_at = CURRENT_TIMESTAMP] *)
Definition set_status (st : string) (now : Z) (o : order_row) : order_row :=
  {| o_id := o_id o; o_email := o_email o;
     o_restaurant_url := o_restaurant_url o;
     o_restaurant_name := o_restaurant_name o;
     o_stripe_session_id := o_stripe_session_id o;
     o_stripe_payment_intent := o_stripe_payment_intent o;
     o_status := st; o_amount := o_amount o;
     o_report_id := o_report_id o; o_report_url := o_report_url o;
     o_expires_at := o_expires_at o; o_updated_at := now |}.

(** What the calls out of [process_order] do; [order_clock] is the clock
    read for the order's [expires_at], [db_now] the database's
    CURRENT_TIMESTAMP; the mail call is given as in [task_io]. *)
Record order_io := {
  order_report_calls : report_io;
  order_clock : Z;
  db_now : Z;
  order_send_raises : option exn;
  order_mail_taken : bool
}.

(** The [try] block of [process_order]. *)
Definition deliver (cfg : Settings) (io : order_io) (order_id : string)
    (email : option string) (restaurant_name : option string) : M unit :=
  report_id <-
    generate_report_for_order cfg (order_report_calls io) order_id
      restaurant_name None ;;
  let url := BASE_URL cfg ++ "/r/" ++ report_id in
  execute (update_orders (fun o => String.eqb (o_id o) order_id)
             (set_delivered report_id url
                (order_clock io + timedelta_days 90) (db_now io))) ;;
  send_report_email (order_send_raises io) (order_mail_taken io)
    {| to_email := email; report_url := url;
       pdf_url := BASE_URL cfg ++ "/r/" ++ report_id ++ "/pdf";
       mail_restaurant_name := restaurant_name |}.

(** [process_order]: every exception of the [try] block ends in the
    [except] clause. *)
Definition process_order (cfg : Settings) (io : order_io) (order_id : string)
    (email : option string) (restaurant_name : option string) (w : world)
    : world :=
  match deliver cfg io order_id email restaurant_name w with
  | (inr _, w') => w'
  | (inl _, w') =>
      update_orders (fun o => String.eqb (o_id o) order_id)
        (set_status "error" (db_now io)) w'
  end.

(** *** The handlers that queue a task *)

(** The database file: the tables of [init_db] and the task table. *)
Record server := {
  data : world;
  queue : db
}.

(** A Stripe checkout session, as far as the handler reads it. *)
Record session := {
  s_id : string;
  s_payment_intent : option string;
  s_amount_total : option Z
}.

(** What [stripe.Webhook.construct_event] does with a request: one of the
    two exceptions the handler catches, or the event. *)
Inductive construct_event :=
| ValueError
| SignatureVerificationError
| Event (type : string) (object : session).

Definition with_session (sid : string) (o : order_row) : bool :=
  match o_stripe_session_id o with
  | Some i => String.eqb i sid
  | None => false
  end.

(** [SELECT * FROM orders WHERE stripe_session_id = ?] followed by
    [fetchone]: the column is no key, so the query may deliver any order of
    that session. *)
Definition session_order (sid : string) (w : world)
    (order : option order_row) : Prop :=
  match order with
  | None => List.filter (with_session sid) (orders w) = []
  | Some o => In o (List.filter (with_session sid) (orders w))
  end.

(** The webhook's update of a paid order. *)
Definition set_paid (s : session) (now : Z) (o : order_row) : order_row :=
  {| o_id := o_id o; o_email := o_email o;
     o_restaurant_url := o_restaurant_url o;
     o_restaurant_name := o_restaurant_name o;
     o_stripe_session_id := o_stripe_session_id o;
     o_stripe_payment_intent := s_payment_intent s;
     o_status := "paid"; o_amount := s_amount_total s;
     o_report_id := o_report_id o; o_report_url := o_report_url o;
     o_expires_at := o_expires_at o; o_updated_at := now |}.

(** The payload of a scrape task. *)
Definition scrape_payload (order_id email restaurant_url : string)
    (restaurant_name : option string) : payload :=
  <[ "order_id" := Some order_id ]>
    (<[ "email" := Some email ]>
       (<[ "restaurant_url" := Some restaurant_url ]>
          (<[ "restaurant_name" := restaurant_name ]> ∅))).

(** [stripe_webhook].  [dumps] is [json.dumps]; [now] and [queued_at] are
    the database's CURRENT_TIMESTAMP at the update and at [add_task];
    [order] is what the query for the order of the session returned, after
    the update. *)
Definition stripe_webhook (dumps : payload -> string) (now queued_at : Z)
    (request : construct_event) (order : option order_row) (s : server)
    : response * server :=
  match request with
  | ValueError => (HTTPException 400 "Invalid payload", s)
  | SignatureVerificationError => (HTTPException 400 "Invalid signature", s)
  | Event type object =>
      let s' :=
        if String.eqb type "checkout.session.completed" then
          let paid :=
            update_orders (with_session (s_id object)) (set_paid object now)
              (data s) in
          match order with
          | Some o =>
              {| data := paid;
                 queue :=
                   fst (add_task queued_at "scrape_and_report"
                          (dumps (scrape_payload (o_id o) (o_email o)
                                    (o_restaurant_url o)
                                    (o_restaurant_name o)))
                          (queue s)) |}
          | None => {| data := paid; queue := queue s |}
          end
        else if String.eqb type "checkout.session.expired" then
          {| data :=
               update_orders (with_session (s_id object))
                 (set_status "expired" now) (data s);
             queue := queue s |}
        else s in
      (JSONResponse [("status", "success")], s')
  end.

(** [INSERT INTO orders]: the primary key rejects an id in use. *)
Definition insert_order (row : order_row) : M unit :=
  fun w =>
    if existsb (fun o => String.eqb (o_id o) (o_id row)) (orders w)
    then (inl ("IntegrityError", "UNIQUE constraint failed: orders.id"), w)
    else (inr tt, {| reports := reports w; orders := orders w ++ [row];
                     outbox := outbox w |}).

Record ScrapeRequest := {
  req_email : string;
  req_restaurant_url : string;
  req_restaurant_name : option string
}.

(** [request.restaurant_name or "Restaurant"] *)
Definition name_or_default (name : option string) : string :=
  match name with
  | Some EmptyString | None => "Restaurant"
  | Some n => n
  end.

(** [start_scrape].  [order_id] is the first eight characters of the new
    uuid; [now] and [queued_at] are the database's CURRENT_TIMESTAMP at the
    insertion and at [add_task]. *)
Definition start_scrape (dumps : payload -> string) (order_id : string)
    (now queued_at : Z) (request : ScrapeRequest) (s : server)
    : response * server :=
  let restaurant_name := name_or_default (req_restaurant_name request) in
  match
    insert_order
      {| o_id := order_id; o_email := req_email request;
         o_restaurant_url := req_restaurant_url request;
         o_restaurant_name := Some restaurant_name;
         o_stripe_session_id := None; o_stripe_payment_intent := None;
         o_status := "processing"; o_amount := None;
         o_report_id := None; o_report_url := None;
         o_expires_at := None; o_updated_at := now |} (data s)
  with
  | (inl (_, msg), w) =>
      (HTTPException 500 msg, {| data := w; queue := queue s |})
  | (inr _, w) =>
      let '(q, task_id) :=
        add_task queued_at "scrape_and_report"
          (dumps (scrape_payload order_id (req_email request)
                    (req_restaurant_url request) (Some restaurant_name)))
          (queue s) in
      (ScrapeResponse order_id "queued"
         ("Scraping started! Task ID: " ++ pretty task_id
          ++ ". Check /order/" ++ order_id ++ " for status."),
       {| data := w; queue := q |})
  end.

Record CheckoutRequest := {
  ck_email : string;
  ck_restaurant_url : string;
  ck_restaurant_name : option string
}.

(** What [stripe.checkout.Session.create] does: it raises a
    [StripeError] or another exception, with its text, or returns the
    session with its id and URL. *)
Inductive session_create :=
| StripeError (msg : string)
| OtherError (msg : string)
| Session (id url : string).

(** [create_checkout].  [order_id] is the first eight characters of the new
    uuid, [now] the database's CURRENT_TIMESTAMP. *)
Definition create_checkout (order_id : string) (now : Z)
    (stripe : session_create) (request : CheckoutRequest) (w : world)
    : response * world :=
  match stripe with
  | StripeError msg => (HTTPException 400 msg, w)
  | OtherError msg => (HTTPException 500 msg, w)
  | Session sid url =>
      match
        insert_order
          {| o_id := order_id; o_email := ck_email request;
             o_restaurant_url := ck_restaurant_url request;
             o_restaurant_name := ck_restaurant_name request;
             o_stripe_session_id := Some sid;
             o_stripe_payment_intent := None;
             o_status := "pending"; o_amount := None;
             o_report_id := None; o_report_url := None;
             o_expires_at := None; o_updated_at := now |} w
      with
      | (inl (_, msg), w') => (HTTPException 500 msg, w')
      | (inr _, w') => (CheckoutResponse url sid, w')
      end
  end.

End Backend.

(** ** The database: what the statements speak about *)

Module BackendTerms.
Import TaskQueue Scraper ReportService Backend ScraperTerms ReportTerms.

(** The figures a report row holds for the data [csv]. *)
Definition holds_figures (csv : option (exn + DataFrame)) (r : report_row)
    : Prop :=
  match csv with
  | None =>
      rp_total_reviews r = 0%nat /\ rp_countries_count r = 0%nat
      /\ rp_avg_rating r = Num 0 /\ rp_positive_pct r = 0%Q
  | Some read =>
      exists df st,
        read = inr df /\ read_stats df = Some st
        /\ rp_total_reviews r = total_reviews st
        /\ rp_countries_count r = countries_count st
        /\ rp_avg_rating r = avg_rating st
        /\ rp_positive_pct r = 85%Q
  end.

(** The report step of [process_scrape_task]: the report found for the
    order is updated, or a new one is generated. *)
Definition report_step (cfg : Settings) (io : task_io)
    (existing : option string) (order_id : string)
    (restaurant_name : option string) (read : exn + DataFrame) : M string :=
  match existing with
  | Some report_id =>
      bind (update_report_with_data (report_calls io) report_id read)
        (fun _ => ret report_id)
  | None =>
      generate_report_for_order cfg (report_calls io) order_id
        restaurant_name (Some read)
  end.

(** The mail about the report [report_id]. *)
Definition mail_of (cfg : Settings) (report_id : string)
    (to name : option string) : email :=
  {| to_email := to;
     report_url := BASE_URL cfg ++ "/r/" ++ report_id;
     pdf_url := BASE_URL cfg ++ "/r/" ++ report_id ++ "/pdf";
     mail_restaurant_name := name |}.

(** The data the scraper of a task hands to the report step. *)
Definition scraped (io : task_io) (cur : page) (more : list page)
    : exn + DataFrame :=
  read_back io (Scraper.reviews (snd (run 500 cur more))).

(** Two rows of the reports table that differ at most in the statistics
    and the view count. *)
Definition same_report (r r' : report_row) : Prop :=
  rp_id r' = rp_id r /\ rp_order_id r' = rp_order_id r
  /\ rp_restaurant_name r' = rp_restaurant_name r
  /\ rp_positive_pct r' = rp_positive_pct r
  /\ rp_html_path r' = rp_html_path r /\ rp_pdf_path r' = rp_pdf_path r
  /\ rp_expires_at r' = rp_expires_at r.

(** The statistics columns of a report row are those of the data [read]. *)
Definition holds_statistics (read : exn + DataFrame) (r : report_row)
    : Prop :=
  exists df st,
    read = inr df /\ read_stats df = Some st
    /\ rp_total_reviews r = total_reviews st
    /\ rp_countries_count r = countries_count st
    /\ rp_avg_rating r = avg_rating st.

(** The keys [process_scrape_task] reads from its payload. *)
Definition task_keys : list string :=
  ["order_id"; "restaurant_url"; "restaurant_name"; "email"].

(** The orders table once the order [order_id] is completed with the report
    [report_id]. *)
Definition completed_orders (order_id report_id : string)
    (l : list order_row) : list order_row :=
  List.map
    (fun o =>
       if String.eqb (o_id o) order_id then set_completed_order report_id o
       else o) l.

(** A report found in [w] is found in [w'], the same but for its
    statistics, with a view count that has not dropped. *)
Definition reports_kept (w w' : world) : Prop :=
  forall rid r,
    find_report rid w = Some r ->
    exists r',
      find_report rid w' = Some r' /\ same_report r r'
      /\ rp_view_count r <= rp_view_count r'.

(** What [view_report] answers for a report that has not expired. *)
Definition page_at (fs : string -> file) (path : string) : response :=
  match fs path with
  | Missing => HTTPException 404 "Report file not found"
  | Unreadable => InternalServerError
  | Text content => HTMLResponse content
  end.

(** What [download_report_pdf] answers for a report that has not
    expired. *)
Definition pdf_at (fs : string -> file) (path : string)
    (name : option string) : response :=
  match fs path with
  | Missing => HTTPException 404 "PDF not found"
  | _ =>
      FileResponse path "application/pdf"
        ("ReviewIQ_" ++ format name ++ ".pdf")
  end.

(** The orders table after the webhook's update for a paid session. *)
Definition paid (object : session) (now : Z) (w : world) : world :=
  update_orders (with_session (s_id object)) (set_paid object now) w.

(** The payload of the scrape task for an order. *)
Definition payload_of (o : order_row) : payload :=
  scrape_payload (o_id o) (o_email o) (o_restaurant_url o)
    (o_restaurant_name o).

(** The event of a completed checkout session. *)
Definition completed (object : session) : construct_event :=
  Event "checkout.session.completed" object.

(** Whatever the modelled code does to the database. *)
Inductive change : world -> world -> Prop :=
| change_generate cfg io order_id name csv w :
    change w (snd (generate_report_for_order cfg io order_id name csv w))
| change_update io report_id read w :
    change w (snd (update_report_with_data io report_id read w))
| change_scrape cfg io existing p w :
    change w (snd (process_scrape_task cfg io existing p w))
| change_order cfg io order_id email name w :
    change w (process_order cfg io order_id email name w)
| change_view now fs report_id w :
    change w (snd (view_report now fs report_id w))
| change_webhook dumps now queued_at request order s :
    change (data s)
      (data (snd (stripe_webhook dumps now queued_at request order s)))
| change_start dumps order_id now queued_at request s :
    change (data s)
      (data (snd (start_scrape dumps order_id now queued_at request s)))
| change_checkout order_id now stripe request w :
    change w (snd (create_checkout order_id now stripe request w)).

(** What the worker and the request handlers do to the database; the
    query of a scrape task for a report of its order is answered from the
    database. *)
Inductive served : world -> world -> Prop :=
| served_scrape cfg io existing p w :
    (forall oid, p !! "order_id" = Some (Some oid) ->
       existing_report oid w existing) ->
    served w (snd (process_scrape_task cfg io existing p w))
| served_view now fs report_id w :
    served w (snd (view_report now fs report_id w))
| served_webhook dumps now queued_at request order s :
    served (data s)
      (data (snd (stripe_webhook dumps now queued_at request order s)))
| served_start dumps order_id now queued_at request s :
    served (data s)
      (data (snd (start_scrape dumps order_id now queued_at request s)))
| served_checkout order_id now stripe request w :
    served w (snd (create_checkout order_id now stripe request w)).

(** *** Scenarios *)

Definition local_settings : Settings :=
  {| BASE_URL := "http://localhost:8000"; REPORTS_PATH := "/app/reports";
     ADMIN_API_KEY := "change-this-in-production" |}.

(** Report calls that do not raise, with the uuid and the clock they see. *)
Definition report_calls_at (uuid : string) (now : Z) : report_io :=
  {| new_id := uuid; clock := now;
     generate_report_raises := None; generate_pdf_raises := None;
     mean_raises := ("TypeError", "Could not convert to numeric") |}.

(** A site of one page whose reviews read back as four rows; the mail API
    does what [mail] says. *)
Definition one_page_site (mail : option exn) : task_io :=
  {| site := fun _ => inr (fixture, []);
     read_back := fun _ => inr four_rows;
     report_calls := report_calls_at "0123456789ab" 1000;
     send_raises := mail; mail_taken := false |}.

(** The same site, with a mail API that takes the mail and whose answer is
    lost. *)
Definition answer_lost : task_io :=
  {| site := fun _ => inr (fixture, []);
     read_back := fun _ => inr four_rows;
     report_calls := report_calls_at "0123456789ab" 1000;
     send_raises := Some ("ReadTimeout", ""); mail_taken := true |}.

Definition mail_rejected : exn :=
  ("Exception", "Failed to send email: rate limit").

Definition konoba_url : string :=
  "https://www.tripadvisor.com/Restaurant_Review-g1-d2-Reviews-Konoba-Split.html".

(** The order 1a2b3c4d of Ann for the restaurant Konoba. *)
Definition konoba_order (st : string) : order_row :=
  {| o_id := "1a2b3c4d"; o_email := "ann@example.com";
     o_restaurant_url := konoba_url; o_restaurant_name := Some "Konoba";
     o_stripe_session_id := Some "cs_test_1"; o_stripe_payment_intent := None;
     o_status := st; o_amount := None; o_report_id := None;
     o_report_url := None; o_expires_at := None; o_updated_at := 900 |}.

Definition konoba_payload : payload :=
  scrape_payload "1a2b3c4d" "ann@example.com" konoba_url (Some "Konoba").

(** The database with that order alone. *)
Definition one_order (st : string) : world :=
  {| reports := []; orders := [konoba_order st]; outbox := [] |}.

End BackendTerms.

(* ===================================================================== *)
(** * Properties of the task queue and the worker *)
(* ===================================================================== *)

Module TaskQueueSpec.
Import TaskQueue QueueTerms.

(** ** Rows under [UPDATE ... WHERE id = ?] *)

Lemma in_update_where_id i f d r' :
  In r' (tasks (update_where_id i f d)) <->
  exists r, In r (tasks d) /\ r' = (if id r =? i then f r else r).
Proof.
  unfold update_where_id; simpl. rewrite in_map_iff.
  split; intros (r & H1 & H2); exists r; auto.
Qed.

Lemma ids_update_where_id i f d :
  (forall r, id (f r) = id r) ->
  List.map id (tasks (update_where_id i f d)) = List.map id (tasks d).
Proof.
  intros Hf. unfold update_where_id; simpl. rewrite List.map_map.
  apply List.map_ext. intros r. destruct (id r =? i); auto.
Qed.

Lemma update_where_id_twice i f g d :
  (forall r, id (f r) = id r) ->
  update_where_id i g (update_where_id i f d)
  = update_where_id i (fun r => g (f r)) d.
Proof.
  intros Hf. unfold update_where_id; simpl. f_equal.
  rewrite List.map_map. apply List.map_ext. intros r.
  destruct (id r =? i) eqn:E; [rewrite Hf, E | rewrite E]; reflexivity.
Qed.

Lemma update_where_id_ext i f g d :
  (forall r, In r (tasks d) -> id r = i -> f r = g r) ->
  update_where_id i f d = update_where_id i g d.
Proof.
  intros H. unfold update_where_id. f_equal.
  apply List.map_ext_in. intros r Hr.
  destruct (Z.eqb_spec (id r) i); auto.
Qed.

(** ** Dequeue *)

Lemma in_pending_rows d r :
  In r (pending_rows d) <-> In r (tasks d) /\ status r = PENDING.
Proof.
  unfold pending_rows, is_pending. rewrite List.filter_In.
  rewrite bool_decide_eq_true. reflexivity.
Qed.

Lemma in_first_by_created_at l r :
  In r (first_by_created_at l) <->
  In r l /\ forall r', In r' l -> created_at r <= created_at r'.
Proof.
  unfold first_by_created_at. rewrite List.filter_In, forallb_forall.
  split; intros [H1 H2]; split; auto; intros r' Hr'.
  - apply Z.leb_le, H2, Hr'.
  - apply Z.leb_le, H2, Hr'.
Qed.



Lemma get_pending_task_Some d t :
  get_pending_task d = Some t ->
  exists r, In r (tasks d) /\ status r = PENDING
    /\ (forall r', In r' (tasks d) -> status r' = PENDING ->
          created_at r <= created_at r')
    /\ t = task_of_row r.
Proof.
  unfold get_pending_task, get_pending_task_rows.
  destruct (first_by_created_at (pending_rows d)) as [| r l] eqn:E;
    [discriminate |].
  intros H. inversion H; subst t. clear H.
  assert (In r (first_by_created_at (pending_rows d))) as Hr
    by (rewrite E; left; reflexivity).
  apply in_first_by_created_at in Hr as [Hr Hmin].
  apply in_pending_rows in Hr as [Hr Hp].
  exists r. repeat split; auto.
  intros r' Hr' Hp'. apply Hmin, in_pending_rows. auto.
Qed.



(** ** The worker's write-back as one row update *)

Lemma worker_end_rows now t o d :
  worker_end now t o d = update_where_id (t_id t) (finish_row now t o) d.
Proof.
  unfold worker_end, finish_row.
  destruct (handler (t_task_type t) o) as [res|kind msg]; simpl.
  - reflexivity.
  - destruct (t_retries t <? 3); [|reflexivity].
    rewrite update_where_id_twice by reflexivity. reflexivity.
Qed.

Lemma id_finish_row now t o r : id (finish_row now t o r) = id r.
Proof.
  unfold finish_row. destruct (handler _ _); [reflexivity|].
  destruct (t_retries t <? 3); reflexivity.
Qed.

(** ** The invariant of the queue *)

Lemma NoDup_ids_inj (l : list task_row) r r' :
  NoDup (List.map id l) -> In r l -> In r' l -> id r = id r' -> r = r'.
Proof.
  induction l as [|a l IH]; simpl; [intros _ []|].
  intros Hnd Hr Hr' E. apply NoDup_cons in Hnd as [Hna Hnd].
  destruct Hr as [->|Hr], Hr' as [->|Hr']; auto.
  - exfalso. apply Hna. rewrite list_elem_of_In, E. apply in_map, Hr'.
  - exfalso. apply Hna. rewrite list_elem_of_In, <- E. apply in_map, Hr.
Qed.

Lemma inv_initial : inv initial.
Proof.
  unfold inv, initial; simpl.
  split; [constructor|]. split; [intros r []|exact I].
Qed.

Lemma inv_step s s' : inv s -> step s s' -> inv s'.
Proof.
  intros (Hnd & Hrows & Hpc) Hstep.
  destruct Hstep as [now ty pl s | now t s Hpoll Hget | s Hpoll Hget
                    | now t o s Hrun | t s Hrun].
  - (* enqueue *)
    unfold inv; simpl. split; [|split].
    + rewrite List.map_app; simpl. apply NoDup_app. split; [exact Hnd|].
      split; [|apply NoDup_singleton].
      intros i Hi Hi'. apply list_elem_of_In in Hi.
      apply list_elem_of_In in Hi'. destruct Hi' as [<-|[]].
      apply in_map_iff in Hi as (r & E & Hr).
      destruct (Hrows r Hr). lia.
    + intros r Hr. apply in_app_or in Hr as [Hr|[<-|[]]].
      * destruct (Hrows r Hr). split; [lia|assumption].
      * simpl. split; [lia|]. unfold row_ok; simpl.
        repeat split; try lia; discriminate.
    + destruct (pc s) as [|t]; [exact I|]. destruct Hpc as [Hlt Hrun].
      split; [lia|]. intros r Hr. apply in_app_or in Hr as [Hr|[<-|[]]].
      * apply Hrun, Hr.
      * simpl. lia.
  - (* dequeue *)
    apply get_pending_task_Some in Hget as (r0 & Hr0 & Hp0 & _ & ->).
    unfold inv, worker_begin, update_task_status; simpl.
    split; [|split].
    + change (NoDup (List.map id (tasks
        (update_where_id (id r0) (set_processing now) (store s))))).
      rewrite ids_update_where_id by reflexivity. exact Hnd.
    + intros r' Hr'.
      change (In r' (tasks
        (update_where_id (id r0) (set_processing now) (store s)))) in Hr'.
      apply in_update_where_id in Hr' as (r & Hr & ->).
      destruct (Hrows r Hr) as [Hlt Hok].
      destruct (Z.eqb_spec (id r) (id r0)) as [E|_]; [|auto].
      assert (r = r0) as -> by (eapply NoDup_ids_inj; eauto).
      split; [exact Hlt|]. destruct Hok as (H0 & _ & H3).
      unfold row_ok; simpl. repeat split; auto; try discriminate.
      intros _. apply H3. rewrite Hp0. discriminate.
    + split; [apply (Hrows r0 Hr0)|]. intros r' Hr' E'.
      change (In r' (tasks
        (update_where_id (id r0) (set_processing now) (store s)))) in Hr'.
      apply in_update_where_id in Hr' as (r & Hr & ->).
      destruct (Z.eqb_spec (id r) (id r0)) as [E|NE].
      * assert (r = r0) as -> by (eapply NoDup_ids_inj; eauto).
        split; reflexivity.
      * contradiction.
  - (* sleep *)
    split; [exact Hnd|]. split; [exact Hrows|exact Hpc].
  - (* finish *)
    rewrite Hrun in Hpc. destruct Hpc as [Hlt Hmine].
    unfold inv; simpl. rewrite worker_end_rows.
    split; [|split; [|exact I]].
    + rewrite ids_update_where_id by (apply id_finish_row). exact Hnd.
    + intros r' Hr'. apply in_update_where_id in Hr' as (r & Hr & ->).
      destruct (Hrows r Hr) as [Hlt' Hok].
      destruct (Z.eqb_spec (id r) (t_id t)) as [E|_]; [|auto].
      rewrite id_finish_row. split; [exact Hlt'|].
      destruct (Hmine r Hr E) as [Hret Hst].
      destruct Hok as (H0 & _ & H3).
      assert (retries r <= 3) as Hle by (apply H3; rewrite Hst; discriminate).
      unfold finish_row. destruct (handler _ _) as [res|kind msg].
      * unfold row_ok; simpl. repeat split; auto; discriminate.
      * destruct (Z.ltb_spec (t_retries t) 3); unfold row_ok; simpl;
          repeat split; try lia; try discriminate; congruence.
  - (* restart *)
    split; [exact Hnd|]. split; [exact Hrows|exact I].
Qed.

Lemma inv_reachable s : reachable s -> inv s.
Proof.
  unfold reachable. revert s.
  apply (rtc_ind_r (fun s => inv s) initial); [apply inv_initial|].
  intros y z _ Hyz IH. eapply inv_step; eauto.
Qed.

(** A terminally failed row is out of the worker's reach. *)
Lemma failed_row_kept s s' r :
  inv s -> step s s' -> In r (tasks (store s)) -> status r = FAILED ->
  In r (tasks (store s')).
Proof.
  intros (Hnd & Hrows & Hpc) Hstep Hr Hf.
  destruct Hstep as [now ty pl s | now t s Hpoll Hget | s Hpoll Hget
                    | now t o s Hrun | t s Hrun]; simpl.
  - apply in_or_app. left. exact Hr.
  - apply get_pending_task_Some in Hget as (r0 & Hr0 & Hp0 & _ & ->).
    change (In r (tasks
      (update_where_id (id r0) (set_processing now) (store s)))).
    apply in_update_where_id. exists r. split; [exact Hr|].
    destruct (Z.eqb_spec (id r) (id r0)) as [E|_]; [|reflexivity].
    assert (r = r0) as -> by (eapply NoDup_ids_inj; eauto). congruence.
  - exact Hr.
  - rewrite Hrun in Hpc. destruct Hpc as [_ Hmine].
    rewrite worker_end_rows. apply in_update_where_id.
    exists r. split; [exact Hr|].
    destruct (Z.eqb_spec (id r) (t_id t)) as [E|_]; [|reflexivity].
    destruct (Hmine r Hr E) as [_ Hst]. congruence.
  - exact Hr.
Qed.

Lemma failed_row_stays s s' r :
  reachable s -> rtc step s s' -> In r (tasks (store s)) ->
  status r = FAILED -> In r (tasks (store s')).
Proof.
  intros Hs Hrun. revert Hs. induction Hrun as [|x y z Hxy Hyz IH]; auto.
  intros Hx Hr Hf. apply IH; auto.
  - eapply rtc_r; eauto.
  - eapply failed_row_kept; eauto. apply inv_reachable, Hx.
Qed.


Lemma reachable_iteration s t0 t1 t o :
  reachable s -> pc s = Polling -> get_pending_task (store s) = Some t ->
  reachable {| store := worker_iteration t0 t1 t o (store s); pc := Polling |}.
Proof.
  intros Hs Hp Hget. unfold reachable, worker_iteration.
  eapply rtc_r.
  - eapply rtc_r; [exact Hs|]. apply (step_dequeue t0 t s Hp Hget).
  - apply (step_finish t1 t o
             {| store := worker_begin t0 t (store s); pc := Handling t |}).
    reflexivity.
Qed.

(** ** A task whose handler keeps raising *)

Lemma reachable_after_failures n :
  (n <= 4)%nat -> reachable (after_failures n).
Proof.
  assert (reachable (after_failures 0)) as H0.
  { unfold reachable. eapply rtc_r; [apply rtc_refl|].
    apply (step_enqueue 100 "scrape_and_report" "{}" initial). }
  assert (forall k, (k < 4)%nat -> reachable (after_failures k) ->
                    reachable (after_failures (S k))) as HS.
  { intros k Hk Hr.
    apply (reachable_iteration (after_failures k) 101 102 (attempt k) boom);
      [exact Hr|reflexivity|].
    destruct k as [|[|[|[|k]]]]; try lia; reflexivity. }
  intros Hn.
  destruct n as [|[|[|[|[|n]]]]]; try lia; auto 10 with lia.
Qed.

(** C1 (amended): in every state the queue can reach, [retries] never
    exceeds 4, and a row whose [retries] equals 4 is [failed] and stays as it
    is in every later state.  When the handler of the task being handled
    raises, the worker increments [retries] and requeues the row (status
    back to [pending]) if and only if [retries] is at most 3 after the
    increment, that is below 3 when the task was taken; otherwise, at
    [retries = 4], the row is left [failed]. *)
Theorem retry_budget (s : system) (r : task_row) :
  reachable s -> In r (tasks (store s)) ->
  retries r <= 4
  /\ (retries r = 4 ->
        status r = FAILED
        /\ forall s', rtc step s s' -> In r (tasks (store s')))
  /\ (forall now t o kind msg,
        pc s = Handling t -> id r = t_id t ->
        handler (t_task_type t) o = Raised kind msg ->
        let r1 := set_failed now (Some (error_msg kind msg)) r in
        let r' := if retries r <? 3 then set_pending r1 else r1 in
        In r' (tasks (worker_end now t o (store s)))
        /\ retries r' = retries r + 1
        /\ (status r' = PENDING <-> retries r' <= 3)
        /\ (status r' = FAILED <-> retries r' = 4)).
Proof.
  intros Hs Hr. pose proof (inv_reachable s Hs) as (Hnd & Hrows & Hpc).
  destruct (Hrows r Hr) as (_ & H0 & Hf & Hnf).
  assert (retries r <= 4) as H4.
  { destruct (decide (status r = FAILED)) as [E|NE];
      [rewrite (Hf E)|specialize (Hnf NE)]; lia. }
  split; [exact H4|]. split.
  - intros E4.
    assert (status r = FAILED) as Hst.
    { destruct (decide (status r = FAILED)) as [E|NE]; [exact E|].
      specialize (Hnf NE). lia. }
    split; [exact Hst|]. intros s' Hrun. eapply failed_row_stays; eauto.
  - intros now t o kind msg Hrun Eid Hraise r1 r'.
    rewrite Hrun in Hpc. destruct Hpc as [_ Hmine].
    destruct (Hmine r Hr Eid) as [Eret Hst].
    assert (retries r <= 3) as H3 by (apply Hnf; rewrite Hst; discriminate).
    split.
    + rewrite worker_end_rows. apply in_update_where_id.
      exists r. split; [exact Hr|]. rewrite Eid, Z.eqb_refl.
      unfold finish_row. rewrite Hraise, <- Eret. reflexivity.
    + subst r' r1. destruct (Z.ltb_spec (retries r) 3); simpl;
        (split; [reflexivity|]); split; split; intros; try lia;
        try discriminate; reflexivity.
Qed.

Lemma retry_budget_witness :
  let s := {| store := worker_begin 101 (attempt 3) (failed_times 3);
              pc := Handling (attempt 3) |} in
  let r := {| id := 1; task_type := "scrape_and_report"; payload := "{}";
              status := PROCESSING; result := None;
              error := Some "RuntimeError: browser crashed";
              created_at := 100; started_at := Some 101;
              completed_at := Some 102; retries := 3 |} in
  reachable s /\ In r (tasks (store s)) /\
  retries r <= 4
  /\ (retries r = 4 ->
        status r = FAILED
        /\ forall s', rtc step s s' -> In r (tasks (store s')))
  /\ (forall now t o kind msg,
        pc s = Handling t -> id r = t_id t ->
        handler (t_task_type t) o = Raised kind msg ->
        let r1 := set_failed now (Some (error_msg kind msg)) r in
        let r' := if retries r <? 3 then set_pending r1 else r1 in
        In r' (tasks (worker_end now t o (store s)))
        /\ retries r' = retries r + 1
        /\ (status r' = PENDING <-> retries r' <= 3)
        /\ (status r' = FAILED <-> retries r' = 4)).
Proof.
  intros s r.
  assert (reachable s) as Hs.
  { unfold reachable. eapply rtc_r.
    - apply (reachable_after_failures 3). lia.
    - apply (step_dequeue 101 (attempt 3) (after_failures 3));
        reflexivity. }
  assert (In r (tasks (store s))) as Hr by (vm_compute; left; reflexivity).
  split; [exact Hs|]. split; [exact Hr|].
  exact (retry_budget s r Hs Hr).
Defined.

(** The claim as the spec words it fails: after three failures the row has
    [retries = 3] and is [pending] again, and after the fourth its
    [retries] is 4. *)
Lemma retry_count_exceeds_3 :
  (reachable (after_failures 3)
   /\ exists r, In r (tasks (store (after_failures 3)))
        /\ retries r = 3 /\ status r = PENDING)
  /\ (reachable (after_failures 4)
      /\ exists r, In r (tasks (store (after_failures 4)))
           /\ retries r = 4 /\ ~ retries r <= 3).
Proof.
  split; (split; [apply reachable_after_failures; lia|]);
    eexists; (split; [vm_compute; left; reflexivity|]);
    simpl; repeat split; lia.
Qed.


(** ** Dequeue order *)









(** Of two tasks enqueued within the same second the first is taken. *)
Example dequeue_tie_by_id :
  option_map t_id (get_pending_task two_queued) = Some 1.
Proof. reflexivity. Qed.

(** ** Status transitions applied twice *)

(** C6 (amended): the transitions to [processing] and to [completed] are
    idempotent up to the timestamp they write.  Applied twice with the same
    arguments, at the clock readings [now1] and [now2], such a transition
    leaves the table as a single application at [now2] does: status, result
    and every other column are those of one application, and [started_at]
    or [completed_at] is the reading of the last one.  The transition to
    [failed] is not idempotent: it increments [retries] each time it is
    applied, so two applications leave every column as a single one at
    [now2] does except [retries], which is incremented once more. *)
Theorem status_transitions_twice (now1 now2 task_id : Z)
    (res err : option string) (d : db) :
  let mark now st := update_task_status now task_id st res err in
  mark now2 PROCESSING (mark now1 PROCESSING d) = mark now2 PROCESSING d
  /\ mark now2 COMPLETED (mark now1 COMPLETED d) = mark now2 COMPLETED d
  /\ mark now2 FAILED (mark now1 FAILED d)
     = update_where_id task_id retry_again (mark now2 FAILED d).
Proof.
  simpl. unfold update_task_status.
  rewrite !update_where_id_twice by reflexivity.
  repeat split; apply update_where_id_ext; intros r _ _; reflexivity.
Qed.

(** The claim as the spec words it fails: marking task 1 failed twice for
    the same failure, at the clock readings 101 and 102, leaves
    [retries = 2], where marking it once leaves [retries = 1], at
    whichever of the two readings. *)
Lemma mark_failed_not_idempotent :
  let mark now := update_task_status now 1 FAILED None (Some "E: x") in
  List.map retries (tasks (mark 101 queued)) = [1]
  /\ List.map retries (tasks (mark 102 queued)) = [1]
  /\ List.map retries (tasks (mark 102 (mark 101 queued))) = [2]
  /\ mark 102 (mark 101 queued) <> mark 101 queued
  /\ mark 102 (mark 101 queued) <> mark 102 queued.
Proof.
  simpl. split; [reflexivity|]. split; [reflexivity|].
  split; [reflexivity|].
  split; intros E;
    apply (f_equal (fun d => List.map retries (tasks d))) in E;
    vm_compute in E; discriminate E.
Qed.

(** ** Unknown task types *)

Lemma lookup_update_where_id i f d (k : nat) :
  tasks (update_where_id i f d) !! k
  = (fun r => if id r =? i then f r else r) <$> (tasks d !! k).
Proof. unfold update_where_id. cbn [tasks]. apply list_lookup_fmap. Qed.

(** C9: a dequeued task whose type is not [scrape_and_report] is not
    skipped.  After the pass of the worker loop, a row with the id of the
    task stands where it stood, with the error string
    ValueError: Unknown task type: <type>, with [retries] incremented by one,
    with the clock readings of the pass in [started_at] and [completed_at],
    and with the status [pending] when the [retries] value read at dequeue
    is below 3 and [failed] otherwise; its other columns and the rows with
    another id are as before.  It is the pass the worker makes for a
    [scrape_and_report] task whose handler raises that [ValueError]. *)
Theorem unknown_task_type_fails (t0 t1 : Z) (t : task) (o : outcome)
    (d : db) (k : nat) (r : task_row) :
  t_task_type t <> "scrape_and_report" ->
  tasks d !! k = Some r ->
  id r = t_id t ->
  let d' := worker_iteration t0 t1 t o d in
  (exists r',
     tasks d' !! k = Some r'
     /\ error r' = Some ("ValueError: Unknown task type: " ++ t_task_type t)
     /\ retries r' = retries r + 1
     /\ (status r' = PENDING <-> t_retries t < 3)
     /\ (status r' = FAILED <-> 3 <= t_retries t)
     /\ started_at r' = Some t0 /\ completed_at r' = Some t1
     /\ result r' = result r /\ id r' = id r
     /\ task_type r' = task_type r /\ payload r' = payload r
     /\ created_at r' = created_at r)
  /\ (forall j r2, tasks d !! j = Some r2 -> id r2 <> t_id t ->
        tasks d' !! j = Some r2)
  /\ length (tasks d') = length (tasks d)
  /\ d' = worker_iteration t0 t1
            {| t_id := t_id t; t_task_type := "scrape_and_report";
               t_payload := t_payload t; t_retries := t_retries t |}
            (Raised "ValueError" ("Unknown task type: " ++ t_task_type t)) d.
Proof.
  intros Hty Hk Hid d'. subst d'.
  assert (handler (t_task_type t) o
          = Raised "ValueError" ("Unknown task type: " ++ t_task_type t))
    as Hh.
  { unfold handler. destruct (String.eqb_spec (t_task_type t)
      "scrape_and_report"); [contradiction|reflexivity]. }
  assert (worker_iteration t0 t1 t o d
          = update_where_id (t_id t) (unknown_type_row t0 t1 t) d) as E.
  { unfold worker_iteration, worker_begin, update_task_status.
    rewrite !worker_end_rows, !update_where_id_twice by reflexivity.
    unfold finish_row, unknown_type_row; simpl. rewrite Hh.
    apply update_where_id_ext; intros x _ _;
      destruct (t_retries t <? 3); reflexivity. }
  split; [| split; [| split]].
  - exists (unknown_type_row t0 t1 t r). rewrite E, lookup_update_where_id.
    rewrite Hk. cbn [fmap option_fmap option_map].
    rewrite Hid, Z.eqb_refl. split; [reflexivity |].
    unfold unknown_type_row; cbn.
    destruct (Z.ltb_spec (t_retries t) 3);
      repeat split; intros; try lia; try discriminate; reflexivity.
  - intros j r2 Hj Hne. rewrite E, lookup_update_where_id, Hj.
    cbn [fmap option_fmap option_map].
    destruct (Z.eqb_spec (id r2) (t_id t)); [contradiction | reflexivity].
  - rewrite E. unfold update_where_id. cbn [tasks]. apply List.length_map.
  - unfold worker_iteration, worker_begin, update_task_status.
    rewrite !worker_end_rows, !update_where_id_twice by reflexivity.
    unfold finish_row; simpl. rewrite Hh.
    apply update_where_id_ext; intros x _ _; reflexivity.
Qed.

Lemma unknown_task_type_fails_witness :
  let t := {| t_id := 1; t_task_type := "send_invoice"; t_payload := "{}";
              t_retries := 0 |} in
  let d := fst (add_task 100 "send_invoice" "{}" init_task_db) in
  let r := {| id := 1; task_type := "send_invoice"; payload := "{}";
              status := PENDING; result := None; error := None;
              created_at := 100; started_at := None; completed_at := None;
              retries := 0 |} in
  let d' := worker_iteration 101 102 t boom d in
  t_task_type t <> "scrape_and_report"
  /\ tasks d !! 0%nat = Some r
  /\ id r = t_id t
  /\ (exists r',
        tasks d' !! 0%nat = Some r'
        /\ error r' = Some ("ValueError: Unknown task type: "
                            ++ t_task_type t)
        /\ retries r' = retries r + 1
        /\ (status r' = PENDING <-> t_retries t < 3)
        /\ (status r' = FAILED <-> 3 <= t_retries t)
        /\ started_at r' = Some 101 /\ completed_at r' = Some 102
        /\ result r' = result r /\ id r' = id r
        /\ task_type r' = task_type r /\ payload r' = payload r
        /\ created_at r' = created_at r)
  /\ (forall j r2, tasks d !! j = Some r2 -> id r2 <> t_id t ->
        tasks d' !! j = Some r2)
  /\ length (tasks d') = length (tasks d)
  /\ d' = worker_iteration 101 102
            {| t_id := t_id t; t_task_type := "scrape_and_report";
               t_payload := t_payload t; t_retries := t_retries t |}
            (Raised "ValueError" ("Unknown task type: " ++ t_task_type t)) d.
Proof.
  intros t d r d'.
  assert (t_task_type t <> "scrape_and_report") as H by discriminate.
  split; [exact H|]. split; [reflexivity |]. split; [reflexivity |].
  exact (unknown_task_type_fails 101 102 t boom d 0%nat r H eq_refl eq_refl).
Defined.

Example unknown_task_type_row :
  tasks (worker_iteration 101 102
           {| t_id := 1; t_task_type := "send_invoice"; t_payload := "{}";
              t_retries := 0 |} boom
           (fst (add_task 100 "send_invoice" "{}" init_task_db)))
  = [ {| id := 1; task_type := "send_invoice"; payload := "{}";
         status := PENDING; result := None;
         error := Some "ValueError: Unknown task type: send_invoice";
         created_at := 100; started_at := Some 101;
         completed_at := Some 102; retries := 1 |} ].
Proof. reflexivity. Qed.

End TaskQueueSpec.

(* ===================================================================== *)
(** * Properties of the matcher *)
(* ===================================================================== *)

Module PyStrSpec.
Import PyStr Shape.

Lemma append_nil_r (s : string) : (s ++ "")%string = s.
Proof.
  induction s as [|a s IH]; [reflexivity|].
  change (String a (s ++ "") = String a s). rewrite IH. reflexivity.
Qed.

Lemma append_assoc (a b c : string) :
  ((a ++ b) ++ c)%string = (a ++ (b ++ c))%string.
Proof.
  induction a as [|x a IH]; [reflexivity|].
  change (String x ((a ++ b) ++ c) = String x (a ++ (b ++ c))).
  rewrite IH. reflexivity.
Qed.

Lemma append_cons (c : ascii) (a b : string) :
  (String c a ++ b)%string = String c (a ++ b).
Proof. reflexivity. Qed.

Lemma all_chars_app p (a b : string) :
  all_chars p (a ++ b) = all_chars p a && all_chars p b.
Proof.
  induction a as [|x a IH]; [reflexivity|].
  rewrite append_cons. simpl. rewrite IH. apply andb_assoc.
Qed.

(** ** The matcher finds only texts of the pattern's shape *)

Lemma repeat_greedy_sound p k taken s r :
  repeat_greedy p k taken s = Some r ->
  exists w m' s',
    r = (taken ++ w)%string :: m' /\ all_chars p w = true
    /\ s = (w ++ s')%string /\ k s' = Some m'.
Proof.
  revert taken r. induction s as [|c s IH]; intros taken r.
  - simpl. destruct (k "") as [m'|] eqn:E; simpl; [|discriminate].
    intros [= <-]. exists "", m', "". rewrite append_nil_r. auto.
  - assert (option_map (cons taken) (k (String c s)) = Some r ->
            exists w m' s',
              r = (taken ++ w)%string :: m' /\ all_chars p w = true
              /\ String c s = (w ++ s')%string /\ k s' = Some m') as Hstop.
    { destruct (k (String c s)) as [m'|] eqn:E; simpl; [|discriminate].
      intros [= <-]. exists "", m', (String c s).
      rewrite append_nil_r. auto. }
    simpl. destruct (p c) eqn:Hc; [|exact Hstop].
    destruct (repeat_greedy p k (taken ++ String c "") s) as [r'|] eqn:E;
      [|exact Hstop].
    intros [= <-]. destruct (IH _ _ E) as (w & m' & s' & -> & Hw & -> & Hk).
    exists (String c w), m', s'. rewrite append_assoc. simpl. rewrite Hc, Hw.
    auto.
Qed.

Lemma match_here_sound pat : forall s m,
  match_here pat s = Some m ->
  conform pat m = true /\ exists post, s = (join m ++ post)%string.
Proof.
  induction pat as [|a pat IH]; intros s m.
  - simpl. intros [= <-]. split; [reflexivity|]. exists s. reflexivity.
  - assert (forall s' w m',
              conforms a w = true -> match_here pat s' = Some m' ->
              conform (a :: pat) (w :: m') = true
              /\ exists post, (w ++ s')%string = (join (w :: m') ++ post)%string)
      as Hstep.
    { intros s' w m' Hw Hm. destruct (IH _ _ Hm) as [Hc [post ->]].
      split; [simpl; rewrite Hw, Hc; reflexivity|].
      exists post. simpl. rewrite append_assoc. reflexivity. }
    assert (option_map (cons EmptyString) (match_here pat s) = Some m ->
            conforms a "" = true ->
            conform (a :: pat) m = true
            /\ exists post, s = (join m ++ post)%string) as Hskip.
    { destruct (match_here pat s) as [m'|] eqn:E; simpl; [|discriminate].
      intros [= <-] Hw. exact (Hstep s "" m' Hw E). }
    simpl. unfold conforms in Hstep, Hskip.
    destruct (quant a) eqn:Hq.
    + (* One *)
      destruct s as [|c s]; [discriminate|].
      destruct (cls a c) eqn:Hc; [|discriminate].
      destruct (match_here pat s) as [m'|] eqn:E; simpl; [|discriminate].
      intros [= <-]. apply (Hstep s (String c "") m'); [exact Hc|exact E].
    + (* Opt *)
      destruct s as [|c s]; [intros H; apply Hskip; auto|].
      destruct (cls a c) eqn:Hc; [|intros H; apply Hskip; auto].
      destruct (match_here pat s) as [m'|] eqn:E;
        [|intros H; apply Hskip; auto].
      intros [= <-]. apply (Hstep s (String c "") m'); [exact Hc|exact E].
    + (* Star *)
      intros H. apply repeat_greedy_sound in H
        as (w & m' & s' & -> & Hw & -> & Hk).
      apply (Hstep s' w m'); [exact Hw|exact Hk].
    + (* Plus *)
      destruct s as [|c s]; [discriminate|].
      destruct (cls a c) eqn:Hc; [|discriminate].
      intros H. apply repeat_greedy_sound in H
        as (w & m' & s' & -> & Hw & -> & Hk).
      apply (Hstep s' (String c w) m'); [|exact Hk].
      simpl. rewrite Hc, Hw. reflexivity.
Qed.

(** ** The matcher finds a text of the pattern's shape when there is one *)

Lemma repeat_greedy_some p k taken s :
  k s <> None -> repeat_greedy p k taken s <> None.
Proof.
  intros Hk. destruct s as [|c s]; simpl.
  - destruct (k ""); [discriminate|contradiction].
  - destruct (p c); [destruct (repeat_greedy p k _ s); [discriminate|]|];
      (destruct (k (String c s)); [discriminate|contradiction]).
Qed.

Lemma repeat_greedy_complete p k w : forall taken s',
  all_chars p w = true -> k s' <> None ->
  repeat_greedy p k taken (w ++ s') <> None.
Proof.
  induction w as [|c w IH]; intros taken s' Hw Hk.
  - apply repeat_greedy_some, Hk.
  - simpl in Hw. apply andb_prop in Hw as [Hc Hw].
    rewrite append_cons. simpl. rewrite Hc.
    specialize (IH (taken ++ String c "")%string s' Hw Hk).
    destruct (repeat_greedy p k _ (w ++ s')); [discriminate|contradiction].
Qed.

Lemma match_here_complete pat : forall m post,
  conform pat m = true -> match_here pat (join m ++ post) <> None.
Proof.
  induction pat as [|a pat IH]; intros m post Hm.
  - discriminate.
  - destruct m as [|w m]; [discriminate|]. simpl in Hm.
    apply andb_prop in Hm as [Hw Hm].
    specialize (IH m post Hm).
    change (join (w :: m)) with (w ++ join m)%string.
    rewrite append_assoc. set (s0 := (join m ++ post)%string) in *.
    assert (option_map (cons EmptyString) (match_here pat s0) <> None)
      as Hskip by (destruct (match_here pat s0); [discriminate|contradiction]).
    unfold conforms in Hw. simpl. destruct (quant a).
    + destruct w as [|c [|]]; try discriminate. rewrite append_cons.
      change ("" ++ s0)%string with s0. rewrite Hw.
      destruct (match_here pat s0); [discriminate|contradiction].
    + destruct w as [|c [|]]; try discriminate.
      * change ("" ++ s0)%string with s0.
        destruct s0 as [|c s]; [exact Hskip|].
        destruct (cls a c); [|exact Hskip].
        destruct (match_here pat s); [discriminate|exact Hskip].
      * rewrite append_cons. change ("" ++ s0)%string with s0. rewrite Hw.
        destruct (match_here pat s0); [discriminate|contradiction].
    + apply repeat_greedy_complete; assumption.
    + destruct w as [|c w]; [discriminate|]. simpl in Hw.
      apply andb_prop in Hw as [Hc Hw]. rewrite append_cons, Hc.
      apply repeat_greedy_complete; assumption.
Qed.

(** ** Search *)

Lemma search_sound pat s m :
  search pat s = Some m -> conform pat m = true /\ occurs pat s.
Proof.
  induction s as [|c s IH]; simpl.
  - destruct (match_here pat "") as [m'|] eqn:E; [|discriminate].
    intros [= <-]. destruct (match_here_sound _ _ _ E) as [Hc [post Hs]].
    split; [exact Hc|]. exists "", m', post. auto.
  - destruct (match_here pat (String c s)) as [m'|] eqn:E.
    + intros [= <-]. destruct (match_here_sound _ _ _ E) as [Hc [post Hs]].
      split; [exact Hc|]. exists "", m', post. auto.
    + intros H. destruct (IH H) as [Hc (pre & m0 & post & Hm0 & ->)].
      split; [exact Hc|]. exists (String c pre), m0, post. auto.
Qed.

Lemma search_complete pat s : occurs pat s -> search pat s <> None.
Proof.
  intros (pre & m & post & Hm & ->).
  induction pre as [|c pre IH].
  - change ("" ++ join m ++ post)%string with (join m ++ post)%string.
    pose proof (match_here_complete pat m post Hm) as H.
    destruct (join m ++ post)%string; simpl;
      (destruct (match_here pat _); [discriminate|contradiction]).
  - rewrite append_cons. simpl.
    destruct (match_here pat _); [discriminate|exact IH].
Qed.

Lemma search_None pat s : search pat s = None <-> ~ occurs pat s.
Proof.
  split.
  - intros H Ho. exact (search_complete pat s Ho H).
  - intros H. destruct (search pat s) as [m|] eqn:E; [|reflexivity].
    destruct H. apply (search_sound pat s m E).
Qed.

End PyStrSpec.

(* ===================================================================== *)
(** * Properties of the scraper *)
(* ===================================================================== *)

Module ScraperSpec.
Import PyStr Scraper Shape ScraperTerms PyStrSpec.

(** ** Location resolution and the state of the scraper *)

Lemma profile_location_fields c s :
  reviews (snd (profile_location c s)) = reviews s
  /\ max_reviews (snd (profile_location c s)) = max_reviews s.
Proof.
  unfold profile_location.
  destruct (profile_link c) as [a|]; [|auto].
  destruct (href a) as [h|]; [|auto].
  destruct (String.eqb h ""); [auto|].
  destruct (location_cache s !! h); [auto|].
  destruct (profile c); auto.
Qed.

Lemma get_user_location_fast_fields c s :
  reviews (snd (get_user_location_fast c s)) = reviews s
  /\ max_reviews (snd (get_user_location_fast c s)) = max_reviews s.
Proof.
  unfold get_user_location_fast.
  destruct (inline_location c); [auto|apply profile_location_fields].
Qed.

Lemma falls_back_profile c h s :
  falls_back c h ->
  get_user_location_fast c s =
  match location_cache s !! h with
  | Some v => (v, s)
  | None =>
      match profile c with
      | Heading loc => (loc, cache_store h loc (log_open h s))
      | _ => ("Unknown", log_open h s)
      end
  end.
Proof.
  intros (Hin & a & Ha & Hh & Hne).
  unfold get_user_location_fast, profile_location.
  rewrite Hin, Ha, Hh.
  destruct (String.eqb_spec h ""); [contradiction|].
  destruct (location_cache s !! h); [reflexivity|].
  destruct (profile c); reflexivity.
Qed.

(** An entry of the cache is never overwritten or removed. *)
Lemma cache_kept c s h v :
  location_cache s !! h = Some v ->
  location_cache (snd (get_user_location_fast c s)) !! h = Some v.
Proof.
  intros Hv. unfold get_user_location_fast, profile_location.
  destruct (inline_location c); [exact Hv|].
  destruct (profile_link c) as [a|]; [|exact Hv].
  destruct (href a) as [h'|]; [|exact Hv].
  destruct (String.eqb h' ""); [exact Hv|].
  destruct (location_cache s !! h') eqn:E; [exact Hv|].
  destruct (profile c); simpl; try exact Hv.
  rewrite lookup_insert_ne; [exact Hv|]. intros ->. congruence.
Qed.

Lemma cache_kept_step s s' h v :
  run_step s s' -> location_cache s !! h = Some v ->
  location_cache s' !! h = Some v.
Proof.
  intros [c s0|rs s0] Hv; [apply cache_kept, Hv|exact Hv].
Qed.

Lemma cache_kept_steps s s' h v :
  rtc run_step s s' -> location_cache s !! h = Some v ->
  location_cache s' !! h = Some v.
Proof.
  induction 1 as [|x y z Hxy _ IH]; [auto|].
  intros Hv. apply IH. eapply cache_kept_step; eauto.
Qed.

Lemma scrape_cards_steps cards acc s :
  rtc run_step s (snd (scrape_cards cards acc s)).
Proof.
  revert acc s. induction cards as [|c rest IH]; intros acc s; simpl.
  - apply rtc_refl.
  - destruct (max_reviews s <=? count (reviews s)); [apply rtc_refl|].
    destruct (scroll_raises c); [apply IH|].
    destruct (get_user_location_fast c s) as [loc s1] eqn:E.
    assert (run_step s s1) as Hstep.
    { replace s1 with (snd (get_user_location_fast c s)) by (rewrite E; auto).
      constructor. }
    destruct (extract_rating c);
      (eapply rtc_l; [exact Hstep|apply IH]).
Qed.

Lemma run_loop_unfold cur more s :
  run_loop cur more s =
  if count (reviews s) <? max_reviews s then
    if max_reviews (extend (fst (scrape_page cur s)) (snd (scrape_page cur s)))
       <=? count (reviews (extend (fst (scrape_page cur s))
                                  (snd (scrape_page cur s))))
    then (ReachedTarget,
          extend (fst (scrape_page cur s)) (snd (scrape_page cur s)))
    else
      match more with
      | [] => (NoMorePages,
               extend (fst (scrape_page cur s)) (snd (scrape_page cur s)))
      | next :: more' =>
          run_loop next more'
            (extend (fst (scrape_page cur s)) (snd (scrape_page cur s)))
      end
  else (LoopCondition, s).
Proof.
  destruct more; simpl; destruct (scrape_page cur s); reflexivity.
Qed.

Lemma scrape_page_steps p s : rtc run_step s (snd (scrape_page p s)).
Proof.
  unfold scrape_page. destruct (find_raises p);
    [apply rtc_refl|apply scrape_cards_steps].
Qed.

Lemma run_loop_steps cur more s :
  rtc run_step s (snd (run_loop cur more s)).
Proof.
  revert cur s. induction more as [|next more IH]; intros cur s;
    rewrite run_loop_unfold;
    (destruct (count (reviews s) <? max_reviews s); [|apply rtc_refl]);
    (assert (rtc run_step s
               (extend (fst (scrape_page cur s)) (snd (scrape_page cur s))))
       as Hpage
       by (eapply rtc_r; [apply scrape_page_steps|apply step_extend]));
    match goal with |- context [if ?b then _ else _] => destruct b end;
    try exact Hpage.
  eapply rtc_trans; [exact Hpage|apply IH].
Qed.

(** ** The cache *)

Lemma cache_hit c h v s :
  falls_back c h -> location_cache s !! h = Some v ->
  get_user_location_fast c s = (v, s).
Proof.
  intros Hc Hv. rewrite (falls_back_profile c h s Hc), Hv. reflexivity.
Qed.

Lemma ann_falls_back p : falls_back (ann p) "/Profile/ann".
Proof.
  split; [reflexivity|]. eexists. split; [reflexivity|].
  split; [reflexivity|discriminate].
Defined.

(** C7: within one run, a profile reference [h] that a card made the
    scraper open and resolve is cached, so when a later card of the run
    falls back to the same reference, the cached location is returned and
    the scraper is left as it was: nothing is added to [opened], no second
    window is opened for [h]. *)
Theorem profile_visited_once (c1 c2 : card) (h loc : string)
    (s s2 : scraper) :
  falls_back c1 h ->
  location_cache s !! h = None ->
  profile c1 = Heading loc ->
  rtc run_step (snd (get_user_location_fast c1 s)) s2 ->
  falls_back c2 h ->
  get_user_location_fast c1 s = (loc, cache_store h loc (log_open h s))
  /\ get_user_location_fast c2 s2 = (loc, s2)
  /\ opened (snd (get_user_location_fast c2 s2)) = opened s2.
Proof.
  intros H1 Hnone Hp Hrun H2.
  assert (get_user_location_fast c1 s
          = (loc, cache_store h loc (log_open h s))) as E1.
  { rewrite (falls_back_profile c1 h s H1), Hnone, Hp. reflexivity. }
  rewrite E1 in Hrun. simpl in Hrun.
  assert (get_user_location_fast c2 s2 = (loc, s2)) as E2.
  { apply (cache_hit c2 h loc s2 H2).
    apply (cache_kept_steps _ _ h loc Hrun). simpl.
    apply lookup_insert_eq. }
  split; [exact E1|]. split; [exact E2|]. rewrite E2. reflexivity.
Qed.

Lemma profile_visited_once_witness :
  let c1 := ann (Heading "Zagreb, Croatia") in
  let c2 := ann HeadingTimeout in
  let h := "/Profile/ann" in
  let loc := "Zagreb, Croatia" in
  let s := init 500 in
  let s2 := snd (get_user_location_fast c1 s) in
  falls_back c1 h /\ location_cache s !! h = None
  /\ profile c1 = Heading loc
  /\ rtc run_step (snd (get_user_location_fast c1 s)) s2
  /\ falls_back c2 h
  /\ get_user_location_fast c1 s = (loc, cache_store h loc (log_open h s))
  /\ get_user_location_fast c2 s2 = (loc, s2)
  /\ opened (snd (get_user_location_fast c2 s2)) = opened s2.
Proof.
  intros c1 c2 h loc s s2.
  pose proof (ann_falls_back (Heading "Zagreb, Croatia")) as H1.
  pose proof (ann_falls_back HeadingTimeout) as H2.
  assert (location_cache s !! h = None) as Hn by apply lookup_empty.
  assert (rtc run_step (snd (get_user_location_fast c1 s)) s2) as Hr
    by apply rtc_refl.
  split; [exact H1|]. split; [exact Hn|]. split; [reflexivity|].
  split; [exact Hr|]. split; [exact H2|].
  exact (profile_visited_once c1 c2 h loc s s2 H1 Hn eq_refl Hr H2).
Defined.


(** ** Where the cache entries come from *)

Lemma cache_from_resolve cs c s :
  In c cs -> cache_from cs s ->
  cache_from cs (snd (get_user_location_fast c s)).
Proof.
  intros Hc Hs h v. unfold get_user_location_fast, profile_location.
  destruct (inline_location c) eqn:Hin; [apply Hs|].
  destruct (profile_link c) as [a|] eqn:Ha; [|apply Hs].
  destruct (href a) as [h'|] eqn:Hh; [|apply Hs].
  destruct (String.eqb_spec h' ""); [apply Hs|].
  destruct (location_cache s !! h') eqn:E; [apply Hs|].
  destruct (profile c) eqn:Hp; simpl; try apply Hs.
  destruct (decide (h' = h)) as [->|Hne].
  - rewrite lookup_insert_eq. intros [= <-]. exists c.
    split; [exact Hc|]. split; [|exact Hp].
    split; [exact Hin|]. exists a. auto.
  - rewrite lookup_insert_ne by exact Hne. apply Hs.
Qed.

Lemma cache_from_scrape_cards cs cards acc s :
  (forall c, In c cards -> In c cs) -> cache_from cs s ->
  cache_from cs (snd (scrape_cards cards acc s)).
Proof.
  revert acc s. induction cards as [|c rest IH]; intros acc s Hsub Hs;
    simpl; [exact Hs|].
  destruct (max_reviews s <=? count (reviews s)); [exact Hs|].
  assert (forall c', In c' rest -> In c' cs) as Hrest
    by (intros c' Hc'; apply Hsub; right; exact Hc').
  destruct (scroll_raises c); [apply IH; auto|].
  pose proof (cache_from_resolve cs c s (Hsub c (or_introl eq_refl)) Hs)
    as Hs1.
  destruct (get_user_location_fast c s) as [loc s1]. simpl in Hs1.
  destruct (extract_rating c); apply IH; auto.
Qed.

Lemma cache_from_scrape_page cs p s :
  (forall c, In c (found_cards p) -> In c cs) -> cache_from cs s ->
  cache_from cs (snd (scrape_page p s)).
Proof.
  intros Hsub Hs. unfold scrape_page.
  destruct (find_raises p); [exact Hs|].
  apply cache_from_scrape_cards; auto.
Qed.

Lemma cache_from_run_loop cs cur more s :
  (forall c, In c (all_cards (cur :: more)) -> In c cs) ->
  cache_from cs s ->
  cache_from cs (snd (run_loop cur more s)).
Proof.
  revert cur s. induction more as [|next more IH]; intros cur s Hsub Hs;
    rewrite run_loop_unfold;
    (destruct (count (reviews s) <? max_reviews s); [|exact Hs]);
    (assert (cache_from cs
               (extend (fst (scrape_page cur s)) (snd (scrape_page cur s))))
       as Hpage
       by (apply (cache_from_scrape_page cs cur s); [|exact Hs];
           intros c Hc; apply Hsub; unfold all_cards; simpl;
           apply in_or_app; left; exact Hc));
    match goal with |- context [if ?b then _ else _] => destruct b end;
    try exact Hpage.
  apply IH; [|exact Hpage].
  intros c Hc. apply Hsub. unfold all_cards in *. simpl in *.
  apply in_or_app. right. exact Hc.
Qed.

(** C10: the location cache only ever stores headings that were read from a
    profile.  After any run, every entry of the cache maps a profile
    reference to the heading some card of the visited site made the scraper
    read on that profile: the default of a failed lookup is never stored.
    A lookup that fails (the script raises, no window, or the heading times
    out) returns the default, leaves the cache as it was and is attempted
    again, with a new window opened, the next time a card falls back to the
    same reference. *)
Theorem cache_holds_headings_only :
  (forall max cur more h v,
     location_cache (snd (run max cur more)) !! h = Some v ->
     exists c, In c (all_cards (cur :: more))
       /\ falls_back c h /\ profile c = Heading v)
  /\ (forall c1 c2 h s,
        falls_back c1 h -> falls_back c2 h ->
        location_cache s !! h = None ->
        (forall loc, profile c1 <> Heading loc) ->
        let s1 := snd (get_user_location_fast c1 s) in
        let s2 := snd (get_user_location_fast c2 s1) in
        fst (get_user_location_fast c1 s) = "Unknown"
        /\ location_cache s1 = location_cache s
        /\ opened s1 = (opened s ++ [h])%list
        /\ opened s2 = (opened s ++ [h; h])%list).
Proof.
  split.
  - intros max cur more h v. unfold run.
    apply (cache_from_run_loop (all_cards (cur :: more)) cur more (init max)).
    + auto.
    + intros h' v'. simpl. rewrite lookup_empty. discriminate.
  - intros c1 c2 h s H1 H2 Hnone Hfail s1 s2. subst s2 s1.
    rewrite (falls_back_profile c1 h s H1), Hnone.
    assert (match profile c1 with
            | Heading loc => (loc, cache_store h loc (log_open h s))
            | _ => ("Unknown", log_open h s)
            end = ("Unknown", log_open h s)) as ->.
    { destruct (profile c1) as [| | |loc]; try reflexivity.
      destruct (Hfail loc eq_refl). }
    simpl. rewrite (falls_back_profile c2 h _ H2). simpl. rewrite Hnone.
    repeat split; auto.
    destruct (profile c2); simpl; rewrite <- app_assoc; reflexivity.
Qed.

Lemma cache_holds_headings_only_witness :
  let c1 := ann HeadingTimeout in
  let c2 := ann (Heading "Zagreb, Croatia") in
  let h := "/Profile/ann" in
  let s := init 500 in
  let s1 := snd (get_user_location_fast c1 s) in
  let s2 := snd (get_user_location_fast c2 s1) in
  falls_back c1 h /\ falls_back c2 h /\ location_cache s !! h = None
  /\ (forall loc, profile c1 <> Heading loc)
  /\ fst (get_user_location_fast c1 s) = "Unknown"
  /\ location_cache s1 = location_cache s
  /\ opened s1 = (opened s ++ [h])%list
  /\ opened s2 = (opened s ++ [h; h])%list.
Proof.
  intros c1 c2 h s s1 s2.
  pose proof (ann_falls_back HeadingTimeout) as H1.
  pose proof (ann_falls_back (Heading "Zagreb, Croatia")) as H2.
  assert (location_cache s !! h = None) as Hn by apply lookup_empty.
  assert (forall loc, profile c1 <> Heading loc) as Hf
    by (intros loc; discriminate).
  split; [exact H1|]. split; [exact H2|]. split; [exact Hn|].
  split; [exact Hf|].
  exact (proj2 cache_holds_headings_only c1 c2 h s H1 H2 Hn Hf).
Defined.


(** ** The location next to the contribution count *)






(** ** Pages and the run *)

Lemma scrape_cards_below cards acc s :
  count (reviews s) < max_reviews s ->
  exists locs,
    List.length locs = List.length (List.filter kept cards)
    /\ fst (scrape_cards cards acc s)
       = (acc ++ zip_with make_review (List.filter kept cards) locs)%list
    /\ reviews (snd (scrape_cards cards acc s)) = reviews s
    /\ max_reviews (snd (scrape_cards cards acc s)) = max_reviews s.
Proof.
  revert acc s. induction cards as [|c rest IH]; intros acc s Hlt.
  - exists []. simpl. rewrite app_nil_r. auto.
  - cbn [scrape_cards List.filter].
    destruct (Z.leb_spec (max_reviews s) (count (reviews s))); [lia|].
    destruct (scroll_raises c) eqn:Hs.
    { assert (kept c = false) as ->
        by (unfold kept; rewrite Hs; reflexivity).
      apply IH, Hlt. }
    pose proof (get_user_location_fast_fields c s) as [Hr Hm].
    destruct (get_user_location_fast c s) as [loc s1]. simpl in Hr, Hm.
    assert (count (reviews s1) < max_reviews s1) as Hlt1
      by (rewrite Hr, Hm; exact Hlt).
    cbn [rating make_review].
    destruct (extract_rating c) as [q|] eqn:Hq.
    + assert (kept c = true) as ->
        by (unfold kept; rewrite Hs, Hq; reflexivity).
      destruct (IH (acc ++ [make_review c loc])%list s1 Hlt1)
        as (locs & Hlen & Hout & Hr' & Hm').
      exists (loc :: locs). simpl. rewrite Hlen, Hout, Hr', Hm', Hr, Hm.
      rewrite <- app_assoc. auto.
    + assert (kept c = false) as ->
        by (unfold kept; rewrite Hs, Hq; reflexivity).
      destruct (IH acc s1 Hlt1) as (locs & Hlen & Hout & Hr' & Hm').
      exists locs. rewrite Hlen, Hout, Hr', Hm', Hr, Hm. auto.
Qed.

Lemma scrape_page_below p s :
  count (reviews s) < max_reviews s ->
  exists locs,
    List.length locs = List.length (page_records p)
    /\ fst (scrape_page p s) = zip_with make_review (page_records p) locs
    /\ reviews (snd (scrape_page p s)) = reviews s
    /\ max_reviews (snd (scrape_page p s)) = max_reviews s.
Proof.
  intros Hlt. unfold scrape_page, page_records.
  destruct (find_raises p); [exists []; auto|].
  apply (scrape_cards_below (found_cards p) [] s Hlt).
Qed.

Lemma records_upto_S k p pages :
  records_upto (S k) (p :: pages)
  = (page_records p ++ records_upto k pages)%list.
Proof. reflexivity. Qed.

(** The run, page by page: [k] pages are scraped, each while fewer than
    [max_reviews] records are collected. *)
Lemma run_loop_pages more : forall cur s,
  exists k locs,
    List.length locs = List.length (records_upto k (cur :: more))
    /\ reviews (snd (run_loop cur more s))
       = (reviews s
          ++ zip_with make_review (records_upto k (cur :: more)) locs)%list
    /\ max_reviews (snd (run_loop cur more s)) = max_reviews s
    /\ (forall j, (j < k)%nat ->
          count (reviews s)
          + Z.of_nat (List.length (records_upto j (cur :: more)))
          < max_reviews s)
    /\ match fst (run_loop cur more s) with
       | LoopCondition => k = 0%nat /\ max_reviews s <= count (reviews s)
       | ReachedTarget =>
           (1 <= k)%nat
           /\ max_reviews s <= count (reviews (snd (run_loop cur more s)))
       | NoMorePages =>
           k = List.length (cur :: more)
           /\ count (reviews (snd (run_loop cur more s))) < max_reviews s
       end.
Proof.
  induction more as [|next more IH]; intros cur s;
    rewrite run_loop_unfold;
    (destruct (Z.ltb_spec (count (reviews s)) (max_reviews s)) as [Hlt|Hge];
     [|exists 0%nat, []; simpl; rewrite app_nil_r;
       repeat split; auto; intros j Hj; lia]);
    destruct (scrape_page_below cur s Hlt) as (locs1 & Hlen1 & Hout & Hr & Hm);
    set (s2 := extend (fst (scrape_page cur s)) (snd (scrape_page cur s)));
    (assert (reviews s2
             = (reviews s ++ zip_with make_review (page_records cur) locs1)%list)
       as Hr2 by (subst s2; simpl; rewrite Hr, Hout; reflexivity));
    (assert (max_reviews s2 = max_reviews s) as Hm2
       by (subst s2; simpl; exact Hm));
    (assert (forall rest j, (j < 1)%nat ->
               count (reviews s)
               + Z.of_nat (List.length (records_upto j (cur :: rest)))
               < max_reviews s) as Hfirst
       by (intros rest j Hj; assert (j = 0%nat) as -> by lia; simpl; lia));
    (assert (forall rest, records_upto 1 (cur :: rest) = page_records cur)
       as Hone
       by (intros rest; unfold records_upto; simpl; apply app_nil_r)).
  - (* the last page *)
    exists 1%nat, locs1. rewrite Hone.
    split; [exact Hlen1|].
    destruct (Z.leb_spec (max_reviews s2) (count (reviews s2)));
      cbn [fst snd];
      (split; [exact Hr2|]); (split; [exact Hm2|]);
      (split; [intros j Hj; apply Hfirst; exact Hj|]);
      (split; [first [reflexivity|lia]|lia]).
  - destruct (Z.leb_spec (max_reviews s2) (count (reviews s2))).
    + exists 1%nat, locs1. rewrite Hone.
      split; [exact Hlen1|]. cbn [fst snd].
      split; [exact Hr2|]. split; [exact Hm2|].
      split; [intros j Hj; apply Hfirst; exact Hj|].
      split; lia.
    + destruct (IH next s2) as (k & locs & Hlen & Hrev & Hmax & Hpre & Hexit).
      exists (S k), (locs1 ++ locs)%list.
      rewrite records_upto_S.
      split; [rewrite !length_app; lia|].
      split; [rewrite Hrev, Hr2, zip_with_app, app_assoc by auto;
              reflexivity|].
      split; [rewrite Hmax; exact Hm2|].
      split.
      * intros [|j] Hj; [simpl; lia|].
        rewrite records_upto_S, length_app.
        assert (j < k)%nat as Hj' by lia. specialize (Hpre j Hj').
        rewrite Hr2, Hm2 in Hpre. unfold count in *.
        rewrite length_app, length_zip_with_l_eq in Hpre by auto. lia.
      * destruct (fst (run_loop next more s2));
          destruct Hexit as [Hk Hcount]; rewrite Hm2 in Hcount.
        -- exfalso. lia.
        -- split; [lia|exact Hcount].
        -- split; [simpl in *; lia|exact Hcount].
Qed.


Lemma in_firstn {A : Type} (n : nat) (l : list A) (x : A) :
  In x (firstn n l) -> In x l.
Proof.
  intros H. rewrite <- (firstn_skipn n l). apply in_or_app. left. exact H.
Qed.

Lemma in_records_upto k pages c :
  In c (records_upto k pages) -> In c (all_cards pages) /\ kept c = true.
Proof.
  unfold records_upto, all_cards. rewrite !in_concat.
  intros (l & Hl & Hc). apply in_map_iff in Hl as (p & <- & Hp).
  apply in_firstn in Hp. unfold page_records in Hc.
  destruct (find_raises p); [destruct Hc|].
  apply List.filter_In in Hc as [Hc Hk]. split; [|exact Hk].
  exists (found_cards p). split; [apply in_map, Hp|exact Hc].
Qed.

Lemma kept_rated c :
  kept c = true ->
  exists q aria m, extract_rating c = Some q /\ bubble c = Some aria
    /\ search rating_pattern aria = Some m.
Proof.
  unfold kept, extract_rating, parse_rating.
  destruct (scroll_raises c); simpl; [discriminate|].
  destruct (bubble c) as [aria|]; [|discriminate].
  destruct (search rating_pattern aria) as [m|] eqn:Hs; [|discriminate].
  destruct (float (group 3 m)) as [q|]; [|discriminate].
  intros _. exists q, aria, m. rewrite Hs. auto.
Qed.

(** ** The run on the fixture and in general *)



(** A page is collected to its end: the limit is compared with [reviews],
    which grows only after the page, so the three rated cards of
    [three_rated] give three records under [max = 2]. *)
Example page_collected_past_limit :
  List.map username (reviews (snd (run 2 three_rated [])))
  = ["Ann"; "Bob"; "Cid"].
Proof. vm_compute. reflexivity. Qed.

(** ** Ratings *)









End ScraperSpec.

(* ===================================================================== *)
(** * Properties of the report statistics *)
(* ===================================================================== *)

Module ReportServiceSpec.
Import ReportService ReportTerms.

Lemma existsb_eqb_elem (x : string) (l : list string) :
  existsb (String.eqb x) l = true <-> x ∈ l.
Proof.
  rewrite existsb_exists, list_elem_of_In. split.
  - intros (y & Hy & E). apply String.eqb_eq in E. subst y. exact Hy.
  - intros H. exists x. split; [exact H|apply String.eqb_refl].
Qed.

(** [nunique] counts the set of values. *)
Lemma length_unique_size (l : list string) :
  List.length (unique String.eqb l) = size (list_to_set l : gset string).
Proof.
  induction l as [|x l IH]; [symmetry; apply size_empty|].
  change (list_to_set (x :: l) : gset string)
    with ({[x]} ∪ (list_to_set l : gset string)).
  cbn [unique]. destruct (existsb (String.eqb x) l) eqn:E.
  - apply existsb_eqb_elem in E. rewrite IH. f_equal.
    symmetry. apply subseteq_union_1_L.
    apply singleton_subseteq_l, elem_of_list_to_set, E.
  - assert (x ∉ l) as Hx
      by (intros H; apply existsb_eqb_elem in H; congruence).
    cbn [List.length]. rewrite IH, size_union, size_singleton; [reflexivity|].
    apply disjoint_singleton_l. rewrite elem_of_list_to_set. exact Hx.
Qed.

Lemma existsb_filter_other (d x : string) (l : list string) :
  x <> d ->
  existsb (String.eqb x)
    (List.filter (fun v => negb (String.eqb v d)) l)
  = existsb (String.eqb x) l.
Proof.
  intros Hne. induction l as [|y l IH]; simpl; [reflexivity|].
  destruct (String.eqb_spec y d) as [->|Hy]; simpl.
  - destruct (String.eqb_spec x d); [contradiction|exact IH].
  - rewrite IH. reflexivity.
Qed.

(** The default counts as one value when it occurs. *)
Lemma length_unique_default (d : string) (l : list string) :
  List.length (unique String.eqb l)
  = (List.length
       (unique String.eqb (List.filter (fun v => negb (String.eqb v d)) l))
     + (if existsb (String.eqb d) l then 1 else 0))%nat.
Proof.
  induction l as [|x l IH]; simpl; [reflexivity|].
  destruct (String.eqb_spec x d) as [->|Hne]; simpl.
  - rewrite String.eqb_refl. simpl.
    destruct (existsb (String.eqb d) l); simpl; rewrite IH; lia.
  - rewrite (existsb_filter_other d x l Hne).
    destruct (String.eqb_spec d x) as [->|_]; [contradiction|]. simpl.
    destruct (existsb (String.eqb x) l); simpl; rewrite IH; lia.
Qed.

Lemma has_column_get name df :
  has_column name df = true <-> get_column name df <> None.
Proof.
  unfold has_column, get_column.
  induction (columns df) as [|[n c] l IH]; simpl; [split; congruence|].
  destruct (String.eqb name n); simpl; [split; congruence|exact IH].
Qed.

Lemma count_countries_location df cells :
  get_column "location" df = Some (StrCol cells) ->
  count_countries df = List.length (unique String.eqb (present cells)).
Proof.
  intros H. unfold count_countries.
  assert (has_column "location" df = true) as ->
    by (apply has_column_get; congruence).
  simpl. rewrite H. reflexivity.
Qed.

Lemma counts_rows_and_origins_read df avg :
  counts_rows_and_origins df
    {| total_reviews := index df; countries_count := count_countries df;
       avg_rating := avg |}.
Proof.
  split; [reflexivity|]. intros cells Hloc. simpl.
  rewrite (count_countries_location df cells Hloc). split.
  - apply length_unique_size.
  - apply (length_unique_default "Unknown").
Qed.

(** C5 (amended): the statistics computed from the rows satisfy:
    [total_reviews] is the number of rows; [countries_count] is the number
    of distinct origin_location values present, the default Unknown counted
    as a value like any other (one more than the number of distinct
    non-default values when it occurs); [avg_rating] is the arithmetic mean
    of the rating values present when there is one, and 0 when the data has
    no rating column. *)
Theorem report_statistics (df : DataFrame) :
  (forall cells,
     get_column "rating" df = Some (NumCol cells) ->
     exists st,
       read_stats df = Some st
       /\ counts_rows_and_origins df st
       /\ (present cells <> [] ->
            avg_rating st
            = Num (total (present cells)
                   / inject_Z (Z.of_nat (List.length (present cells))))))
  /\ (get_column "rating" df = None ->
      get_column "overall_rating" df = None ->
      get_column "stars" df = None ->
      exists st,
        read_stats df = Some st
        /\ counts_rows_and_origins df st
        /\ avg_rating st = Num 0).
Proof.
  split.
  - intros cells Hr. unfold read_stats, mean_rating. simpl. rewrite Hr.
    simpl. destruct (present cells) as [|v vs] eqn:E.
    + eexists. split; [reflexivity|].
      split; [apply counts_rows_and_origins_read|]. congruence.
    + eexists. split; [reflexivity|].
      split; [apply counts_rows_and_origins_read|]. reflexivity.
  - intros H1 H2 H3. unfold read_stats, mean_rating. simpl.
    rewrite H1, H2, H3. eexists. split; [reflexivity|].
    split; [apply counts_rows_and_origins_read|reflexivity].
Qed.

Lemma report_statistics_witness :
  let cells := [Some 4%Q; Some 5%Q; Some 3%Q; Some 4%Q] in
  get_column "rating" four_rows = Some (NumCol cells)
  /\ exists st,
       read_stats four_rows = Some st
       /\ counts_rows_and_origins four_rows st
       /\ (present cells <> [] ->
            avg_rating st
            = Num (total (present cells)
                   / inject_Z (Z.of_nat (List.length (present cells))))).
Proof.
  intros cells. split; [reflexivity|].
  exact (proj1 (report_statistics four_rows) cells eq_refl).
Defined.

(** The claim as the spec words it fails: on [four_rows] the stored origin
    count is 2, the number of distinct non-default origins is 1. *)
Lemma default_origin_is_counted :
  option_map countries_count (read_stats four_rows) = Some 2%nat
  /\ distinct_non_default
       [Some "Unknown"; Some "London, UK"; Some "Unknown"; Some "London, UK"]
     = 1%nat.
Proof. split; reflexivity. Qed.

(** A rating column without a value has no mean: pandas gives NaN, the 0
    of the [else] branch is for data without a rating column. *)
Example mean_of_empty_rating_column :
  option_map avg_rating
    (read_stats {| index := 1;
                   columns := [ ("location", StrCol [Some "Unknown"]);
                                ("rating", NumCol [None]) ] |})
  = Some NaN.
Proof. reflexivity. Qed.

Example four_rows_mean :
  match option_map avg_rating (read_stats four_rows) with
  | Some (Num q) => (q == 4)%Q
  | _ => False
  end.
Proof. reflexivity. Qed.

End ReportServiceSpec.

(* ===================================================================== *)
(** * Further properties of the task queue *)
(* ===================================================================== *)

Module TaskQueueMore.
Import TaskQueue QueueTerms QueueLog TaskQueueSpec.

Lemma identity_update_where_id i f d :
  (forall r, identity (f r) = identity r) ->
  List.map identity (tasks (update_where_id i f d))
  = List.map identity (tasks d).
Proof.
  intros Hf. unfold update_where_id; simpl. rewrite List.map_map.
  apply List.map_ext. intros r. destruct (id r =? i); auto.
Qed.

Lemma identity_finish_row now t o r :
  identity (finish_row now t o r) = identity r.
Proof.
  unfold finish_row. destruct (handler _ _); [reflexivity|].
  destruct (t_retries t <? 3); reflexivity.
Qed.

Lemma update_where_id_absent i f d :
  (forall r, In r (tasks d) -> id r <> i) -> update_where_id i f d = d.
Proof.
  intros H. destruct d as [rows nxt]. unfold update_where_id; simpl. f_equal.
  simpl in H. induction rows as [|r rows IH]; [reflexivity|]. simpl.
  destruct (Z.eqb_spec (id r) i) as [E|_].
  - destruct (H r (or_introl eq_refl) E).
  - f_equal. apply IH. intros r' Hr'. apply H. right. exact Hr'.
Qed.

Lemma update_where_id_local i f d :
  (forall r, identity (f r) = identity r) ->
  List.map identity (tasks (update_where_id i f d))
  = List.map identity (tasks d)
  /\ next_id (update_where_id i f d) = next_id d
  /\ (forall r, In r (tasks d) -> id r <> i ->
        In r (tasks (update_where_id i f d)))
  /\ ((forall r, In r (tasks d) -> id r <> i) -> update_where_id i f d = d).
Proof.
  intros Hf. split; [apply identity_update_where_id, Hf|].
  split; [reflexivity|]. split; [|apply update_where_id_absent].
  intros r Hr Hne. apply in_update_where_id. exists r. split; [exact Hr|].
  destruct (Z.eqb_spec (id r) i); [contradiction|reflexivity].
Qed.

(** X1: [update_task_status] never adds, removes or reorders rows and never
    changes the id, type, payload or creation time of a row; rows with
    another id are left as they are, and with an id no row has the call
    changes nothing. *)
Theorem update_task_status_local (now task_id : Z) (st : TaskStatus)
    (res err : option string) (d : db) :
  let d' := update_task_status now task_id st res err d in
  List.map identity (tasks d') = List.map identity (tasks d)
  /\ next_id d' = next_id d
  /\ (forall r, In r (tasks d) -> id r <> task_id -> In r (tasks d'))
  /\ ((forall r, In r (tasks d) -> id r <> task_id) -> d' = d).
Proof.
  simpl. unfold update_task_status. destruct st.
  - repeat split; auto.
  - apply update_where_id_local. reflexivity.
  - apply update_where_id_local. reflexivity.
  - apply update_where_id_local. reflexivity.
Qed.

(** The steps of the system only append rows and never touch the identity
    columns. *)
Lemma step_appends s s' :
  step s s' ->
  exists more,
    List.map identity (tasks (store s'))
    = (List.map identity (tasks (store s)) ++ more)%list.
Proof.
  intros [now ty pl s0 | now t s0 _ _ | s0 _ _ | now t o s0 _ | t s0 _];
    simpl.
  - exists [identity (new_row now ty pl (store s0))].
    rewrite List.map_app. reflexivity.
  - exists []. rewrite app_nil_r. unfold worker_begin, update_task_status.
    apply identity_update_where_id. reflexivity.
  - exists []. rewrite app_nil_r. reflexivity.
  - exists []. rewrite app_nil_r, worker_end_rows.
    apply identity_update_where_id, identity_finish_row.
  - exists []. rewrite app_nil_r. reflexivity.
Qed.

(** X2: whatever the web handlers and the worker do, no task is ever
    removed from the table or moved, and the id, type, payload and creation
    time of a task never change: the identity columns of a later state
    extend those of an earlier state. *)
Theorem tasks_never_removed (s s' : system) :
  rtc step s s' ->
  exists more,
    List.map identity (tasks (store s'))
    = (List.map identity (tasks (store s)) ++ more)%list.
Proof.
  induction 1 as [s|s s1 s2 H1 _ IH].
  - exists []. rewrite app_nil_r. reflexivity.
  - destruct (step_appends _ _ H1) as [m1 E1]. destruct IH as [m2 E2].
    exists (m1 ++ m2)%list. rewrite E2, E1, app_assoc. reflexivity.
Qed.

Lemma tasks_never_removed_witness :
  rtc step (after_failures 0) (after_failures 1)
  /\ exists more,
       List.map identity (tasks (store (after_failures 1)))
       = (List.map identity (tasks (store (after_failures 0))) ++ more)%list.
Proof.
  assert (rtc step (after_failures 0) (after_failures 1)) as H.
  { eapply rtc_l; [|eapply rtc_l; [|apply rtc_refl]].
    - apply (step_dequeue 101 (attempt 0) (after_failures 0)); reflexivity.
    - apply (step_finish 102 (attempt 0) boom
               {| store := worker_begin 101 (attempt 0) (failed_times 0);
                  pc := Handling (attempt 0) |}).
      reflexivity. }
  split; [exact H|]. exact (tasks_never_removed _ _ H).
Defined.


(** ** What the columns record *)

Lemma log_inv_initial : log_inv initial.
Proof. split; [simpl; lia|intros r []]. Qed.

Lemma record_ok_set_processing now r :
  record_ok r -> status r = PENDING -> record_ok (set_processing now r).
Proof.
  intros (Ha & Hb & Hc & Hd) Hp. unfold record_ok; simpl.
  rewrite Hp in *. split; [exact Ha|]. split; [|split].
  - split; [discriminate|]. intros _. apply Hb. discriminate.
  - split; [discriminate|]. intros [? _]. discriminate.
  - split.
    + intros Hx. apply Hd in Hx. split; [tauto|discriminate].
    + intros [Hx _]. apply Hd. split; [exact Hx|discriminate].
Qed.

Lemma record_ok_finish_row now t o r :
  record_ok r -> status r = PROCESSING -> 0 <= retries r ->
  record_ok (finish_row now t o r).
Proof.
  intros (Ha & Hb & Hc & Hd) Hp H0.
  assert (result r = None) as Hres by (apply Hb; rewrite Hp; discriminate).
  assert (started_at r <> None) as Hst.
  { intros Hx. apply Hc in Hx as [Hx _]. rewrite Hp in Hx. discriminate. }
  unfold finish_row. destruct (handler _ _) as [res|kind msg].
  - unfold record_ok; simpl. split; [exact Ha|]. split; [|split].
    + split; [discriminate|]. intros Hx. destruct Hx. reflexivity.
    + split; [contradiction|]. intros [? _]. discriminate.
    + split; [discriminate|]. intros [_ Hx]. destruct Hx. reflexivity.
  - assert (retries r + 1 <> 0) as Hne by lia.
    destruct (t_retries t <? 3); unfold record_ok; simpl;
      (split; [split; [discriminate|contradiction]|]);
      (split; [split; [discriminate|intros _; exact Hres]|]);
      (split; [split; [contradiction|intros [_ Hx]; contradiction]|]);
      (split; [discriminate|intros [Hx _]; contradiction]).
Qed.

Lemma log_inv_step s s' : inv s -> log_inv s -> step s s' -> log_inv s'.
Proof.
  intros (Hnd & Hrows & Hpc) (Hnext & Hlog) Hstep.
  destruct Hstep as [now ty pl s | now t s Hpoll Hget | s Hpoll Hget
                    | now t o s Hrun | t s Hrun].
  - (* enqueue *)
    split; [simpl; lia|]. intros r Hr. simpl in Hr.
    apply in_app_or in Hr as [Hr|[<-|[]]]; [exact (Hlog r Hr)|].
    simpl. split; [lia|].
    unfold record_ok; simpl. repeat split; auto; try discriminate.
  - (* dequeue *)
    apply get_pending_task_Some in Hget as (r0 & Hr0 & Hp0 & _ & ->).
    split; [exact Hnext|]. intros r' Hr'.
    change (In r' (tasks
      (update_where_id (id r0) (set_processing now) (store s)))) in Hr'.
    apply in_update_where_id in Hr' as (r & Hr & ->).
    destruct (Hlog r Hr) as (H1 & Hrec).
    destruct (Z.eqb_spec (id r) (id r0)) as [E|NE].
    + assert (r = r0) as -> by (eapply NoDup_ids_inj; eauto).
      split; [exact H1|].
      apply record_ok_set_processing; assumption.
    + split; [exact H1|exact Hrec].
  - (* sleep *)
    split; assumption.
  - (* finish *)
    rewrite Hrun in Hpc. destruct Hpc as [_ Hmine].
    split; [simpl; rewrite worker_end_rows; exact Hnext|].
    intros r' Hr'. simpl in Hr'. rewrite worker_end_rows in Hr'.
    apply in_update_where_id in Hr' as (r & Hr & ->).
    destruct (Hlog r Hr) as (H1 & Hrec).
    destruct (Hrows r Hr) as (_ & H0 & _).
    destruct (Z.eqb_spec (id r) (t_id t)) as [E|NE].
    + destruct (Hmine r Hr E) as [_ Hst].
      rewrite id_finish_row. split; [exact H1|].
      apply record_ok_finish_row; assumption.
    + split; [exact H1|exact Hrec].
  - (* restart *)
    split; assumption.
Qed.

Lemma log_inv_reachable s : reachable s -> log_inv s.
Proof.
  intros Hs. assert (inv s /\ log_inv s) as [_ H]; [|exact H].
  revert s Hs. unfold reachable.
  apply (rtc_ind_r (fun s => inv s /\ log_inv s) initial).
  - split; [apply inv_initial|apply log_inv_initial].
  - intros y z _ Hyz [Hi Hl].
    split; [eapply inv_step; eauto|eapply log_inv_step; eauto].
Qed.


(** X3: in every state the queue can reach, the columns of a task record
    its attempts: [error] is empty exactly when the task never failed
    ([retries = 0]), so a later success does not clear the error of an
    earlier failure; [result] is set exactly when the task is completed;
    [started_at] is empty exactly when the task is pending and was never
    attempted; [completed_at] is empty exactly when the task never failed
    and is not completed. *)
Theorem columns_record_attempts (s : system) (r : task_row) :
  reachable s -> In r (tasks (store s)) ->
  (error r = None <-> retries r = 0)
  /\ (result r = None <-> status r <> COMPLETED)
  /\ (started_at r = None <-> status r = PENDING /\ retries r = 0)
  /\ (completed_at r = None <-> retries r = 0 /\ status r <> COMPLETED).
Proof.
  intros Hs Hr. destruct (log_inv_reachable s Hs) as [_ Hlog].
  destruct (Hlog r Hr) as (_ & Hrec). exact Hrec.
Qed.

Lemma columns_record_attempts_witness :
  let r := {| id := 1; task_type := "scrape_and_report"; payload := "{}";
              status := PENDING; result := None;
              error := Some "RuntimeError: browser crashed";
              created_at := 100; started_at := Some 101;
              completed_at := Some 102; retries := 2 |} in
  reachable (after_failures 2) /\ In r (tasks (store (after_failures 2)))
  /\ (error r = None <-> retries r = 0)
  /\ (result r = None <-> status r <> COMPLETED)
  /\ (started_at r = None <-> status r = PENDING /\ retries r = 0)
  /\ (completed_at r = None <-> retries r = 0 /\ status r <> COMPLETED).
Proof.
  intros r.
  assert (reachable (after_failures 2)) as Hs
    by (apply reachable_after_failures; lia).
  assert (In r (tasks (store (after_failures 2)))) as Hr
    by (vm_compute; left; reflexivity).
  split; [exact Hs|]. split; [exact Hr|].
  exact (columns_record_attempts (after_failures 2) r Hs Hr).
Defined.

(** The task in hand has its row in the table. *)
Lemma held_step s s' :
  inv s -> step s s' ->
  (forall t, pc s = Handling t ->
     exists r, In r (tasks (store s)) /\ id r = t_id t) ->
  forall t, pc s' = Handling t ->
    exists r, In r (tasks (store s')) /\ id r = t_id t.
Proof.
  intros (Hnd & Hrows & Hpc) Hstep Hheld.
  destruct Hstep as [now ty pl s | now t s Hpoll Hget | s Hpoll Hget
                    | now t o s Hrun | t s Hrun]; cbn [pc store].
  - intros t Ht. destruct (Hheld t Ht) as (r & Hr & E).
    exists r. split; [cbn; apply in_or_app; left; exact Hr | exact E].
  - intros t' Ht'. inversion Ht'; subst t'. clear Ht'.
    apply get_pending_task_Some in Hget as (r0 & Hr0 & Hp0 & _ & ->).
    exists (set_processing now r0). split; [| reflexivity].
    unfold worker_begin, update_task_status. apply in_update_where_id.
    exists r0. split; [exact Hr0 |]. cbn. rewrite Z.eqb_refl. reflexivity.
  - exact Hheld.
  - discriminate.
  - discriminate.
Qed.

Lemma held_reachable s :
  reachable s ->
  forall t, pc s = Handling t ->
    exists r, In r (tasks (store s)) /\ id r = t_id t.
Proof.
  intros Hs. pose proof Hs as Hs'. revert s Hs Hs'. unfold reachable at 1.
  apply (rtc_ind_r
           (fun s => reachable s ->
                     forall t, pc s = Handling t ->
                       exists r, In r (tasks (store s)) /\ id r = t_id t)
           initial).
  - intros _ t Ht. discriminate.
  - intros y z Hy Hyz IH _.
    apply (held_step y z); [apply inv_reachable, Hy | exact Hyz |].
    apply IH. exact Hy.
Qed.

(** A row left [processing] by a worker that was stopped is out of the
    reach of every later worker. *)
Lemma orphan_kept s s' r :
  inv s -> step s s' -> In r (tasks (store s)) ->
  status r = PROCESSING -> ~ in_flight s r ->
  In r (tasks (store s')) /\ ~ in_flight s' r.
Proof.
  intros (Hnd & Hrows & Hpc) Hstep Hr Hst Hnf.
  destruct Hstep as [now ty pl s | now t s Hpoll Hget | s Hpoll Hget
                    | now t o s Hrun | t s Hrun];
    unfold in_flight in *; cbn [pc store] in *.
  - split; [cbn; apply in_or_app; left; exact Hr | exact Hnf].
  - apply get_pending_task_Some in Hget as (r0 & Hr0 & Hp0 & _ & ->).
    assert (id r <> id r0) as Hne.
    { intros E. assert (r = r0) by (eapply NoDup_ids_inj; eauto).
      subst r0. congruence. }
    split; [| exact Hne].
    unfold worker_begin, update_task_status. apply in_update_where_id.
    exists r. split; [exact Hr |]. cbn [task_of_row t_id].
    destruct (Z.eqb_spec (id r) (id r0)); [contradiction | reflexivity].
  - split; [exact Hr | exact Hnf].
  - rewrite Hrun in Hnf. split; [| tauto].
    rewrite worker_end_rows. apply in_update_where_id.
    exists r. split; [exact Hr |].
    destruct (Z.eqb_spec (id r) (t_id t)); [contradiction | reflexivity].
  - split; [exact Hr | tauto].
Qed.

(** X4: the worker holds one task at a time.  While it handles a task,
    the table has one row with the id of that task, and that row is
    [processing].  A row that is [processing] without being the task in
    hand was left by a worker that was stopped inside its handler: no
    later step of the system changes any of its columns, so it is never
    taken, completed, failed or retried again. *)
Theorem one_task_in_flight (s : system) :
  reachable s ->
  (forall t, pc s = Handling t ->
     exists r, In r (tasks (store s)) /\ in_flight s r
       /\ status r = PROCESSING
       /\ forall r', In r' (tasks (store s)) -> in_flight s r' -> r' = r)
  /\ (forall r s', In r (tasks (store s)) -> status r = PROCESSING ->
        ~ in_flight s r -> rtc step s s' ->
        In r (tasks (store s')) /\ ~ in_flight s' r).
Proof.
  intros Hs. split.
  - intros t Ht. destruct (inv_reachable s Hs) as (Hnd & _ & Hpc).
    destruct (held_reachable s Hs t Ht) as (r & Hr & E).
    rewrite Ht in Hpc. destruct Hpc as [_ Hmine].
    exists r. unfold in_flight. rewrite Ht.
    split; [exact Hr |]. split; [exact E |].
    split; [apply (Hmine r Hr E) |].
    intros r' Hr' E'. eapply NoDup_ids_inj; eauto. congruence.
  - intros r s' Hr Hst Hnf Hrun. revert Hs Hr Hnf.
    induction Hrun as [x | x y z Hxy Hyz IH]; [auto |].
    intros Hx Hr Hnf.
    destruct (orphan_kept x y r (inv_reachable x Hx) Hxy Hr Hst Hnf)
      as [Hr' Hnf'].
    apply IH; auto. eapply rtc_r; eauto.
Qed.

Lemma reachable_worker_stopped : reachable worker_stopped.
Proof.
  unfold reachable. eapply rtc_l; [| eapply rtc_l; [| apply rtc_once]].
  - apply (step_enqueue 100 "scrape_and_report" "{}" initial).
  - apply (step_dequeue 101 (attempt 0) (after_failures 0)); reflexivity.
  - apply (step_restart (attempt 0)
             {| store := worker_begin 101 (attempt 0) queued;
                pc := Handling (attempt 0) |}).
    reflexivity.
Qed.

Lemma one_task_in_flight_witness :
  let s := worker_stopped in
  let s' := second_task_taken in
  let r := {| id := 1; task_type := "scrape_and_report"; payload := "{}";
              status := PROCESSING; result := None; error := None;
              created_at := 100; started_at := Some 101;
              completed_at := None; retries := 0 |} in
  reachable s /\ In r (tasks (store s)) /\ status r = PROCESSING
  /\ ~ in_flight s r /\ rtc step s s'
  /\ In r (tasks (store s')) /\ ~ in_flight s' r.
Proof.
  intros s s' r.
  pose proof reachable_worker_stopped as Hs.
  assert (In r (tasks (store s))) as Hr by (vm_compute; left; reflexivity).
  assert (~ in_flight s r) as Hnf by (intros []).
  assert (rtc step s s') as Hrun.
  { eapply rtc_l; [| apply rtc_once].
    - apply (step_enqueue 103 "scrape_and_report" "{}" s).
    - apply (step_dequeue 104
               {| t_id := 2; t_task_type := "scrape_and_report";
                  t_payload := "{}"; t_retries := 0 |}
               {| store := fst (add_task 103 "scrape_and_report" "{}"
                                  (store s));
                  pc := Polling |}); reflexivity. }
  split; [exact Hs |]. split; [exact Hr |]. split; [reflexivity |].
  split; [exact Hnf |]. split; [exact Hrun |].
  exact (proj2 (one_task_in_flight s Hs) r s' Hr eq_refl Hnf Hrun).
Defined.

(** After a restart two rows are [processing]: the one the stopped worker
    left and the one the next worker took. *)
Example two_rows_processing :
  reachable second_task_taken
  /\ List.map status (tasks (store second_task_taken))
     = [PROCESSING; PROCESSING].
Proof.
  split; [| reflexivity].
  unfold reachable. eapply rtc_r; [eapply rtc_r |].
  - apply reachable_worker_stopped.
  - apply (step_enqueue 103 "scrape_and_report" "{}" worker_stopped).
  - apply (step_dequeue 104
             {| t_id := 2; t_task_type := "scrape_and_report";
                t_payload := "{}"; t_retries := 0 |}
             {| store := fst (add_task 103 "scrape_and_report" "{}"
                                (store worker_stopped));
                pc := Polling |}); reflexivity.
Qed.

(** A row that is neither pending nor processing is out of the worker's
    reach. *)
Lemma settled_row_kept s s' r :
  inv s -> step s s' -> In r (tasks (store s)) ->
  status r <> PENDING -> status r <> PROCESSING ->
  In r (tasks (store s')).
Proof.
  intros (Hnd & Hrows & Hpc) Hstep Hr Hnp Hnq.
  destruct Hstep as [now ty pl s | now t s Hpoll Hget | s Hpoll Hget
                    | now t o s Hrun | t s Hrun]; simpl.
  - apply in_or_app. left. exact Hr.
  - apply get_pending_task_Some in Hget as (r0 & Hr0 & Hp0 & _ & ->).
    change (In r (tasks
      (update_where_id (id r0) (set_processing now) (store s)))).
    apply in_update_where_id. exists r. split; [exact Hr|].
    destruct (Z.eqb_spec (id r) (id r0)) as [E|_]; [|reflexivity].
    assert (r = r0) as -> by (eapply NoDup_ids_inj; eauto). contradiction.
  - exact Hr.
  - rewrite Hrun in Hpc. destruct Hpc as [_ Hmine].
    rewrite worker_end_rows. apply in_update_where_id.
    exists r. split; [exact Hr|].
    destruct (Z.eqb_spec (id r) (t_id t)) as [E|_]; [|reflexivity].
    destruct (Hmine r Hr E) as [_ Hst]. contradiction.
  - exact Hr.
Qed.

(** X5: a completed task is final: once a row is [completed], no later
    step of the system changes any of its columns. *)
Theorem completed_is_final (s s' : system) (r : task_row) :
  reachable s -> In r (tasks (store s)) -> status r = COMPLETED ->
  rtc step s s' -> In r (tasks (store s')).
Proof.
  intros Hs Hr Hc Hrun. revert Hs Hr.
  induction Hrun as [|x y z Hxy Hyz IH]; auto.
  intros Hx Hr. apply IH.
  - eapply rtc_r; eauto.
  - eapply settled_row_kept; eauto; try (rewrite Hc; discriminate).
    apply inv_reachable, Hx.
Qed.

(** The queue after task 1 failed once and then succeeded. *)
Lemma reachable_completed :
  reachable
    {| store := worker_iteration 103 104 (attempt 1) (Returned "Success: r1")
                  (failed_times 1);
       pc := Polling |}.
Proof.
  apply (reachable_iteration (after_failures 1) 103 104 (attempt 1)
           (Returned "Success: r1")).
  - apply reachable_after_failures. lia.
  - reflexivity.
  - reflexivity.
Qed.

Lemma completed_is_final_witness :
  let s := {| store := worker_iteration 103 104 (attempt 1)
                         (Returned "Success: r1") (failed_times 1);
              pc := Polling |} in
  let r := {| id := 1; task_type := "scrape_and_report"; payload := "{}";
              status := COMPLETED; result := Some "Success: r1";
              error := Some "RuntimeError: browser crashed";
              created_at := 100; started_at := Some 103;
              completed_at := Some 104; retries := 1 |} in
  let s' := {| store := fst (add_task 105 "scrape_and_report" "{}" (store s));
               pc := pc s |} in
  reachable s /\ In r (tasks (store s)) /\ status r = COMPLETED
  /\ rtc step s s' /\ In r (tasks (store s')).
Proof.
  intros s r s'.
  pose proof reachable_completed as Hs.
  assert (In r (tasks (store s))) as Hr by (vm_compute; left; reflexivity).
  assert (rtc step s s') as Hrun.
  { eapply rtc_l; [|apply rtc_refl].
    apply (step_enqueue 105 "scrape_and_report" "{}" s). }
  split; [exact Hs|]. split; [exact Hr|]. split; [reflexivity|].
  split; [exact Hrun|].
  exact (completed_is_final s s' r Hs Hr eq_refl Hrun).
Defined.

(** X6: [add_task] hands out fresh ids: in every state the queue can reach
    the ids of the rows are pairwise distinct, and the id [add_task] returns
    is positive, larger than every id in the table, and afterwards the id of
    exactly one row, the new pending row with [retries = 0]. *)
Theorem add_task_fresh_id (s : system) (now : Z) (ty pl : string) :
  reachable s ->
  let d := store s in
  let d' := fst (add_task now ty pl d) in
  let i := snd (add_task now ty pl d) in
  NoDup (List.map id (tasks d))
  /\ 1 <= i
  /\ (forall r, In r (tasks d) -> 1 <= id r < i)
  /\ In (new_row now ty pl d) (tasks d')
  /\ (forall r, In r (tasks d') -> id r = i -> r = new_row now ty pl d)
  /\ NoDup (List.map id (tasks d')).
Proof.
  intros Hs d d' i. subst d d' i.
  destruct (inv_reachable s Hs) as (Hnd & Hrows & _).
  destruct (log_inv_reachable s Hs) as [Hnext Hlog].
  assert (forall r, In r (tasks (store s)) -> 1 <= id r < next_id (store s))
    as Hids.
  { intros r Hr. destruct (Hrows r Hr) as [Hlt _].
    destruct (Hlog r Hr) as [H1 _]. lia. }
  simpl. split; [exact Hnd|]. split; [exact Hnext|]. split; [exact Hids|].
  split; [apply in_or_app; right; left; reflexivity|]. split.
  - intros r Hr E. apply in_app_or in Hr as [Hr|[<-|[]]]; [|reflexivity].
    specialize (Hids r Hr). lia.
  - rewrite List.map_app. simpl. apply NoDup_app. split; [exact Hnd|].
    split; [|apply NoDup_singleton].
    intros j Hj Hj'. apply list_elem_of_In in Hj.
    apply list_elem_of_In in Hj'. destruct Hj' as [<-|[]].
    apply in_map_iff in Hj as (r & E & Hr). specialize (Hids r Hr). lia.
Qed.

Lemma add_task_fresh_id_witness :
  let s := after_failures 1 in
  let d := store s in
  let d' := fst (add_task 105 "scrape_and_report" "{}" d) in
  let i := snd (add_task 105 "scrape_and_report" "{}" d) in
  reachable s
  /\ NoDup (List.map id (tasks d))
  /\ 1 <= i
  /\ (forall r, In r (tasks d) -> 1 <= id r < i)
  /\ In (new_row 105 "scrape_and_report" "{}" d) (tasks d')
  /\ (forall r, In r (tasks d') -> id r = i ->
        r = new_row 105 "scrape_and_report" "{}" d)
  /\ NoDup (List.map id (tasks d')).
Proof.
  intros s d d' i.
  assert (reachable s) as Hs by (apply reachable_after_failures; lia).
  split; [exact Hs|].
  exact (add_task_fresh_id s 105 "scrape_and_report" "{}" Hs).
Defined.

End TaskQueueMore.

(* ===================================================================== *)
(** * Further properties of the scraper *)
(* ===================================================================== *)

Module ScraperMoreSpec.
Import PyStr Scraper Shape ScraperTerms ScraperMore ScraperTermsMore.
Import PyStrSpec ScraperSpec.

(** ** Scrolling *)

Lemma last_default {A : Type} (q : A) (ps : list A) (d1 d2 : A) :
  List.last (q :: ps) d1 = List.last (q :: ps) d2.
Proof.
  revert q. induction ps as [|x ps IH]; intros q; [reflexivity|].
  change (List.last (x :: ps) d1 = List.last (x :: ps) d2). apply IH.
Qed.

Lemma scroll_loop_bounds draws : forall total current,
  (forall d, In d draws -> 500 <= d <= 800) ->
  total - current <= 500 * Z.of_nat (List.length draws) ->
  exists ps,
    scroll_loop draws total current = Some ps
    /\ (total <= current -> ps = [])
    /\ (current < total ->
          500 * Z.of_nat (List.length ps) < total - current + 500
          /\ total - current <= 800 * Z.of_nat (List.length ps)
          /\ exists p, List.last ps current = p /\ total <= p < total + 800)
    /\ (forall p, In p ps -> current < p).
Proof.
  induction draws as [|d draws IH]; intros total current Hd Hlen.
  - simpl in Hlen. simpl. destruct (Z.ltb_spec current total); [lia|].
    exists []. repeat split; auto; try lia. intros p [].
  - cbn [scroll_loop]. destruct (Z.ltb_spec current total) as [Hlt|Hge].
    + assert (500 <= d <= 800) as Hdd by (apply Hd; left; reflexivity).
      destruct (IH total (current + d)) as (ps & E & Hnil & Hcons & Hinc).
      { intros d' Hd'. apply Hd. right. exact Hd'. }
      { cbn [List.length] in Hlen. lia. }
      rewrite E. exists ((current + d) :: ps).
      split; [reflexivity|]. split; [lia|]. split.
      * intros _. cbn [List.length]. rewrite Nat2Z.inj_succ.
        destruct (Z.lt_ge_cases (current + d) total) as [Hl|Hg].
        -- destruct (Hcons Hl) as (H1 & H2 & p & Hp & Hb).
           split; [lia|]. split; [lia|]. exists p. split; [|exact Hb].
           destruct ps as [|q ps]; [simpl in H2; lia|].
           change (List.last (q :: ps) current = p).
           rewrite (last_default q ps current (current + d)). exact Hp.
        -- rewrite (Hnil Hg). simpl. split; [lia|]. split; [lia|].
           exists (current + d). split; [reflexivity|lia].
      * intros p [<-|Hp]; [lia|]. specialize (Hinc p Hp). lia.
    + exists []. repeat split; auto; try lia. intros p [].
Qed.

(** X7: [quick_scroll] stops.  With draws between 500 and 800, and enough of
    them, the loop ends after fewer than [total_height / 500 + 1] scrolls and
    at least [total_height / 800]; it does not scroll at all when the page
    has no height, and otherwise the last position is at or past the
    bottom, by less than 800. *)
Theorem quick_scroll_stops (draws : list Z) (total_height : Z) :
  (forall d, In d draws -> 500 <= d <= 800) ->
  total_height <= 500 * Z.of_nat (List.length draws) ->
  exists ps,
    quick_scroll draws total_height = Some ps
    /\ (total_height <= 0 -> ps = [])
    /\ (0 < total_height ->
          500 * Z.of_nat (List.length ps) < total_height + 500
          /\ total_height <= 800 * Z.of_nat (List.length ps)
          /\ exists p, List.last ps 0 = p
               /\ total_height <= p < total_height + 800).
Proof.
  intros Hd Hlen. unfold quick_scroll.
  destruct (scroll_loop_bounds draws total_height 0 Hd) as
    (ps & E & Hnil & Hcons & _); [lia|].
  exists ps. split; [exact E|]. split; [exact Hnil|].
  intros Hpos. destruct (Hcons Hpos) as (H1 & H2 & H3).
  split; [lia|]. split; [lia|exact H3].
Qed.

Lemma quick_scroll_stops_witness :
  let draws := [620; 500; 800; 731] in
  (forall d, In d draws -> 500 <= d <= 800)
  /\ 1900 <= 500 * Z.of_nat (List.length draws)
  /\ exists ps,
       quick_scroll draws 1900 = Some ps
       /\ (1900 <= 0 -> ps = [])
       /\ (0 < 1900 ->
             500 * Z.of_nat (List.length ps) < 1900 + 500
             /\ 1900 <= 800 * Z.of_nat (List.length ps)
             /\ exists p, List.last ps 0 = p /\ 1900 <= p < 1900 + 800).
Proof.
  intros draws.
  assert (forall d, In d draws -> 500 <= d <= 800) as Hd.
  { intros d [<-|[<-|[<-|[<-|[]]]]]; lia. }
  assert (1900 <= 500 * Z.of_nat (List.length draws)) as Hl by (simpl; lia).
  split; [exact Hd|]. split; [exact Hl|].
  exact (quick_scroll_stops draws 1900 Hd Hl).
Defined.


(** ** The patterns of the file name and of the date *)

Lemma conforms_lit c w : conforms (lit c) w = true -> w = String c "".
Proof.
  unfold conforms, lit; simpl. destruct w as [|x [|]]; try discriminate.
  intros H. apply Ascii.eqb_eq in H. subst x. reflexivity.
Qed.

Lemma conforms_plus p w :
  conforms {| cls := p; quant := Plus |} w = true ->
  w <> "" /\ all_chars p w = true.
Proof.
  unfold conforms; simpl. destruct w; [discriminate|].
  intros H. split; [discriminate|exact H].
Qed.


Ltac split_conform H :=
  repeat match type of H with
         | (_ && _)%bool = true =>
             let H1 := fresh "Hc" in apply andb_prop in H as [H1 H]
         end.

(** The match [search] returns is a part of the text. *)
Lemma search_decomposes pat s m :
  search pat s = Some m ->
  conform pat m = true
  /\ exists pre post, s = (pre ++ join m ++ post)%string.
Proof.
  induction s as [|c s IH]; cbn [search].
  - destruct (match_here pat "") as [m'|] eqn:E; [|discriminate].
    intros [= ->]. destruct (match_here_sound _ _ _ E) as [Hc [post Hs]].
    split; [exact Hc|]. exists "", post. exact Hs.
  - destruct (match_here pat (String c s)) as [m'|] eqn:E.
    + intros [= ->]. destruct (match_here_sound _ _ _ E) as [Hc [post Hs]].
      split; [exact Hc|]. exists "", post. exact Hs.
    + intros H. destruct (IH H) as [Hc (pre & post & Hs)].
      split; [exact Hc|]. exists (String c pre), post. rewrite Hs at 1.
      reflexivity.
Qed.

(** What a match of [name_pattern] looks like. *)
Lemma name_pattern_match m :
  conform name_pattern m = true ->
  exists name,
    nth 8 m EmptyString = name /\ name <> ""
    /\ all_chars (fun c => negb (Ascii.eqb c "-"%char)) name = true
    /\ join m = ("Reviews-" ++ name ++ "-")%string.
Proof.
  intros H. unfold name_pattern in H.
  destruct m as [|w1 [|w2 [|w3 [|w4 [|w5 [|w6 [|w7 [|w8 [|w9 [|w10 [|]]]]]]]]]]];
    cbn [conform] in H; split_conform H; try discriminate H.
  apply conforms_lit in Hc, Hc0, Hc1, Hc2, Hc3, Hc4, Hc5, Hc6, Hc8.
  apply conforms_plus in Hc7 as [Hne Hall]. subst.
  exists w9. repeat split; auto.
Qed.

(** X8: the restaurant name [save_results] puts in the name of the CSV file
    is never empty and never contains a hyphen.  When the URL has a part
    Reviews-<name>- with a non-empty hyphen-free name, the result is such a
    name of the URL; otherwise it is the text restaurant.  No file is
    written for a run without reviews. *)
Theorem restaurant_name_of_url (base_url : string) :
  restaurant_name base_url <> ""
  /\ all_chars (fun c => negb (Ascii.eqb c "-"%char))
       (restaurant_name base_url) = true
  /\ (occurs name_pattern base_url ->
        exists pre post,
          base_url
          = (pre ++ "Reviews-" ++ restaurant_name base_url ++ "-" ++ post)%string)
  /\ (~ occurs name_pattern base_url ->
        restaurant_name base_url = "restaurant")
  /\ (forall timestamp output_dir s,
        save_results base_url timestamp output_dir s = None
        <-> reviews s = []).
Proof.
  unfold restaurant_name.
  destruct (search name_pattern base_url) as [m|] eqn:E.
  - destruct (search_decomposes _ _ _ E) as [Hm _].
    destruct (name_pattern_match m Hm) as (name & Hn & Hne & Hall & Hj).
    rewrite Hn. split; [exact Hne|]. split; [exact Hall|]. split; [|split].
    + intros _. destruct (search_decomposes _ _ _ E) as [_ (pre & post & Hs)].
      exists pre, post. rewrite Hs at 1. rewrite Hj, !append_assoc.
      reflexivity.
    + intros Hno. exfalso. apply Hno. apply (search_sound _ _ _ E).
    + intros timestamp output_dir s. unfold save_results.
      destruct (reviews s); split; congruence.
  - split; [discriminate|]. split; [reflexivity|]. split; [|split].
    + intros Ho. apply search_None in E. contradiction.
    + reflexivity.
    + intros timestamp output_dir s. unfold save_results.
      destruct (reviews s); split; congruence.
Qed.

Lemma restaurant_name_of_url_witness :
  let url := "https://www.tripadvisor.com/Restaurant_Review-g295371-d735117-Reviews-Nautika-Dubrovnik.html" in
  occurs name_pattern url
  /\ restaurant_name url = "Nautika"
  /\ exists pre post,
       url = (pre ++ "Reviews-" ++ restaurant_name url ++ "-" ++ post)%string.
Proof.
  intros url.
  assert (occurs name_pattern url) as Ho.
  { apply (search_sound name_pattern url
             ["R"; "e"; "v"; "i"; "e"; "w"; "s"; "-"; "Nautika"; "-"]).
    vm_compute. reflexivity. }
  split; [exact Ho|]. split; [vm_compute; reflexivity|].
  exact (proj1 (proj2 (proj2 (restaurant_name_of_url url))) Ho).
Defined.





(** ** Ratings are not negative *)

Lemma span_fst_all p s : all_chars p (fst (span p s)) = true.
Proof.
  induction s as [|c s IH]; [reflexivity|]. simpl.
  destruct (p c) eqn:Hc; [|reflexivity].
  destruct (span p s) as [a b]. simpl in *. rewrite Hc, IH. reflexivity.
Qed.

Lemma digits_val_nonneg s : forall acc,
  all_chars is_digit s = true -> 0 <= acc -> 0 <= digits_val acc s.
Proof.
  induction s as [|c s IH]; intros acc Hs Hacc; [exact Hacc|].
  simpl in Hs. apply andb_prop in Hs as [Hc Hs]. simpl. apply IH; [exact Hs|].
  unfold is_digit in Hc. apply andb_prop in Hc as [Hc _].
  apply Nat.leb_le in Hc. unfold digit_val. lia.
Qed.

Lemma float_nonneg s q : float s = Some q -> (0 <= q)%Q.
Proof.
  unfold float.
  pose proof (span_fst_all is_digit s) as Hip.
  destruct (span is_digit s) as [ip r]. simpl in Hip.
  assert (forall fp r', all_chars is_digit fp = true ->
            match r', (ip ++ fp)%string with
            | EmptyString, String _ _ =>
                Some (Qred (Qmake (digits_val 0 (ip ++ fp))
                        (Z.to_pos (10 ^ Z.of_nat (String.length fp)))))
            | _, _ => None
            end = Some q -> (0 <= q)%Q) as Hgen.
  { intros fp r' Hfp. destruct r'; [|discriminate].
    destruct (ip ++ fp)%string eqn:E; [discriminate|]. rewrite <- E.
    intros [= <-]. rewrite Qred_correct. unfold Qle; simpl.
    rewrite Z.mul_1_r. apply digits_val_nonneg; [|lia].
    rewrite all_chars_app, Hip, Hfp. reflexivity. }
  destruct r as [|c r1]; [apply (Hgen "" ""); reflexivity|].
  destruct (Ascii.eqb c "."%char).
  - pose proof (span_fst_all is_digit r1) as Hfp.
    destruct (span is_digit r1) as [fp r']. apply Hgen. exact Hfp.
  - apply (Hgen "" (String c r1)). reflexivity.
Qed.

(** X10: a rating is never negative: what [extract_rating] returns for any
    label, and so the rating of every record of a run, is a number that is
    at least 0.  (Nothing in the code bounds it by 5.) *)
Theorem rating_not_negative :
  (forall c q, extract_rating c = Some q -> (0 <= q)%Q)
  /\ (forall max cur more r,
        In r (reviews (snd (run max cur more))) ->
        exists q, rating r = Some q /\ (0 <= q)%Q).
Proof.
  assert (forall c q, extract_rating c = Some q -> (0 <= q)%Q) as H.
  { intros c q. unfold extract_rating, parse_rating.
    destruct (bubble c) as [aria|]; [|discriminate].
    destruct (search rating_pattern aria) as [m|]; [|discriminate].
    apply float_nonneg. }
  split; [exact H|].
  intros max cur more r Hr. unfold run in Hr.
  destruct (run_loop_pages more cur (init max)) as (k & locs & _ & Hrev & _).
  rewrite Hrev in Hr. change (reviews (init max)) with (@nil review) in Hr.
  rewrite app_nil_l in Hr.
  apply list_elem_of_In, elem_of_zip_with in Hr as (c & loc & -> & Hc & _).
  apply list_elem_of_In, in_records_upto in Hc as [_ Hk].
  destruct (kept_rated c Hk) as (q & _ & _ & Hq & _).
  exists q. split; [exact Hq|]. exact (H c q Hq).
Qed.

Lemma rating_not_negative_witness :
  let c := reviewer "Ann" "London, UK" "4.5 of 5 bubbles" in
  extract_rating c = Some (9 # 2)%Q /\ (0 <= 9 # 2)%Q.
Proof.
  intros c.
  assert (extract_rating c = Some (9 # 2)%Q) as H by (vm_compute; reflexivity).
  split; [exact H|]. exact (proj1 rating_not_negative c (9 # 2)%Q H).
Defined.


(** ** The read-more button *)

Lemma contains_unfold n h :
  contains n h
  = (startswith n h
     || match h with
        | EmptyString => false
        | String _ h' => contains n h'
        end).
Proof. destruct h; reflexivity. Qed.

Lemma startswith_app p s : startswith p (p ++ s) = true.
Proof.
  induction p as [|c p IH]; [reflexivity|].
  rewrite append_cons. simpl. rewrite Ascii.eqb_refl. exact IH.
Qed.

Lemma startswith_inv p : forall s,
  startswith p s = true -> exists post, s = (p ++ post)%string.
Proof.
  induction p as [|c p IH]; intros s H.
  - exists s. reflexivity.
  - destruct s as [|x s]; [discriminate|]. simpl in H.
    apply andb_prop in H as [Hc H]. apply Ascii.eqb_eq in Hc. subst x.
    destruct (IH s H) as [post ->]. exists post. reflexivity.
Qed.

Lemma contains_intro n pre post : contains n (pre ++ n ++ post) = true.
Proof.
  induction pre as [|c pre IH].
  - change ("" ++ n ++ post)%string with (n ++ post)%string.
    rewrite contains_unfold, startswith_app. reflexivity.
  - rewrite append_cons, contains_unfold, IH. apply orb_true_r.
Qed.

Lemma contains_inv n h :
  contains n h = true -> exists pre post, h = (pre ++ n ++ post)%string.
Proof.
  induction h as [|c h IH]; rewrite contains_unfold; intros H;
    apply orb_prop in H as [H|H]; try discriminate.
  - apply startswith_inv in H as [post ->]. exists "", post. reflexivity.
  - apply startswith_inv in H as [post ->]. exists "", post. reflexivity.
  - destruct (IH H) as (pre & post & ->). exists (String c pre), post.
    reflexivity.
Qed.

Lemma lower_app a b : lower (a ++ b) = (lower a ++ lower b)%string.
Proof.
  induction a as [|c a IH]; [reflexivity|].
  rewrite append_cons. simpl. rewrite IH. reflexivity.
Qed.

(** X11: [extract_review_text] reads the text after a click exactly when
    the label of the button contains more in any letter case: the test for
    the text Read more is implied by the second test.  Without a text
    container the review text is empty. *)
Theorem review_text_after_click (c : card) :
  extract_review_text c =
  match text_elem c with
  | None => ""
  | Some tc =>
      match read_more tc with
      | Some label =>
          if contains "more" (lower label) then expanded tc else collapsed tc
      | None => collapsed tc
      end
  end.
Proof.
  unfold extract_review_text. destruct (text_elem c) as [tc|]; [|reflexivity].
  destruct (read_more tc) as [label|]; [|reflexivity].
  destruct (contains "Read more" label) eqn:E; [|reflexivity].
  apply contains_inv in E as (pre & post & ->).
  rewrite !lower_app.
  change (lower "Read more") with ("read " ++ "more")%string.
  rewrite (append_assoc "read " "more"), <- (append_assoc (lower pre)).
  rewrite contains_intro. reflexivity.
Qed.

(** ** What a run costs *)

Lemma opened_resolve c s :
  (List.length (opened (snd (get_user_location_fast c s)))
   <= S (List.length (opened s)))%nat.
Proof.
  unfold get_user_location_fast, profile_location.
  destruct (inline_location c); [simpl; lia|].
  destruct (profile_link c) as [a|]; [|simpl; lia].
  destruct (href a) as [h|]; [|simpl; lia].
  destruct (String.eqb h ""); [simpl; lia|].
  destruct (location_cache s !! h); [simpl; lia|].
  destruct (profile c); simpl; rewrite length_app; simpl; lia.
Qed.

Lemma opened_scrape_cards cards : forall acc s,
  (List.length (opened (snd (scrape_cards cards acc s)))
   <= List.length (opened s) + List.length cards)%nat.
Proof.
  induction cards as [|c rest IH]; intros acc s; cbn [scrape_cards].
  - simpl. lia.
  - destruct (max_reviews s <=? count (reviews s)); [simpl; lia|].
    destruct (scroll_raises c).
    + specialize (IH acc s). simpl. lia.
    + pose proof (opened_resolve c s) as Hc.
      destruct (get_user_location_fast c s) as [loc s1]. simpl in Hc.
      cbn [rating make_review].
      destruct (extract_rating c);
        [specialize (IH (acc ++ [make_review c loc])%list s1)
        |specialize (IH acc s1)]; simpl; lia.
Qed.

Lemma opened_run_loop more : forall cur s,
  (List.length (opened (snd (run_loop cur more s)))
   <= List.length (opened s) + List.length (all_cards (cur :: more)))%nat.
Proof.
  induction more as [|next more IH]; intros cur s;
    rewrite run_loop_unfold;
    (destruct (count (reviews s) <? max_reviews s); [|simpl; lia]);
    (assert (List.length
               (opened (extend (fst (scrape_page cur s))
                               (snd (scrape_page cur s))))
             <= List.length (opened s) + List.length (found_cards cur))%nat
       as Hpage
       by (simpl; unfold scrape_page; destruct (find_raises cur);
           [simpl; lia|apply opened_scrape_cards]));
    unfold all_cards; cbn [List.map List.concat]; rewrite length_app;
    match goal with |- context [if ?b then _ else _] => destruct b end;
    try (cbn [snd]; lia).
  specialize (IH next
    (extend (fst (scrape_page cur s)) (snd (scrape_page cur s)))).
  unfold all_cards in IH. cbn [List.map List.concat] in IH.
  rewrite ?length_app in *. lia.
Qed.

Lemma cache_paid_step s s' : run_step s s' -> cache_paid s -> cache_paid s'.
Proof.
  intros [c s0|rs s0] [Hin Hsize]; [|split; assumption].
  unfold get_user_location_fast, profile_location.
  destruct (inline_location c); [split; assumption|].
  destruct (profile_link c) as [a|]; [|split; assumption].
  destruct (href a) as [h|]; [|split; assumption].
  destruct (String.eqb h ""); [split; assumption|].
  destruct (location_cache s0 !! h) eqn:E; [split; assumption|].
  assert (cache_paid (log_open h s0)) as Hlog.
  { split; simpl.
    - intros h' v' Hv. apply in_or_app. left. exact (Hin h' v' Hv).
    - rewrite length_app. simpl. lia. }
  destruct (profile c) as [| | |loc]; try exact Hlog.
  cbn [snd]. split; simpl.
  - intros h' v' Hv. apply in_or_app.
    destruct (decide (h = h')) as [->|Hne]; [right; left; reflexivity|].
    rewrite lookup_insert_ne in Hv by exact Hne. left. exact (Hin h' v' Hv).
  - rewrite map_size_insert_None by exact E. rewrite length_app. simpl. lia.
Qed.

(** X12: a run opens at most one profile window per review card of the
    site, every profile reference in the cache was opened during the run,
    and the cache has no more entries than windows were opened. *)
Theorem run_profile_visits (max : Z) (cur : page) (more : list page) :
  let s := snd (run max cur more) in
  (List.length (opened s) <= List.length (all_cards (cur :: more)))%nat
  /\ (forall h v, location_cache s !! h = Some v -> In h (opened s))
  /\ (size (location_cache s) <= List.length (opened s))%nat.
Proof.
  simpl. split.
  - pose proof (opened_run_loop more cur (init max)) as H. simpl in H.
    exact H.
  - assert (cache_paid (init max)) as H0.
    { split; [intros h v Hv; simpl in Hv; rewrite lookup_empty in Hv;
              discriminate|simpl; rewrite map_size_empty; lia]. }
    pose proof (run_loop_steps cur more (init max)) as Hrun.
    unfold run. change (cache_paid (snd (run_loop cur more (init max)))).
    revert H0. induction Hrun as [|x y z Hxy _ IH]; [auto|].
    intros Hx. apply IH. eapply cache_paid_step; eauto.
Qed.


(** ** How far past the limit a run can go *)

Lemma length_page_records p :
  (List.length (page_records p) <= List.length (found_cards p))%nat.
Proof.
  unfold page_records. destruct (find_raises p); [simpl; lia|].
  apply List.filter_length_le.
Qed.

Lemma records_upto_next n pages : forall j,
  (forall p, In p pages -> (List.length (found_cards p) <= n)%nat) ->
  (List.length (records_upto (S j) pages)
   <= List.length (records_upto j pages) + n)%nat.
Proof.
  induction pages as [|p pages IH]; intros j Hn.
  - unfold records_upto. simpl. destruct j; simpl; lia.
  - destruct j as [|j].
    + rewrite records_upto_S. unfold records_upto at 2. simpl.
      unfold records_upto. simpl. rewrite app_nil_r.
      pose proof (length_page_records p).
      specialize (Hn p (or_introl eq_refl)). lia.
    + rewrite !records_upto_S, !length_app.
      assert (forall p', In p' pages ->
                (List.length (found_cards p') <= n)%nat) as Hn'
        by (intros p' Hp'; apply Hn; right; exact Hp').
      specialize (IH j Hn'). lia.
Qed.

(** X13: the limit is exceeded by less than one page.  When no page of the
    site shows more than [n] review cards, a run with limit [max] returns
    at most [max - 1 + n] records (none when that number is not
    positive). *)
Theorem run_exceeds_limit_by_less_than_a_page (max : Z) (cur : page)
    (more : list page) (n : nat) :
  (forall p, In p (cur :: more) -> (List.length (found_cards p) <= n)%nat) ->
  count (reviews (snd (run max cur more))) <= Z.max 0 (max - 1 + Z.of_nat n).
Proof.
  intros Hn. unfold run.
  destruct (run_loop_pages more cur (init max))
    as (k & locs & Hlen & Hrev & _ & Hpre & _).
  change (reviews (init max)) with (@nil review) in *.
  change (max_reviews (init max)) with max in *.
  change (count []) with 0 in *.
  rewrite app_nil_l in Hrev. rewrite Hrev. unfold count.
  rewrite length_zip_with_l_eq by (symmetry; exact Hlen).
  destruct k as [|j]; [unfold records_upto; simpl; lia|].
  assert (j < S j)%nat as Hj by lia. specialize (Hpre j Hj).
  pose proof (records_upto_next n (cur :: more) j Hn). lia.
Qed.

Lemma run_exceeds_limit_by_less_than_a_page_witness :
  (forall p, In p [three_rated] -> (List.length (found_cards p) <= 3)%nat)
  /\ count (reviews (snd (run 2 three_rated [])))
     <= Z.max 0 (2 - 1 + Z.of_nat 3).
Proof.
  assert (forall p, In p [three_rated] ->
            (List.length (found_cards p) <= 3)%nat) as H.
  { intros p [<-|[]]. simpl. lia. }
  split; [exact H|].
  exact (run_exceeds_limit_by_less_than_a_page 2 three_rated [] 3 H).
Defined.

(** ** Where the location of a record comes from *)








End ScraperMoreSpec.

(* ===================================================================== *)
(** * The orders and reports database: properties *)
(* ===================================================================== *)

Module BackendSpec.
Import TaskQueue Scraper ReportService Backend ScraperTerms ReportTerms
  BackendTerms.
Local Open Scope db_scope.

(** ** Running code that may raise *)

Lemma bind_returns {A B : Type} (m : M A) (f : A -> M B) w b w' :
  bind m f w = (inr b, w') ->
  exists a w1, m w = (inr a, w1) /\ f a w1 = (inr b, w').
Proof.
  unfold bind. destruct (m w) as [[e | a] w1]; intros H.
  - discriminate.
  - eauto.
Qed.

Lemma bind_raises {A B : Type} (m : M A) (f : A -> M B) w e w' :
  bind m f w = (inl e, w') ->
  m w = (inl e, w')
  \/ exists a w1, m w = (inr a, w1) /\ f a w1 = (inl e, w').
Proof.
  unfold bind. destruct (m w) as [[e1 | a] w1]; intros H.
  - left. congruence.
  - right. eauto.
Qed.

Lemma may_raise_returns e w u w' :
  may_raise e w = (inr u, w') -> e = None /\ w' = w.
Proof. destruct e; cbn; intros H; inversion H; auto. Qed.

Lemma may_raise_raises e w x w' :
  may_raise e w = (inl x, w') -> e = Some x /\ w' = w.
Proof. destruct e; cbn; intros H; inversion H; auto. Qed.

Lemma call_inv {A : Type} (x : exn + A) w y w' :
  call x w = (y, w') -> y = x /\ w' = w.
Proof. unfold call. intros H; inversion H; auto. Qed.

Lemma execute_inv f w x w' :
  execute f w = (x, w') -> x = inr tt /\ w' = f w.
Proof. unfold execute. intros H; inversion H; auto. Qed.

Lemma ret_inv {A : Type} (a : A) w x w' :
  ret a w = (x, w') -> x = inr a /\ w' = w.
Proof. unfold ret. intros H; inversion H; auto. Qed.

Lemma insert_report_returns row w u w' :
  insert_report row w = (inr u, w') ->
  existsb (fun r => String.eqb (rp_id r) (rp_id row)) (reports w) = false
  /\ w' = {| reports := reports w ++ [row]; orders := orders w;
             outbox := outbox w |}.
Proof.
  unfold insert_report.
  destruct (existsb _ _); intros H; inversion H; auto.
Qed.

Lemma insert_report_raises row w e w' :
  insert_report row w = (inl e, w') ->
  existsb (fun r => String.eqb (rp_id r) (rp_id row)) (reports w) = true
  /\ w' = w.
Proof.
  unfold insert_report.
  destruct (existsb _ _); intros H; inversion H; auto.
Qed.

(** ** report_service.py *)

Lemma stats_of_returns io df st :
  stats_of io df = inr st -> read_stats df = Some st.
Proof.
  unfold stats_of. destruct (read_stats df); intros H; inversion H; auto.
Qed.

Lemma generate_report_for_order_returns cfg io oid name csv w rid w' :
  generate_report_for_order cfg io oid name csv w = (inr rid, w') ->
  rid = new_id io
  /\ existsb (fun r => String.eqb (rp_id r) (new_id io)) (reports w) = false
  /\ exists r,
       w' = {| reports := reports w ++ [r]; orders := orders w;
               outbox := outbox w |}
       /\ rp_id r = new_id io /\ rp_order_id r = oid
       /\ rp_restaurant_name r = name
       /\ rp_html_path r = (REPORTS_PATH cfg ++ "/" ++ new_id io)
                            ++ "/index.html"
       /\ rp_pdf_path r = (REPORTS_PATH cfg ++ "/" ++ new_id io)
                           ++ "/report.pdf"
       /\ rp_expires_at r = Some (clock io + timedelta_days 90)
       /\ rp_view_count r = 0
       /\ holds_figures csv r.
Proof.
  unfold generate_report_for_order. intros H.
  apply bind_returns in H. destruct H as ([[[total countries] avg] pos] & w1 & Hfig & H).
  apply bind_returns in H as (u1 & w2 & Hpdf & H).
  apply bind_returns in H as (u2 & w3 & Hins & H).
  apply may_raise_returns in Hpdf as [_ ->].
  apply insert_report_returns in Hins as [Hfresh ->].
  apply ret_inv in H as [H ->]. inversion H; subst rid. clear H.
  assert (w1 = w /\ holds_figures csv
            {| rp_id := new_id io; rp_order_id := oid;
               rp_restaurant_name := name; rp_total_reviews := total;
               rp_countries_count := countries; rp_avg_rating := avg;
               rp_positive_pct := pos;
               rp_html_path := (REPORTS_PATH cfg ++ "/" ++ new_id io)
                               ++ "/index.html";
               rp_pdf_path := (REPORTS_PATH cfg ++ "/" ++ new_id io)
                              ++ "/report.pdf";
               rp_expires_at := Some (clock io + timedelta_days
                                                   REPORT_EXPIRY_DAYS);
               rp_view_count := 0 |}) as [-> Hf].
  { destruct csv as [read |]; cbn [holds_figures].
    - apply bind_returns in Hfig as (u & v1 & H1 & Hfig).
      apply bind_returns in Hfig as (df & v2 & H2 & Hfig).
      apply bind_returns in Hfig as (st & v3 & H3 & Hfig).
      apply may_raise_returns in H1 as [_ ->].
      apply call_inv in H2 as [Hr ->].
      apply call_inv in H3 as [Hs ->].
      apply ret_inv in Hfig as [Hfig ->]. inversion Hfig; subst.
      split; [reflexivity |].
      exists df, st. cbn. symmetry in Hs. apply stats_of_returns in Hs.
      repeat split; auto.
    - apply ret_inv in Hfig as [Hfig ->]. inversion Hfig; subst.
      cbn. auto. }
  split; [reflexivity |]. split; [exact Hfresh |].
  eexists. split; [reflexivity |]. cbn [rp_id rp_order_id rp_restaurant_name rp_html_path rp_pdf_path rp_expires_at rp_view_count]. repeat split; try reflexivity.
  exact Hf.
Qed.

Lemma generate_report_for_order_raises cfg io oid name csv w e w' :
  generate_report_for_order cfg io oid name csv w = (inl e, w') -> w' = w.
Proof.
  unfold generate_report_for_order. intros H.
  assert (Hfig : forall (x : exn + (nat * nat * number * Q)) w1,
            match csv with
            | Some read =>
                may_raise (generate_report_raises io) ;;
                df <- call read ;;
                st <- call (stats_of io df) ;;
                ret (total_reviews st, countries_count st, avg_rating st,
                     85%Q)
            | None => ret (0%nat, 0%nat, Num 0, 0%Q)
            end w = (x, w1) -> w1 = w).
  { intros x w1. destruct csv as [read |]; [| intros E; apply ret_inv in E; tauto].
    unfold bind, call, ret.
    destruct (generate_report_raises io); cbn;
      [intros E; inversion E; auto |].
    destruct read as [e1 | df]; [intros E; inversion E; auto |].
    destruct (stats_of io df); intros E; inversion E; auto. }
  apply bind_raises in H as [H | ([[[total countries] avg] pos] & w1 & H1 & H)].
  - apply Hfig in H. auto.
  - apply Hfig in H1. subst w1.
    apply bind_raises in H as [H | (u & w2 & H2 & H)].
    + apply may_raise_raises in H. tauto.
    + apply may_raise_returns in H2 as [_ ->].
      apply bind_raises in H as [H | (u1 & w3 & H3 & H)].
      * apply insert_report_raises in H. tauto.
      * apply ret_inv in H as [H _]. discriminate.
Qed.

Lemma update_report_run io rid read w x w' :
  update_report_with_data io rid read w = (x, w') ->
  (exists e, x = inl e /\ w' = w)
  \/ exists df st,
       x = inr tt /\ read = inr df /\ read_stats df = Some st
       /\ w' = update_reports rid (set_stats st) w.
Proof.
  unfold update_report_with_data, bind, call, execute.
  destruct (generate_report_raises io); cbn;
    [intros E; inversion E; eauto |].
  destruct (generate_pdf_raises io); cbn;
    [intros E; inversion E; eauto |].
  destruct read as [e | df]; [intros E; inversion E; eauto |].
  destruct (stats_of io df) as [e | st] eqn:Hst;
    [intros E; inversion E; eauto |].
  intros E; inversion E. right. exists df, st.
  apply stats_of_returns in Hst. auto.
Qed.


(** ** Lookups in the reports table *)

Lemma find_report_new rid r w :
  existsb (fun x => String.eqb (rp_id x) rid) (reports w) = false ->
  rp_id r = rid ->
  find_report rid {| reports := reports w ++ [r]; orders := orders w;
                     outbox := outbox w |} = Some r.
Proof.
  unfold find_report. cbn [reports]. intros Hf Hr.
  induction (reports w) as [| x l IH]; cbn in *.
  - rewrite Hr, String.eqb_refl. reflexivity.
  - apply orb_false_elim in Hf as [Hx Hl]. rewrite Hx. auto.
Qed.

Lemma find_report_old rid r x w :
  find_report rid w = Some r ->
  find_report rid {| reports := reports w ++ [x]; orders := orders w;
                     outbox := outbox w |} = Some r.
Proof.
  unfold find_report. cbn [reports].
  induction (reports w) as [| y l IH]; cbn; [discriminate |].
  destruct (String.eqb (rp_id y) rid); auto.
Qed.

Lemma find_report_none rid w :
  find_report rid w = None <->
  existsb (fun x => String.eqb (rp_id x) rid) (reports w) = false.
Proof.
  unfold find_report.
  induction (reports w) as [| y l IH]; cbn; [tauto |].
  destruct (String.eqb (rp_id y) rid); cbn; [split; discriminate | exact IH].
Qed.

Lemma find_report_update rid rid' f w :
  (forall r, rp_id (f r) = rp_id r) ->
  find_report rid (update_reports rid' f w)
  = option_map (fun r => if String.eqb (rp_id r) rid' then f r else r)
      (find_report rid w).
Proof.
  intros Hid. unfold find_report, update_reports. cbn [reports].
  induction (reports w) as [| y l IH]; cbn; [reflexivity |].
  assert (rp_id (if String.eqb (rp_id y) rid' then f y else y) = rp_id y)
    as ->.
  { destruct (String.eqb (rp_id y) rid'); auto. }
  destruct (String.eqb (rp_id y) rid); cbn; auto.
Qed.

Lemma same_report_refl r : same_report r r.
Proof. unfold same_report. tauto. Qed.

Lemma same_report_trans r1 r2 r3 :
  same_report r1 r2 -> same_report r2 r3 -> same_report r1 r3.
Proof.
  unfold same_report. intros (? & ? & ? & ? & ? & ? & ?)
    (? & ? & ? & ? & ? & ? & ?).
  repeat split; congruence.
Qed.

Lemma same_report_set_stats st r : same_report r (set_stats st r).
Proof. unfold same_report. cbn. tauto. Qed.

Lemma same_report_add_view r : same_report r (add_view r).
Proof. unfold same_report. cbn. tauto. Qed.


(** ** process_scrape_task *)

Lemma item_inv (p : payload) key w x w' :
  item p key w = (x, w') ->
  w' = w
  /\ match p !! key with
     | Some v => x = inr v
     | None => x = inl ("KeyError", "'" ++ key ++ "'")
     end.
Proof.
  unfold item. destruct (p !! key); cbn; intros H; inversion H; auto.
Qed.

Lemma report_step_run cfg io existing oid name read w x w1 :
  report_step cfg io existing oid name read w = (x, w1) ->
  orders w1 = orders w /\ outbox w1 = outbox w
  /\ match x with inl _ => w1 = w | inr _ => True end.
Proof.
  destruct existing as [rid |]; cbn [report_step].
  - unfold bind.
    destruct (update_report_with_data (report_calls io) rid read w)
      as [y w2] eqn:Hu.
    apply update_report_run in Hu as [(e & -> & ->) | (df & st & -> & _ & _ & ->)].
    + intros H; inversion H; auto.
    + intros H. apply ret_inv in H as [-> ->]. cbn. auto.
  - destruct x as [e | rid]; intros H.
    + apply generate_report_for_order_raises in H. subst. auto.
    + apply generate_report_for_order_returns in H
        as (_ & _ & r & -> & _). cbn. auto.
Qed.

(** A run of [process_scrape_task] fails before anything is written, or
    gets as far as the mail. *)
Lemma scrape_and_report_run cfg io existing p w x w' :
  scrape_and_report cfg io existing p w = (x, w') ->
  (exists e, x = inl e /\ w' = w)
  \/ exists oid url name to cur more rid w1,
       p !! "order_id" = Some (Some oid)
       /\ p !! "restaurant_url" = Some url
       /\ p !! "restaurant_name" = Some name
       /\ p !! "email" = Some to
       /\ site io url = inr (cur, more)
       /\ report_step cfg io existing oid name (scraped io cur more) w
          = (inr rid, w1)
       /\ match send_raises io with
          | Some e =>
              x = inl e
              /\ w' = if mail_taken io
                      then send (mail_of cfg rid to name) w1 else w1
          | None =>
              x = inr ("Success: " ++ rid)
              /\ w' = update_orders (fun o => String.eqb (o_id o) oid)
                        (set_completed_order rid)
                        (send (mail_of cfg rid to name) w1)
          end.
Proof.
  unfold scrape_and_report, bind at 1 2 3 4 5 6.
  unfold item, path_under_reports, call.
  destruct (p !! "order_id") as [o |]; cbn [ret raise];
    [| intros H; inversion H; eauto].
  destruct (p !! "restaurant_url") as [url |]; cbn [ret raise];
    [| intros H; inversion H; eauto].
  destruct (p !! "restaurant_name") as [name |]; cbn [ret raise];
    [| intros H; inversion H; eauto].
  destruct (p !! "email") as [to |]; cbn [ret raise];
    [| intros H; inversion H; eauto].
  destruct o as [oid |]; cbn [ret raise];
    [| intros H; inversion H; eauto].
  destruct (site io url) as [e | [cur more]] eqn:Hsite;
    [intros H; inversion H; eauto |].
  fold (scraped io cur more).
  fold (report_step cfg io existing oid name (scraped io cur more)).
  fold (mail_of cfg).
  unfold bind at 1.
  destruct (report_step cfg io existing oid name (scraped io cur more) w)
    as [[e | rid] w1] eqn:Hstep.
  - apply report_step_run in Hstep as (_ & _ & ->).
    intros H; inversion H; eauto.
  - intros H. right. exists oid, url, name, to, cur, more, rid, w1.
    repeat (split; [reflexivity |]).
    split; [exact Hsite |]. split; [exact Hstep |].
    revert H. unfold send_report_email, bind, execute, ret, raise.
    destruct (send_raises io); [destruct (mail_taken io) |];
      intros H; inversion H; auto.
Qed.


Lemma process_scrape_task_inv cfg io existing p w o w' :
  process_scrape_task cfg io existing p w = (o, w') ->
  exists x,
    scrape_and_report cfg io existing p w = (x, w')
    /\ match x with
       | inr res => o = Returned res
       | inl (kind, msg) => o = Raised kind msg
       end.
Proof.
  unfold process_scrape_task.
  destruct (scrape_and_report cfg io existing p w) as [[[k m] | res] w1];
    intros H; inversion H; subst.
  - exists (inl (k, m)). auto.
  - exists (inr res). auto.
Qed.

Lemma reports_of_new o r w :
  reports_of o {| reports := reports w ++ [r]; orders := orders w;
                  outbox := outbox w |}
  = (reports_of o w
     ++ (if String.eqb (rp_order_id r) o then [r] else []))%list.
Proof.
  unfold reports_of. cbn [reports]. rewrite List.filter_app. reflexivity.
Qed.

Lemma reports_of_update o rid f w :
  (forall r, rp_order_id (f r) = rp_order_id r) ->
  reports_of o (update_reports rid f w)
  = List.map (fun r => if String.eqb (rp_id r) rid then f r else r)
      (reports_of o w).
Proof.
  intros Hf. unfold reports_of, update_reports. cbn [reports].
  induction (reports w) as [| y l IH]; cbn; [reflexivity |].
  assert (rp_order_id (if String.eqb (rp_id y) rid then f y else y)
          = rp_order_id y) as ->.
  { destruct (String.eqb (rp_id y) rid); auto. }
  destruct (String.eqb (rp_order_id y) o); cbn; congruence.
Qed.

Lemma report_step_reports cfg io existing oid name read w rid w1 :
  existing_report oid w existing ->
  report_step cfg io existing oid name read w = (inr rid, w1) ->
  (exists r, In r (reports w1) /\ rp_id r = rid /\ rp_order_id r = oid
             /\ holds_statistics read r)
  /\ forall o,
       (reports_of o w <> [] ->
        length (reports_of o w1) = length (reports_of o w))
       /\ (reports_of o w = [] -> (length (reports_of o w1) <= 1)%nat).
Proof.
  destruct existing as [i |]; cbn [report_step existing_report].
  - intros (r0 & Hin & Hid) H.
    apply bind_returns in H as (u & w2 & Hu & H).
    apply ret_inv in H as [H ->]. inversion H; subst rid. clear H.
    apply update_report_run in Hu
      as [(e & He & _) | (df & st & _ & Hread & Hst & ->)]; [discriminate |].
    split.
    + exists (set_stats st r0).
      apply List.filter_In in Hin as [Hin Ho].
      apply String.eqb_eq in Ho.
      split; [| split; [exact Hid | split; [exact Ho |]]].
      * unfold update_reports. cbn [reports].
        apply List.in_map_iff. exists r0.
        rewrite Hid, String.eqb_refl. auto.
      * exists df, st. cbn. auto.
    + intros o. rewrite reports_of_update by reflexivity.
      rewrite List.length_map. split; [reflexivity |].
      intros ->. cbn. lia.
  - intros Hnone H.
    apply generate_report_for_order_returns in H
      as (-> & _ & r & -> & Hid & Ho & _ & _ & _ & _ & _ & Hfig).
    split.
    + exists r. cbn [reports]. split; [apply List.in_app_iff; cbn; auto |].
      split; [exact Hid | split; [exact Ho |]].
      destruct Hfig as (df & st & ? & ? & ? & ? & ? & _).
      exists df, st. auto.
    + intros o. rewrite reports_of_new, List.length_app, Ho.
      destruct (String.eqb oid o) eqn:E; cbn [length].
      * apply String.eqb_eq in E. subst o. rewrite Hnone.
        split; [intros C; contradiction | cbn; lia].
      * split; [lia | intros ->; cbn; lia].
Qed.

(** X15: a scrape task that returns has done all of its work: its result
    is the text Success followed by a report id; the reports table holds a
    report with that id for the order of the task, with the statistics of
    the scraped data; one mail with the two links of that report went to
    the address of the task; and the orders with the id of the task are
    completed with that report, the other orders being left as they
    were. *)
Theorem scrape_task_delivers cfg io existing p w res w' oid :
  p !! "order_id" = Some (Some oid) ->
  existing_report oid w existing ->
  process_scrape_task cfg io existing p w = (Returned res, w') ->
  exists rid r url name to cur more,
    res = "Success: " ++ rid
    /\ p !! "restaurant_url" = Some url
    /\ p !! "restaurant_name" = Some name
    /\ p !! "email" = Some to
    /\ site io url = inr (cur, more)
    /\ In r (reports w') /\ rp_id r = rid /\ rp_order_id r = oid
    /\ holds_statistics (scraped io cur more) r
    /\ outbox w' = (outbox w ++ [mail_of cfg rid to name])%list
    /\ orders w' = completed_orders oid rid (orders w).
Proof.
  intros Hoid Hex H.
  apply process_scrape_task_inv in H as (x & H & Hx).
  destruct x as [[k m] | res']; [discriminate |]. inversion Hx; subst res'.
  apply scrape_and_report_run in H
    as [(e & He & _) | (oid' & url & name & to & cur & more & rid & w1
                        & Ho & Hu & Hn & Ht & Hsite & Hstep & Hsend)];
    [discriminate |].
  rewrite Hoid in Ho. inversion Ho; subst oid'. clear Ho.
  destruct (send_raises io); [destruct Hsend; discriminate |].
  destruct Hsend as [Hres ->]. inversion Hres; subst res. clear Hres.
  pose proof (report_step_run _ _ _ _ _ _ _ _ _ Hstep) as (Hord & Hout & _).
  apply (report_step_reports _ _ _ _ _ _ _ _ _ Hex) in Hstep
    as [(r & Hin & Hid & Hro & Hst) _].
  exists rid, r, url, name, to, cur, more.
  cbn [update_orders send reports orders outbox].
  rewrite Hord, Hout. unfold completed_orders. repeat split; auto.
Qed.

Lemma scrape_task_delivers_witness :
  let w := one_order "processing" in
  let io := one_page_site None in
  let w' := snd (process_scrape_task local_settings io None konoba_payload w)
  in
  konoba_payload !! "order_id" = Some (Some "1a2b3c4d")
  /\ existing_report "1a2b3c4d" w None
  /\ process_scrape_task local_settings io None konoba_payload w
     = (Returned "Success: 0123456789ab", w')
  /\ exists rid r url name to cur more,
       "Success: 0123456789ab" = "Success: " ++ rid
       /\ konoba_payload !! "restaurant_url" = Some url
       /\ konoba_payload !! "restaurant_name" = Some name
       /\ konoba_payload !! "email" = Some to
       /\ site io url = inr (cur, more)
       /\ In r (reports w') /\ rp_id r = rid /\ rp_order_id r = "1a2b3c4d"
       /\ holds_statistics (scraped io cur more) r
       /\ outbox w'
          = (outbox w ++ [mail_of local_settings rid to name])%list
       /\ orders w' = completed_orders "1a2b3c4d" rid (orders w).
Proof.
  intros w io w'.
  assert (konoba_payload !! "order_id" = Some (Some "1a2b3c4d")) as H1
    by (vm_compute; reflexivity).
  assert (existing_report "1a2b3c4d" w None) as H2 by reflexivity.
  assert (process_scrape_task local_settings io None konoba_payload w
          = (Returned "Success: 0123456789ab", w')) as H3
    by (vm_compute; reflexivity).
  split; [exact H1 |]. split; [exact H2 |]. split; [exact H3 |].
  exact (scrape_task_delivers local_settings io None konoba_payload w
           "Success: 0123456789ab" w' "1a2b3c4d" H1 H2 H3).
Defined.

(** X16: a scrape task that raises has not marked the order completed:
    the orders table is as it was.  At most one mail has gone out, the mail
    about a report to the address of the task; and none when the mail call
    raised without the mail API having taken the mail. *)
Theorem scrape_task_failure cfg io existing p w kind msg w' :
  process_scrape_task cfg io existing p w = (Raised kind msg, w') ->
  orders w' = orders w
  /\ (outbox w' = outbox w
      \/ exists rid to name,
           p !! "email" = Some to /\ p !! "restaurant_name" = Some name
           /\ outbox w' = (outbox w ++ [mail_of cfg rid to name])%list)
  /\ (forall e, send_raises io = Some e -> mail_taken io = false ->
        outbox w' = outbox w).
Proof.
  intros H.
  apply process_scrape_task_inv in H as (x & H & Hx).
  destruct x as [[k m] | res']; [| discriminate]. inversion Hx; subst k m.
  apply scrape_and_report_run in H
    as [(e & He & ->) | (oid' & url & name & to & cur & more & rid & w1
                         & Ho & Hu & Hn & Ht & Hsite & Hstep & Hsend)];
    [auto |].
  destruct (send_raises io) as [e |]; [| destruct Hsend; discriminate].
  destruct Hsend as [He ->]. inversion He; subst e.
  apply report_step_run in Hstep as (Hord & Hout & _).
  destruct (mail_taken io); cbn [send orders outbox].
  - split; [exact Hord |]. split; [| intros e _ E; discriminate E].
    right. exists rid, to, name. rewrite Hout. auto.
  - auto.
Qed.

Lemma scrape_task_failure_witness :
  let w := one_order "processing" in
  let io := answer_lost in
  let w' := snd (process_scrape_task local_settings io None konoba_payload w)
  in
  process_scrape_task local_settings io None konoba_payload w
  = (Raised "ReadTimeout" "", w')
  /\ orders w' = orders w
  /\ (outbox w' = outbox w
      \/ exists rid to name,
           konoba_payload !! "email" = Some to
           /\ konoba_payload !! "restaurant_name" = Some name
           /\ outbox w'
              = (outbox w ++ [mail_of local_settings rid to name])%list)
  /\ (forall e, send_raises io = Some e -> mail_taken io = false ->
        outbox w' = outbox w).
Proof.
  intros w io w'.
  assert (process_scrape_task local_settings io None konoba_payload w
          = (Raised "ReadTimeout" "", w'))
    as H by (vm_compute; reflexivity).
  split; [exact H |].
  exact (scrape_task_failure local_settings io None konoba_payload w
           "ReadTimeout" "" w' H).
Defined.

(** A task that failed on a lost answer of the mail API sends the mail
    again when it is retried. *)
Example retry_sends_mail_again :
  let w1 := snd (process_scrape_task local_settings answer_lost None
                   konoba_payload (one_order "processing")) in
  let w2 := snd (process_scrape_task local_settings (one_page_site None)
                   (Some "0123456789ab") konoba_payload w1) in
  length (outbox w1) = 1%nat /\ length (outbox w2) = 2%nat
  /\ List.map to_email (outbox w2)
     = [Some "ann@example.com"; Some "ann@example.com"].
Proof. vm_compute. auto. Qed.

Lemma reports_of_scrape cfg io existing p w o :
  (forall oid, p !! "order_id" = Some (Some oid) ->
     existing_report oid w existing) ->
  (reports_of o w <> [] ->
   length (reports_of o (snd (process_scrape_task cfg io existing p w)))
   = length (reports_of o w))
  /\ (reports_of o w = [] ->
      (length (reports_of o (snd (process_scrape_task cfg io existing p w)))
       <= 1)%nat).
Proof.
  intros Hex.
  destruct (process_scrape_task cfg io existing p w) as [out w2] eqn:H.
  cbn [snd].
  apply process_scrape_task_inv in H as (x & H & _).
  apply scrape_and_report_run in H
    as [(e & He & ->) | (oid & url & name & to & cur & more & rid & w1
                         & Ho & Hu & Hn & Ht & Hsite & Hstep & Hsend)].
  - split; [reflexivity | intros ->; cbn; lia].
  - apply (report_step_reports _ _ _ _ _ _ _ _ _ (Hex _ Ho)) in Hstep
      as [_ Hstep].
    assert (reports_of o w2 = reports_of o w1) as ->; [| apply Hstep].
    destruct (send_raises io); destruct Hsend as [_ ->];
      [destruct (mail_taken io) |]; reflexivity.
Qed.

(** X17: a scrape task never gives a second report to an order.  When the
    query for a report of the order is answered from the database, then
    after the task, whether it returns or raises, an order that had reports
    has as many as before, and an order that had none has at most one. *)
Theorem scrape_task_one_report cfg io existing p w o :
  (forall oid, p !! "order_id" = Some (Some oid) ->
     existing_report oid w existing) ->
  let w' := snd (process_scrape_task cfg io existing p w) in
  (reports_of o w <> [] ->
   length (reports_of o w') = length (reports_of o w))
  /\ (reports_of o w = [] -> (length (reports_of o w') <= 1)%nat).
Proof.
  intros Hex w'. subst w'.
  destruct (reports_of_scrape cfg io existing p w o Hex) as [H1 H2].
  split; [exact H1 | exact H2].
Qed.

Lemma scrape_task_one_report_witness :
  let io := one_page_site (Some mail_rejected) in
  let w := snd (process_scrape_task local_settings io None konoba_payload
                  (one_order "processing")) in
  let w' := snd (process_scrape_task local_settings (one_page_site None)
                   (Some "0123456789ab") konoba_payload w) in
  (forall oid, konoba_payload !! "order_id" = Some (Some oid) ->
     existing_report oid w (Some "0123456789ab"))
  /\ (reports_of "1a2b3c4d" w <> [] ->
      length (reports_of "1a2b3c4d" w') = length (reports_of "1a2b3c4d" w))
  /\ (reports_of "1a2b3c4d" w = [] ->
      (length (reports_of "1a2b3c4d" w') <= 1)%nat).
Proof.
  intros io w w'.
  assert (forall oid, konoba_payload !! "order_id" = Some (Some oid) ->
            existing_report oid w (Some "0123456789ab")) as H.
  { intros oid Hoid.
    assert (konoba_payload !! "order_id" = Some (Some "1a2b3c4d")) as E
      by (vm_compute; reflexivity).
    rewrite E in Hoid. inversion Hoid; subst oid.
    eexists. split; [vm_compute; left; reflexivity | reflexivity]. }
  split; [exact H |].
  exact (scrape_task_one_report local_settings (one_page_site None)
           (Some "0123456789ab") konoba_payload w "1a2b3c4d" H).
Defined.

(** X18: a payload that lacks one of the four keys makes the task raise
    KeyError with the quoted name of a missing key, before the browser is
    started and with the database left as it was. *)
Theorem scrape_task_missing_key cfg io existing p w key :
  In key task_keys ->
  p !! key = None ->
  exists k,
    In k task_keys /\ p !! k = None
    /\ process_scrape_task cfg io existing p w
       = (Raised "KeyError" ("'" ++ k ++ "'"), w).
Proof.
  intros Hin Hkey.
  unfold process_scrape_task, scrape_and_report, bind at 1 2 3 4, item.
  unfold task_keys in *.
  destruct (p !! "order_id") as [o |] eqn:H1; cbn [ret raise];
    [| exists "order_id"; cbn; auto].
  destruct (p !! "restaurant_url") as [url |] eqn:H2; cbn [ret raise];
    [| exists "restaurant_url"; cbn; auto].
  destruct (p !! "restaurant_name") as [name |] eqn:H3; cbn [ret raise];
    [| exists "restaurant_name"; cbn; auto].
  destruct (p !! "email") as [to |] eqn:H4; cbn [ret raise];
    [| exists "email"; cbn; auto 6].
  exfalso. cbn in Hin.
  destruct Hin as [<- | [<- | [<- | [<- | []]]]]; congruence.
Qed.

Lemma scrape_task_missing_key_witness :
  let p : payload := delete "email" konoba_payload in
  In "email" task_keys /\ p !! "email" = None
  /\ exists k,
       In k task_keys /\ p !! k = None
       /\ process_scrape_task local_settings (one_page_site None) None p
            (one_order "processing")
          = (Raised "KeyError" ("'" ++ k ++ "'"), one_order "processing").
Proof.
  intros p.
  assert (In "email" task_keys) as H1 by (cbn; auto).
  assert (p !! "email" = None) as H2 by (vm_compute; reflexivity).
  split; [exact H1 |]. split; [exact H2 |].
  exact (scrape_task_missing_key local_settings (one_page_site None) None p
           (one_order "processing") "email" H1 H2).
Defined.


(** ** process_order *)

Lemma update_orders_in oid f w o :
  (forall x, o_id (f x) = o_id x) ->
  In o (orders (update_orders (fun x => String.eqb (o_id x) oid) f w)) ->
  o_id o = oid ->
  exists o0, In o0 (orders w) /\ o = f o0.
Proof.
  intros Hf Hin Hid. unfold update_orders in Hin. cbn [orders] in Hin.
  apply List.in_map_iff in Hin as (o0 & Ho & Hin).
  exists o0. split; [exact Hin |].
  destruct (String.eqb (o_id o0) oid) eqn:E; [auto |].
  apply String.eqb_neq in E. congruence.
Qed.

Lemma deliver_run cfg io oid email name w x w' :
  deliver cfg io oid email name w = (x, w') ->
  (exists e, x = inl e /\ w' = w
             /\ generate_report_for_order cfg (order_report_calls io) oid
                  name None w = (inl e, w))
  \/ exists r,
       find_report (new_id (order_report_calls io)) w = None
       /\ rp_id r = new_id (order_report_calls io)
       /\ rp_order_id r = oid /\ holds_figures None r
       /\ let rid := new_id (order_report_calls io) in
          let w1 := {| reports := reports w ++ [r]; orders := orders w;
                       outbox := outbox w |} in
          let w2 :=
            update_orders (fun o => String.eqb (o_id o) oid)
              (set_delivered rid (BASE_URL cfg ++ "/r/" ++ rid)
                 (order_clock io + timedelta_days 90) (db_now io)) w1 in
          match order_send_raises io with
          | Some e =>
              x = inl e
              /\ w' = if order_mail_taken io
                      then send (mail_of cfg rid email name) w2 else w2
          | None => x = inr tt /\ w' = send (mail_of cfg rid email name) w2
          end.
Proof.
  unfold deliver. unfold bind at 1.
  destruct (generate_report_for_order cfg (order_report_calls io) oid name
              None w) as [[e | rid] w1] eqn:Hgen.
  - pose proof (generate_report_for_order_raises _ _ _ _ _ _ _ _ Hgen).
    subst w1. intros H; inversion H; subst. eauto.
  - apply generate_report_for_order_returns in Hgen
      as (-> & Hfresh & r & -> & Hid & Ho & _ & _ & _ & _ & _ & Hfig).
    intros H. right. exists r.
    split; [apply find_report_none; exact Hfresh |].
    split; [exact Hid |]. split; [exact Ho |]. split; [exact Hfig |].
    revert H. fold (mail_of cfg).
    unfold send_report_email, bind, execute, ret, raise.
    destruct (order_send_raises io); [destruct (order_mail_taken io) |];
      intros H; inversion H; auto.
Qed.

(** X19: [process_order] leaves the order completed only when the mail
    call returned.  After a run of [process_order] to its end, every order
    with the id is completed, the mail call having returned and one mail
    about the new report having been added to the mails sent, or it is in
    error; and when it is in error no mail has gone out, unless the mail
    call raised after the mail API had taken the mail. *)
Theorem process_order_status cfg io oid email name w o :
  let w' := process_order cfg io oid email name w in
  let mail := mail_of cfg (new_id (order_report_calls io)) email name in
  In o (orders w') -> o_id o = oid ->
  (o_status o = "completed" /\ order_send_raises io = None
   /\ outbox w' = (outbox w ++ [mail])%list)
  \/ (o_status o = "error"
      /\ (outbox w' = outbox w
          \/ (order_send_raises io <> None /\ order_mail_taken io = true
              /\ outbox w' = (outbox w ++ [mail])%list))).
Proof.
  intros w' mail. subst w' mail. unfold process_order.
  destruct (deliver cfg io oid email name w) as [[e | u] w1] eqn:H;
    apply deliver_run in H
      as [(e' & He & -> & _) | (r & _ & _ & _ & _ & H)];
    try discriminate; intros Hin Hid.
  - right. apply update_orders_in in Hin as (o0 & _ & ->); auto.
  - cbn zeta in H.
    destruct (order_send_raises io) as [e1 |]; destruct H as [He ->];
      [| discriminate].
    right. apply update_orders_in in Hin as (o0 & _ & ->); auto.
    split; [reflexivity |].
    destruct (order_mail_taken io); cbn [update_orders send outbox];
      [right | left; reflexivity].
    split; [discriminate |]. split; reflexivity.
  - cbn zeta in H.
    destruct (order_send_raises io); destruct H as [He ->];
      [discriminate |].
    left. cbn [send orders outbox update_orders reports] in *.
    split; [| split; reflexivity].
    apply List.in_map_iff in Hin as (o0 & Ho & _).
    destruct (String.eqb (o_id o0) oid) eqn:E; [subst o; reflexivity |].
    apply String.eqb_neq in E. congruence.
Qed.

Lemma process_order_status_witness :
  let io := {| order_report_calls := report_calls_at "0123456789ab" 1000;
               order_clock := 1001; db_now := 950;
               order_send_raises := Some ("ReadTimeout", "");
               order_mail_taken := true |} in
  let w := one_order "paid" in
  let w' := process_order local_settings io "1a2b3c4d"
              (Some "ann@example.com") (Some "Konoba") w in
  let mail := mail_of local_settings "0123456789ab"
                (Some "ann@example.com") (Some "Konoba") in
  let o := set_status "error" 950
             (set_delivered "0123456789ab"
                "http://localhost:8000/r/0123456789ab"
                (1001 + timedelta_days 90) 950 (konoba_order "paid")) in
  In o (orders w') /\ o_id o = "1a2b3c4d"
  /\ ((o_status o = "completed" /\ order_send_raises io = None
       /\ outbox w' = (outbox w ++ [mail])%list)
      \/ (o_status o = "error"
          /\ (outbox w' = outbox w
              \/ (order_send_raises io <> None /\ order_mail_taken io = true
                  /\ outbox w' = (outbox w ++ [mail])%list)))).
Proof.
  intros io w w' mail o.
  assert (In o (orders w')) as H1 by (vm_compute; left; reflexivity).
  assert (o_id o = "1a2b3c4d") as H2 by reflexivity.
  split; [exact H1 |]. split; [exact H2 |].
  exact (process_order_status local_settings io "1a2b3c4d"
           (Some "ann@example.com") (Some "Konoba") w o H1 H2).
Defined.

(** X20: [process_order] stores a new placeholder report for the order on
    every run that gets past the PDF step with an unused report id, whether
    or not the order has a report already and whether or not the mail is
    sent afterwards: the reports of the order are those it had followed by
    one more, whose figures are all zero. *)
Theorem process_order_adds_report cfg io oid email name w :
  generate_pdf_raises (order_report_calls io) = None ->
  find_report (new_id (order_report_calls io)) w = None ->
  exists r,
    reports_of oid (process_order cfg io oid email name w)
    = (reports_of oid w ++ [r])%list
    /\ rp_id r = new_id (order_report_calls io)
    /\ holds_figures None r.
Proof.
  intros Hpdf Hfresh. unfold process_order.
  destruct (deliver cfg io oid email name w) as [[e | u] w1] eqn:H.
  - apply deliver_run in H
      as [(e' & He & -> & Hgen) | (r & _ & Hid & Ho & Hfig & H)].
    + exfalso. revert Hgen.
      unfold generate_report_for_order, bind, may_raise, ret, raise.
      rewrite Hpdf. unfold insert_report. cbn [rp_id].
      apply find_report_none in Hfresh. rewrite Hfresh. discriminate.
    + cbn zeta in H.
      destruct (order_send_raises io); destruct H as [He ->];
        [| discriminate].
      exists r.
      destruct (order_mail_taken io);
        unfold reports_of, update_orders, send; cbn [reports];
        rewrite List.filter_app; cbn [List.filter]; rewrite Ho;
        rewrite String.eqb_refl; auto.
  - apply deliver_run in H
      as [(e' & He & _) | (r & _ & Hid & Ho & Hfig & H)]; [discriminate |].
    cbn zeta in H.
    destruct (order_send_raises io); destruct H as [He ->];
      [discriminate |].
    exists r. unfold reports_of, update_orders, send. cbn [reports].
    rewrite List.filter_app. cbn [List.filter]. rewrite Ho.
    rewrite String.eqb_refl. auto.
Qed.

Lemma process_order_adds_report_witness :
  let io := {| order_report_calls := report_calls_at "ba9876543210" 2000;
               order_clock := 2001; db_now := 1950;
               order_send_raises := None; order_mail_taken := false |} in
  let w := snd (process_scrape_task local_settings (one_page_site None) None
                  konoba_payload (one_order "processing")) in
  generate_pdf_raises (order_report_calls io) = None
  /\ find_report (new_id (order_report_calls io)) w = None
  /\ exists r,
       reports_of "1a2b3c4d"
         (process_order local_settings io "1a2b3c4d"
            (Some "ann@example.com") (Some "Konoba") w)
       = (reports_of "1a2b3c4d" w ++ [r])%list
       /\ rp_id r = new_id (order_report_calls io)
       /\ holds_figures None r.
Proof.
  intros io w.
  assert (generate_pdf_raises (order_report_calls io) = None) as H1
    by reflexivity.
  assert (find_report (new_id (order_report_calls io)) w = None) as H2
    by (vm_compute; reflexivity).
  split; [exact H1 |]. split; [exact H2 |].
  exact (process_order_adds_report local_settings io "1a2b3c4d"
           (Some "ann@example.com") (Some "Konoba") w H1 H2).
Defined.


(** ** Reports are kept *)

Lemma reports_kept_refl w : reports_kept w w.
Proof.
  intros rid r H. exists r. split; [exact H |].
  split; [apply same_report_refl | lia].
Qed.

Lemma reports_kept_trans w1 w2 w3 :
  reports_kept w1 w2 -> reports_kept w2 w3 -> reports_kept w1 w3.
Proof.
  intros H12 H23 rid r H.
  apply H12 in H as (r2 & H2 & Hs2 & Hv2).
  apply H23 in H2 as (r3 & H3 & Hs3 & Hv3).
  exists r3. split; [exact H3 |].
  split; [eapply same_report_trans; eauto | lia].
Qed.

Lemma reports_kept_same w w' : reports w' = reports w -> reports_kept w w'.
Proof.
  intros E rid r H. exists r. unfold find_report in *. rewrite E.
  split; [exact H |]. split; [apply same_report_refl | lia].
Qed.

Lemma reports_kept_new w x :
  reports_kept w {| reports := reports w ++ [x]; orders := orders w;
                    outbox := outbox w |}.
Proof.
  intros rid r H. exists r. split; [apply find_report_old; exact H |].
  split; [apply same_report_refl | lia].
Qed.

Lemma reports_kept_update rid f w :
  (forall r, same_report r (f r) /\ rp_view_count r <= rp_view_count (f r)) ->
  reports_kept w (update_reports rid f w).
Proof.
  intros Hf i r H. rewrite find_report_update by (intros x; apply Hf).
  rewrite H. cbn [option_map]. eexists. split; [reflexivity |].
  destruct (String.eqb (rp_id r) rid); [apply Hf |].
  split; [apply same_report_refl | lia].
Qed.

Lemma reports_kept_generate cfg io oid name csv w :
  reports_kept w (snd (generate_report_for_order cfg io oid name csv w)).
Proof.
  destruct (generate_report_for_order cfg io oid name csv w)
    as [[e | rid] w1] eqn:H; cbn [snd].
  - apply generate_report_for_order_raises in H. subst.
    apply reports_kept_refl.
  - apply generate_report_for_order_returns in H as (_ & _ & r & -> & _).
    apply reports_kept_new.
Qed.

Lemma reports_kept_set_stats rid st w :
  reports_kept w (update_reports rid (set_stats st) w).
Proof.
  apply reports_kept_update. intros r.
  split; [apply same_report_set_stats | cbn; lia].
Qed.

Lemma reports_kept_update_report io rid read w :
  reports_kept w (snd (update_report_with_data io rid read w)).
Proof.
  destruct (update_report_with_data io rid read w) as [x w1] eqn:H.
  cbn [snd].
  apply update_report_run in H
    as [(e & _ & ->) | (df & st & _ & _ & _ & ->)].
  - apply reports_kept_refl.
  - apply reports_kept_set_stats.
Qed.

Lemma reports_kept_report_step cfg io existing oid name read w x w1 :
  report_step cfg io existing oid name read w = (x, w1) ->
  reports_kept w w1.
Proof.
  destruct existing as [rid |]; cbn [report_step]; intros H.
  - unfold bind in H.
    pose proof (reports_kept_update_report (report_calls io) rid read w)
      as Hk.
    destruct (update_report_with_data (report_calls io) rid read w)
      as [[e | u] w2]; cbn [snd] in Hk.
    + inversion H; subst. exact Hk.
    + apply ret_inv in H as [_ ->]. exact Hk.
  - pose proof (reports_kept_generate cfg (report_calls io) oid name
                  (Some read) w) as Hk.
    rewrite H in Hk. exact Hk.
Qed.

Lemma reports_kept_scrape cfg io existing p w :
  reports_kept w (snd (process_scrape_task cfg io existing p w)).
Proof.
  destruct (process_scrape_task cfg io existing p w) as [out w2] eqn:H.
  cbn [snd].
  apply process_scrape_task_inv in H as (x & H & _).
  apply scrape_and_report_run in H
    as [(e & He & ->) | (oid & url & name & to & cur & more & rid & w1
                         & Ho & Hu & Hn & Ht & Hsite & Hstep & Hsend)].
  - apply reports_kept_refl.
  - apply reports_kept_report_step in Hstep.
    eapply reports_kept_trans; [exact Hstep |].
    apply reports_kept_same.
    destruct (send_raises io); destruct Hsend as [_ ->];
      [destruct (mail_taken io) |]; reflexivity.
Qed.

Lemma reports_kept_order cfg io oid email name w :
  reports_kept w (process_order cfg io oid email name w).
Proof.
  unfold process_order.
  destruct (deliver cfg io oid email name w) as [[e | u] w1] eqn:H;
    apply deliver_run in H
      as [(e' & He & -> & _) | (r & _ & _ & _ & _ & H)];
    try discriminate.
  - apply reports_kept_same. reflexivity.
  - cbn zeta in H.
    destruct (order_send_raises io); destruct H as [He ->];
      [| discriminate].
    eapply reports_kept_trans; [apply (reports_kept_new w r) |].
    apply reports_kept_same. destruct (order_mail_taken io); reflexivity.
  - cbn zeta in H.
    destruct (order_send_raises io); destruct H as [He ->];
      [discriminate |].
    eapply reports_kept_trans; [apply (reports_kept_new w r) |].
    apply reports_kept_same. reflexivity.
Qed.

Lemma reports_kept_view now fs rid w :
  reports_kept w (snd (view_report now fs rid w)).
Proof.
  unfold view_report.
  destruct (find_report rid w) as [r |]; [| apply reports_kept_refl].
  destruct (expired now r); [apply reports_kept_refl |].
  assert (reports_kept w (update_reports rid add_view w)) as H.
  { apply reports_kept_update. intros x.
    split; [apply same_report_add_view | cbn; lia]. }
  destruct (fs (rp_html_path r)); exact H.
Qed.

Lemma reports_kept_webhook dumps now queued_at request order s :
  reports_kept (data s)
    (data (snd (stripe_webhook dumps now queued_at request order s))).
Proof.
  apply reports_kept_same. unfold stripe_webhook.
  destruct request as [| | type object]; cbn [snd]; try reflexivity.
  destruct (String.eqb type "checkout.session.completed").
  - destruct order; reflexivity.
  - destruct (String.eqb type "checkout.session.expired"); reflexivity.
Qed.

Lemma reports_kept_start dumps oid now queued_at request s :
  reports_kept (data s)
    (data (snd (start_scrape dumps oid now queued_at request s))).
Proof.
  apply reports_kept_same. unfold start_scrape, insert_order.
  destruct (existsb _ (orders (data s))); reflexivity.
Qed.

Lemma reports_create_checkout oid now stripe request w :
  reports (snd (create_checkout oid now stripe request w)) = reports w.
Proof.
  unfold create_checkout, insert_order.
  destruct stripe as [msg | msg | sid url]; try reflexivity.
  destruct (existsb _ (orders w)); reflexivity.
Qed.

Lemma reports_kept_change w w' : change w w' -> reports_kept w w'.
Proof.
  intros H. destruct H.
  - apply reports_kept_generate.
  - apply reports_kept_update_report.
  - apply reports_kept_scrape.
  - apply reports_kept_order.
  - apply reports_kept_view.
  - apply reports_kept_webhook.
  - apply reports_kept_start.
  - apply reports_kept_same. apply reports_create_checkout.
Qed.

Lemma reports_kept_changes w w' : rtc change w w' -> reports_kept w w'.
Proof.
  induction 1 as [| w1 w2 w3 H12 _ IH]; [apply reports_kept_refl |].
  eapply reports_kept_trans; [apply reports_kept_change; exact H12 | exact IH].
Qed.

(** X21: nothing the backend does removes a report, moves it to another
    order, renames its files or changes its expiry.  Whatever the report
    functions, the scrape task, [process_order] and the request handlers
    ([view_report], [stripe_webhook], [start_scrape], [create_checkout]) do
    in whatever order, a report found under an id is still found under it
    afterwards, with the same order, restaurant name, positive share, file
    paths and expiry, and a view count that has not dropped. *)
Theorem reports_are_kept w w' rid r :
  rtc change w w' ->
  find_report rid w = Some r ->
  exists r',
    find_report rid w' = Some r' /\ same_report r r'
    /\ rp_view_count r <= rp_view_count r'.
Proof.
  intros H. revert rid r.
  induction H as [w | w1 w2 w3 H12 _ IH]; intros rid r Hfind.
  - exists r. split; [exact Hfind |].
    split; [apply same_report_refl | lia].
  - apply (reports_kept_change _ _ H12) in Hfind as (r2 & H2 & Hs2 & Hv2).
    apply IH in H2 as (r3 & H3 & Hs3 & Hv3).
    exists r3. split; [exact H3 |].
    split; [eapply same_report_trans; eauto | lia].
Qed.

Lemma reports_are_kept_witness :
  let w := snd (process_scrape_task local_settings (one_page_site None) None
                  konoba_payload (one_order "processing")) in
  let w' := snd (view_report 2000 (fun _ => Missing) "0123456789ab" w) in
  let r := {| rp_id := "0123456789ab"; rp_order_id := "1a2b3c4d";
              rp_restaurant_name := Some "Konoba"; rp_total_reviews := 4;
              rp_countries_count := 2; rp_avg_rating := Num (16 # 4);
              rp_positive_pct := 85;
              rp_html_path := "/app/reports/0123456789ab/index.html";
              rp_pdf_path := "/app/reports/0123456789ab/report.pdf";
              rp_expires_at := Some (1000 + timedelta_days 90);
              rp_view_count := 0 |} in
  rtc change w w' /\ find_report "0123456789ab" w = Some r
  /\ exists r',
       find_report "0123456789ab" w' = Some r' /\ same_report r r'
       /\ rp_view_count r <= rp_view_count r'.
Proof.
  intros w w' r.
  assert (rtc change w w') as H1.
  { apply rtc_once. apply change_view. }
  assert (find_report "0123456789ab" w = Some r) as H2
    by (vm_compute; reflexivity).
  split; [exact H1 |]. split; [exact H2 |].
  exact (reports_are_kept w w' "0123456789ab" r H1 H2).
Defined.

(** ** view_report and download_report_pdf *)

Lemma generated_then_kept cfg io oid name csv w rid w1 w2 :
  generate_report_for_order cfg io oid name csv w = (inr rid, w1) ->
  rtc change w1 w2 ->
  exists r,
    find_report rid w2 = Some r
    /\ rp_restaurant_name r = name
    /\ rp_html_path r = (REPORTS_PATH cfg ++ "/" ++ rid) ++ "/index.html"
    /\ rp_pdf_path r = (REPORTS_PATH cfg ++ "/" ++ rid) ++ "/report.pdf"
    /\ rp_expires_at r = Some (clock io + timedelta_days 90).
Proof.
  intros Hgen Hch.
  apply generate_report_for_order_returns in Hgen
    as (-> & Hfresh & r & -> & Hid & _ & Hname & Hhtml & Hpdf & Hexp & _).
  pose proof (find_report_new (new_id io) r w Hfresh Hid) as Hfind.
  apply (reports_kept_changes _ _ Hch) in Hfind
    as (r' & Hfind & (_ & _ & Hn & _ & Hh & Hp & He) & _).
  exists r'. split; [exact Hfind |]. repeat split; congruence.
Qed.

(** X22: a report is served for ninety days.  Once
    [generate_report_for_order] has returned a report id at clock reading
    [clock], then whatever the backend does afterwards, [view_report] and
    [download_report_pdf] for that id answer 410 at every clock reading
    later than [clock] plus ninety days, and up to that reading they serve
    the file at [index.html] and [report.pdf] in the directory of the
    report under [REPORTS_PATH], answering 404 when the file is not
    there. *)
Theorem report_served_for_90_days cfg io oid name csv w rid w1 w2 now fs :
  generate_report_for_order cfg io oid name csv w = (inr rid, w1) ->
  rtc change w1 w2 ->
  let dir := REPORTS_PATH cfg ++ "/" ++ rid in
  if clock io + timedelta_days 90 <? now then
    fst (view_report now fs rid w2) = HTTPException 410 "Report has expired"
    /\ download_report_pdf now fs rid w2
       = HTTPException 410 "Report has expired"
  else
    fst (view_report now fs rid w2) = page_at fs (dir ++ "/index.html")
    /\ download_report_pdf now fs rid w2
       = pdf_at fs (dir ++ "/report.pdf") name.
Proof.
  intros Hgen Hch dir. subst dir.
  destruct (generated_then_kept _ _ _ _ _ _ _ _ _ Hgen Hch)
    as (r & Hfind & Hname & Hhtml & Hpdf & Hexp).
  unfold view_report, download_report_pdf, expired, page_at, pdf_at.
  rewrite Hfind, Hexp, Hhtml, Hpdf, Hname.
  destruct (clock io + timedelta_days 90 <? now); [split; reflexivity |].
  split.
  - destruct (fs _); reflexivity.
  - destruct (fs _); reflexivity.
Qed.

Lemma report_served_for_90_days_witness :
  let io := report_calls_at "0123456789ab" 1000 in
  let w := one_order "paid" in
  let w1 := snd (generate_report_for_order local_settings io "1a2b3c4d"
                   (Some "Konoba") None w) in
  let fs := fun _ : string => Text "<html></html>" in
  let now := 1000 + timedelta_days 90 in
  let w2 := snd (view_report 2000 fs "0123456789ab" w1) in
  generate_report_for_order local_settings io "1a2b3c4d" (Some "Konoba")
    None w = (inr "0123456789ab", w1)
  /\ rtc change w1 w2
  /\ fst (view_report now fs "0123456789ab" w2) = HTMLResponse "<html></html>"
  /\ download_report_pdf now fs "0123456789ab" w2
     = FileResponse "/app/reports/0123456789ab/report.pdf" "application/pdf"
         "ReviewIQ_Konoba.pdf".
Proof.
  intros io w w1 fs now w2.
  assert (generate_report_for_order local_settings io "1a2b3c4d"
            (Some "Konoba") None w = (inr "0123456789ab", w1)) as H1
    by (vm_compute; reflexivity).
  assert (rtc change w1 w2) as H2 by (apply rtc_once; apply change_view).
  split; [exact H1 |]. split; [exact H2 |].
  exact (report_served_for_90_days local_settings io "1a2b3c4d"
           (Some "Konoba") None w "0123456789ab" w1 w2 now fs H1 H2).
Defined.

(** X23: a request for a report that exists and has not expired is counted
    as a view whatever is answered: the view count of that report goes up
    by one also when the page is missing and the answer is 404, and no
    other report is touched. *)
Theorem view_is_counted now fs rid w r :
  find_report rid w = Some r ->
  expired now r = false ->
  let w' := snd (view_report now fs rid w) in
  fst (view_report now fs rid w) = page_at fs (rp_html_path r)
  /\ find_report rid w' = Some (add_view r)
  /\ rp_view_count (add_view r) = rp_view_count r + 1
  /\ forall rid', rid' <> rid -> find_report rid' w' = find_report rid' w.
Proof.
  intros Hfind Hexp w'. subst w'. unfold view_report, page_at.
  rewrite Hfind, Hexp.
  assert (find_report rid (update_reports rid add_view w)
          = Some (add_view r)) as H1.
  { rewrite find_report_update by reflexivity. rewrite Hfind. cbn.
    unfold find_report in Hfind. apply List.find_some in Hfind as [_ E].
    rewrite E. reflexivity. }
  assert (forall rid', rid' <> rid ->
            find_report rid' (update_reports rid add_view w)
            = find_report rid' w) as H2.
  { intros rid' Hne. rewrite find_report_update by reflexivity.
    destruct (find_report rid' w) as [x |] eqn:Hx; [| reflexivity].
    unfold find_report in Hx. apply List.find_some in Hx as [_ E].
    apply String.eqb_eq in E. cbn.
    destruct (String.eqb (rp_id x) rid) eqn:E2; [| reflexivity].
    apply String.eqb_eq in E2. congruence. }
  destruct (fs (rp_html_path r)); cbn [fst snd]; auto.
Qed.

Lemma view_is_counted_witness :
  let w := snd (process_scrape_task local_settings (one_page_site None) None
                  konoba_payload (one_order "processing")) in
  let r := {| rp_id := "0123456789ab"; rp_order_id := "1a2b3c4d";
              rp_restaurant_name := Some "Konoba"; rp_total_reviews := 4;
              rp_countries_count := 2; rp_avg_rating := Num (16 # 4);
              rp_positive_pct := 85;
              rp_html_path := "/app/reports/0123456789ab/index.html";
              rp_pdf_path := "/app/reports/0123456789ab/report.pdf";
              rp_expires_at := Some (1000 + timedelta_days 90);
              rp_view_count := 0 |} in
  let fs := fun _ : string => Missing in
  let w' := snd (view_report 2000 fs "0123456789ab" w) in
  find_report "0123456789ab" w = Some r
  /\ expired 2000 r = false
  /\ fst (view_report 2000 fs "0123456789ab" w)
     = HTTPException 404 "Report file not found"
  /\ find_report "0123456789ab" w' = Some (add_view r)
  /\ rp_view_count (add_view r) = rp_view_count r + 1
  /\ forall rid', rid' <> "0123456789ab" ->
       find_report rid' w' = find_report rid' w.
Proof.
  intros w r fs w'.
  assert (find_report "0123456789ab" w = Some r) as H1
    by (vm_compute; reflexivity).
  assert (expired 2000 r = false) as H2 by (vm_compute; reflexivity).
  split; [exact H1 |]. split; [exact H2 |].
  exact (view_is_counted 2000 fs "0123456789ab" w r H1 H2).
Defined.


(** ** stripe_webhook *)

Lemma update_orders_none p f w :
  List.filter p (orders w) = [] -> update_orders p f w = w.
Proof.
  intros H. destruct w as [rs os ms]. unfold update_orders.
  cbn [reports orders outbox] in *. f_equal.
  induction os as [| o l IH]; cbn in *; [reflexivity |].
  destruct (p o); [discriminate |]. f_equal. auto.
Qed.

Lemma filter_update_orders sid f w :
  (forall o, o_stripe_session_id (f o) = o_stripe_session_id o) ->
  List.filter (with_session sid)
    (orders (update_orders (with_session sid) f w))
  = List.map f (List.filter (with_session sid) (orders w)).
Proof.
  intros Hf. unfold update_orders. cbn [orders].
  induction (orders w) as [| o l IH]; cbn; [reflexivity |].
  destruct (with_session sid o) eqn:E.
  - assert (with_session sid (f o) = true) as ->
      by (unfold with_session in *; rewrite Hf; exact E).
    cbn. f_equal. exact IH.
  - rewrite E. exact IH.
Qed.

(** X24: a completed-payment event for a session no order carries is
    answered with success and does nothing: the query finds no order, no
    order is marked paid, no task is queued. *)
Theorem webhook_unknown_session dumps now queued_at object order s :
  List.filter (with_session (s_id object)) (orders (data s)) = [] ->
  session_order (s_id object) (paid object now (data s)) order ->
  order = None
  /\ stripe_webhook dumps now queued_at (completed object) order s
     = (JSONResponse [("status", "success")], s).
Proof.
  intros Hnone Hq. unfold paid in Hq.
  rewrite (update_orders_none _ _ _ Hnone) in Hq.
  assert (order = None) as ->.
  { destruct order as [o |]; [| reflexivity].
    cbn in Hq. rewrite Hnone in Hq. destruct Hq. }
  split; [reflexivity |].
  unfold stripe_webhook, completed. rewrite String.eqb_refl.
  rewrite (update_orders_none _ _ _ Hnone). destruct s; reflexivity.
Qed.

Lemma webhook_unknown_session_witness :
  let object := {| s_id := "cs_test_2"; s_payment_intent := Some "pi_2";
                   s_amount_total := Some 4900 |} in
  let s := {| data := one_order "pending"; queue := init_task_db |} in
  List.filter (with_session (s_id object)) (orders (data s)) = []
  /\ session_order (s_id object) (paid object 950 (data s)) None
  /\ None = (None : option order_row)
  /\ stripe_webhook (fun _ => "{}") 950 951 (completed object) None s
     = (JSONResponse [("status", "success")], s).
Proof.
  intros object s.
  assert (List.filter (with_session (s_id object)) (orders (data s)) = [])
    as H1 by reflexivity.
  assert (session_order (s_id object) (paid object 950 (data s)) None)
    as H2 by reflexivity.
  split; [exact H1 |]. split; [exact H2 |].
  exact (webhook_unknown_session (fun _ => "{}") 950 951 object None s
           H1 H2).
Defined.

(** X25: the webhook does not recognise an event it has handled.  When
    one order carries the session, every delivery of the completed-payment
    event queues one more pending scrape task for that order: after two
    deliveries the queue has two new tasks with consecutive ids and the
    same payload. *)
Theorem webhook_redelivery dumps now1 at1 now2 at2 object o o1 o2 s :
  List.filter (with_session (s_id object)) (orders (data s)) = [o] ->
  let s1 := snd (stripe_webhook dumps now1 at1 (completed object) (Some o1) s)
  in
  let s2 := snd (stripe_webhook dumps now2 at2 (completed object) (Some o2)
                   s1) in
  session_order (s_id object) (data s1) (Some o1) ->
  session_order (s_id object) (data s2) (Some o2) ->
  exists t1 t2,
    tasks (queue s2) = (tasks (queue s) ++ [t1; t2])%list
    /\ status t1 = PENDING /\ status t2 = PENDING
    /\ task_type t1 = "scrape_and_report"
    /\ task_type t2 = "scrape_and_report"
    /\ TaskQueue.payload t1 = dumps (payload_of o)
    /\ TaskQueue.payload t2 = dumps (payload_of o)
    /\ id t2 = id t1 + 1.
Proof.
  intros Hone s1 s2. subst s2 s1.
  unfold stripe_webhook, completed. rewrite String.eqb_refl.
  cbn [snd data queue]. intros Hq1 Hq2.
  cbn [session_order] in Hq1, Hq2.
  rewrite filter_update_orders in Hq2 by reflexivity.
  rewrite filter_update_orders in Hq1, Hq2 by reflexivity.
  rewrite Hone in Hq1, Hq2. cbn in Hq1, Hq2.
  destruct Hq1 as [<- | []]. destruct Hq2 as [<- | []].
  eexists. eexists. unfold add_task. cbn [fst tasks next_id].
  rewrite <- List.app_assoc. cbn [List.app].
  split; [reflexivity |]. cbn. repeat split; reflexivity.
Qed.

Lemma webhook_redelivery_witness :
  let object := {| s_id := "cs_test_1"; s_payment_intent := Some "pi_1";
                   s_amount_total := Some 4900 |} in
  let dumps := fun p : payload => format (default None (p !! "order_id")) in
  let s := {| data := one_order "pending"; queue := init_task_db |} in
  let o := konoba_order "pending" in
  let o1 := set_paid object 950 o in
  let o2 := set_paid object 960 o1 in
  let s1 := snd (stripe_webhook dumps 950 951 (completed object) (Some o1) s)
  in
  let s2 := snd (stripe_webhook dumps 960 961 (completed object) (Some o2)
                   s1) in
  List.filter (with_session (s_id object)) (orders (data s)) = [o]
  /\ session_order (s_id object) (data s1) (Some o1)
  /\ session_order (s_id object) (data s2) (Some o2)
  /\ exists t1 t2,
       tasks (queue s2) = (tasks (queue s) ++ [t1; t2])%list
       /\ status t1 = PENDING /\ status t2 = PENDING
       /\ task_type t1 = "scrape_and_report"
       /\ task_type t2 = "scrape_and_report"
       /\ TaskQueue.payload t1 = dumps (payload_of o)
       /\ TaskQueue.payload t2 = dumps (payload_of o)
       /\ id t2 = id t1 + 1.
Proof.
  intros object dumps s o o1 o2 s1 s2.
  assert (List.filter (with_session (s_id object)) (orders (data s)) = [o])
    as H1 by reflexivity.
  assert (session_order (s_id object) (data s1) (Some o1)) as H2
    by (vm_compute; left; reflexivity).
  assert (session_order (s_id object) (data s2) (Some o2)) as H3
    by (vm_compute; left; reflexivity).
  split; [exact H1 |]. split; [exact H2 |]. split; [exact H3 |].
  exact (webhook_redelivery dumps 950 951 960 961 object o o1 o2 s
           H1 H2 H3).
Defined.


(** ** From the request to the report *)

Lemma scrape_payload_lookup oid email url name :
  let p := scrape_payload oid email url name in
  p !! "order_id" = Some (Some oid)
  /\ p !! "restaurant_url" = Some (Some url)
  /\ p !! "restaurant_name" = Some name
  /\ p !! "email" = Some (Some email).
Proof.
  unfold scrape_payload. repeat split; reflexivity.
Qed.

Lemma find_order_new oid o w :
  find_order oid w = None -> o_id o = oid ->
  List.find (fun x => String.eqb (o_id x) oid) (orders w ++ [o]) = Some o.
Proof.
  unfold find_order. intros Hf Ho.
  induction (orders w) as [| x l IH]; cbn in *.
  - rewrite Ho, String.eqb_refl. reflexivity.
  - destruct (String.eqb (o_id x) oid); [discriminate | auto].
Qed.

Lemma find_order_none oid w :
  find_order oid w = None ->
  existsb (fun x => String.eqb (o_id x) oid) (orders w) = false.
Proof.
  unfold find_order.
  induction (orders w) as [| y l IH]; cbn; [reflexivity |].
  destruct (String.eqb (o_id y) oid); cbn; [discriminate | exact IH].
Qed.

Lemma find_completed oid rid l o :
  List.find (fun x => String.eqb (o_id x) oid) l = Some o ->
  List.find (fun x => String.eqb (o_id x) oid) (completed_orders oid rid l)
  = Some (set_completed_order rid o).
Proof.
  unfold completed_orders.
  induction l as [| x l IH]; cbn; [discriminate |].
  destruct (String.eqb (o_id x) oid) eqn:E; cbn.
  - rewrite E. intros H; inversion H; reflexivity.
  - rewrite E. exact IH.
Qed.

(** X26: from the request to the report.  [start_scrape] with an unused
    order id stores the order and queues one pending scrape task; and when
    the browser, the report calls and the mail API do not raise, the task
    run on the payload of that request returns Success with the new report
    id, after which the order is found completed with that report, the
    report is found with the order's id and the statistics of the scraped
    data, and one mail with the links of the report has gone to the address
    of the request. *)
Theorem start_scrape_then_task dumps cfg io oid now queued_at request s
    cur more df st :
  find_order oid (data s) = None ->
  reports_of oid (data s) = [] ->
  find_report (new_id (report_calls io)) (data s) = None ->
  site io (Some (req_restaurant_url request)) = inr (cur, more) ->
  scraped io cur more = inr df ->
  read_stats df = Some st ->
  generate_report_raises (report_calls io) = None ->
  generate_pdf_raises (report_calls io) = None ->
  send_raises io = None ->
  let name := Some (name_or_default (req_restaurant_name request)) in
  let p := scrape_payload oid (req_email request)
             (req_restaurant_url request) name in
  let rid := new_id (report_calls io) in
  let s1 := snd (start_scrape dumps oid now queued_at request s) in
  exists t w2 o r,
    tasks (queue s1) = (tasks (queue s) ++ [t])%list
    /\ task_type t = "scrape_and_report"
    /\ TaskQueue.payload t = dumps p /\ status t = PENDING
    /\ existing_report oid (data s1) None
    /\ process_scrape_task cfg io None p (data s1)
       = (Returned ("Success: " ++ rid), w2)
    /\ find_order oid w2 = Some o
    /\ o_status o = "completed" /\ o_report_id o = Some rid
    /\ o_email o = req_email request
    /\ find_report rid w2 = Some r
    /\ rp_order_id r = oid /\ holds_statistics (inr df) r
    /\ outbox w2
       = (outbox (data s)
          ++ [mail_of cfg rid (Some (req_email request)) name])%list.
Proof.
  intros Hord Hrep Hfresh Hsite Hdf Hst Hgr Hpdf Hsend name p rid s1.
  subst s1. unfold start_scrape, insert_order. cbn [o_id].
  rewrite (find_order_none _ _ Hord). unfold add_task. cbn [snd data queue].
  eexists. eexists. eexists. eexists.
  split; [reflexivity |]. split; [reflexivity |]. split; [reflexivity |].
  split; [reflexivity |]. split; [exact Hrep |].
  destruct (scrape_payload_lookup oid (req_email request)
              (req_restaurant_url request) name) as (P1 & P2 & P3 & P4).
  fold p in P1, P2, P3, P4.
  unfold process_scrape_task, scrape_and_report, bind at 1 2 3 4 5 6.
  unfold item, path_under_reports, call.
  rewrite P1, P2, P3, P4. cbn [ret]. rewrite Hsite.
  fold (scraped io cur more). rewrite Hdf.
  unfold generate_report_for_order, stats_of, bind, call, may_raise, ret.
  rewrite Hgr, Hst, Hpdf. unfold insert_report. cbn [rp_id reports].
  apply find_report_none in Hfresh. rewrite Hfresh.
  unfold send_report_email, bind, execute, ret.
  rewrite Hsend. cbn [update_orders send reports orders outbox].
  fold rid. fold (mail_of cfg rid (Some (req_email request)) name).
  split; [reflexivity |].
  split.
  { unfold find_order. cbn [orders].
    apply (find_completed oid rid). apply find_order_new; [exact Hord |].
    reflexivity. }
  split; [reflexivity |]. split; [reflexivity |]. split; [reflexivity |].
  split.
  { apply (find_report_new rid _ (data s)); [exact Hfresh | reflexivity]. }
  split; [reflexivity |].
  split; [| reflexivity].
  exists df, st. cbn. auto.
Qed.

Lemma start_scrape_then_task_witness :
  let io := one_page_site None in
  let request := {| req_email := "ann@example.com";
                    req_restaurant_url := konoba_url;
                    req_restaurant_name := None |} in
  let s := {| data := init_db; queue := init_task_db |} in
  let dumps := fun p : payload => format (default None (p !! "order_id")) in
  let name := Some "Restaurant" in
  let p := scrape_payload "1a2b3c4d" "ann@example.com" konoba_url name in
  let s1 := snd (start_scrape dumps "1a2b3c4d" 900 901 request s) in
  find_order "1a2b3c4d" (data s) = None
  /\ reports_of "1a2b3c4d" (data s) = []
  /\ find_report "0123456789ab" (data s) = None
  /\ site io (Some konoba_url) = inr (fixture, [])
  /\ scraped io fixture [] = inr four_rows
  /\ read_stats four_rows
     = Some {| total_reviews := 4; countries_count := 2;
               avg_rating := Num (16 # 4) |}
  /\ generate_report_raises (report_calls io) = None
  /\ generate_pdf_raises (report_calls io) = None
  /\ send_raises io = None
  /\ exists t w2 o r,
       tasks (queue s1) = (tasks (queue s) ++ [t])%list
       /\ task_type t = "scrape_and_report"
       /\ TaskQueue.payload t = dumps p /\ status t = PENDING
       /\ existing_report "1a2b3c4d" (data s1) None
       /\ process_scrape_task local_settings io None p (data s1)
          = (Returned ("Success: " ++ "0123456789ab"), w2)
       /\ find_order "1a2b3c4d" w2 = Some o
       /\ o_status o = "completed" /\ o_report_id o = Some "0123456789ab"
       /\ o_email o = "ann@example.com"
       /\ find_report "0123456789ab" w2 = Some r
       /\ rp_order_id r = "1a2b3c4d" /\ holds_statistics (inr four_rows) r
       /\ outbox w2
          = (outbox (data s)
             ++ [mail_of local_settings "0123456789ab"
                   (Some "ann@example.com") name])%list.
Proof.
  intros io request s dumps name p s1.
  repeat (split; [vm_compute; reflexivity |]).
  exact (start_scrape_then_task dumps local_settings io "1a2b3c4d" 900 901
           request s fixture [] four_rows
           {| total_reviews := 4; countries_count := 2;
              avg_rating := Num (16 # 4) |}
           eq_refl eq_refl eq_refl eq_refl eq_refl eq_refl eq_refl eq_refl
           eq_refl).
Defined.

(** ** One report per order *)

Lemma reports_of_view o now fs rid w :
  length (reports_of o (snd (view_report now fs rid w)))
  = length (reports_of o w).
Proof.
  unfold view_report.
  destruct (find_report rid w) as [r |]; [| reflexivity].
  destruct (expired now r); [reflexivity |].
  assert (length (reports_of o (update_reports rid add_view w))
          = length (reports_of o w)) as H.
  { rewrite reports_of_update by reflexivity. apply List.length_map. }
  destruct (fs (rp_html_path r)); exact H.
Qed.

Lemma reports_webhook dumps now queued_at request order s :
  reports (data (snd (stripe_webhook dumps now queued_at request order s)))
  = reports (data s).
Proof.
  unfold stripe_webhook.
  destruct request as [| | type object]; cbn [snd]; try reflexivity.
  destruct (String.eqb type "checkout.session.completed").
  - destruct order; reflexivity.
  - destruct (String.eqb type "checkout.session.expired"); reflexivity.
Qed.

Lemma reports_start dumps oid now queued_at request s :
  reports (data (snd (start_scrape dumps oid now queued_at request s)))
  = reports (data s).
Proof.
  unfold start_scrape, insert_order.
  destruct (existsb _ (orders (data s))); reflexivity.
Qed.

Lemma one_report_served w w' :
  served w w' ->
  (forall o, (length (reports_of o w) <= 1)%nat) ->
  forall o, (length (reports_of o w') <= 1)%nat.
Proof.
  intros H Hone o. destruct H as [cfg io existing p w Hex | | | |].
  - destruct (reports_of_scrape cfg io existing p w o Hex) as [H1 H2].
    destruct (reports_of o w) as [| r l] eqn:E.
    + apply H2. reflexivity.
    + rewrite H1 by discriminate. rewrite <- E. apply Hone.
  - rewrite reports_of_view. apply Hone.
  - unfold reports_of. rewrite reports_webhook. apply Hone.
  - unfold reports_of. rewrite reports_start. apply Hone.
  - unfold reports_of. rewrite reports_create_checkout. apply Hone.
Qed.

(** X28: the worker and the request handlers keep one report per order.
    However often scrape tasks run, are retried after a failure or are
    queued twice for the same order, and whatever [view_report],
    [stripe_webhook], [start_scrape] and [create_checkout] do in between:
    when no order has more than one report, none has more than one
    afterwards.  (This is not so for [process_order].) *)
Theorem one_report_per_order w w' :
  rtc served w w' ->
  (forall o, (length (reports_of o w) <= 1)%nat) ->
  forall o, (length (reports_of o w') <= 1)%nat.
Proof.
  induction 1 as [w | w1 w2 w3 H12 _ IH]; intros Hone.
  - exact Hone.
  - apply IH. apply (one_report_served w1 w2 H12 Hone).
Qed.

Lemma one_report_per_order_witness :
  let w := one_order "processing" in
  let w1 := snd (process_scrape_task local_settings
                   (one_page_site (Some mail_rejected)) None konoba_payload w)
  in
  let w2 := snd (process_scrape_task local_settings (one_page_site None)
                   (Some "0123456789ab") konoba_payload w1) in
  rtc served w w2
  /\ (forall o, (length (reports_of o w) <= 1)%nat)
  /\ forall o, (length (reports_of o w2) <= 1)%nat.
Proof.
  intros w w1 w2.
  assert (konoba_payload !! "order_id" = Some (Some "1a2b3c4d")) as E
    by (vm_compute; reflexivity).
  assert (rtc served w w2) as H1.
  { eapply rtc_l; [| apply rtc_once].
    - apply (served_scrape local_settings
               (one_page_site (Some mail_rejected)) None konoba_payload w).
      intros oid Hoid. reflexivity.
    - apply (served_scrape local_settings (one_page_site None)
               (Some "0123456789ab") konoba_payload w1).
      intros oid Hoid. rewrite E in Hoid. inversion Hoid; subst oid.
      eexists. split; [vm_compute; left; reflexivity | reflexivity]. }
  assert (forall o, (length (reports_of o w) <= 1)%nat) as H2
    by (intros o; cbn; lia).
  split; [exact H1 |]. split; [exact H2 |].
  exact (one_report_per_order w w2 H1 H2).
Defined.

(** ** From the payment to the task *)

(** X29: from the payment to the task.  When [create_checkout] has stored
    an order under an unused id for a session no other order carries, the
    completed-payment event of that session finds that order, marks it
    paid with the amount and the payment intent of the session, and queues
    one pending scrape task with the id, address and URL of the checkout
    request and the restaurant name as the request gave it, none
    included. *)
Theorem paid_order_is_queued dumps oid now stripe_now queued_at sid url
    request object order w q :
  find_order oid w = None ->
  List.filter (with_session sid) (orders w) = [] ->
  s_id object = sid ->
  let checkout := create_checkout oid now (Session sid url) request w in
  let s1 := {| data := snd checkout; queue := q |} in
  session_order sid (paid object stripe_now (data s1)) order ->
  let s2 := snd (stripe_webhook dumps stripe_now queued_at (completed object)
                   order s1) in
  fst checkout = CheckoutResponse url sid
  /\ exists o t,
       order = Some o /\ find_order oid (data s2) = Some o
       /\ o_id o = oid /\ o_status o = "paid"
       /\ o_amount o = s_amount_total object
       /\ o_stripe_payment_intent o = s_payment_intent object
       /\ tasks (queue s2) = (tasks q ++ [t])%list
       /\ status t = PENDING /\ task_type t = "scrape_and_report"
       /\ TaskQueue.payload t
          = dumps (scrape_payload oid (ck_email request)
                     (ck_restaurant_url request)
                     (ck_restaurant_name request)).
Proof.
  intros Hfresh Hnone Hsid checkout s1. subst checkout s1.
  unfold create_checkout, insert_order. cbn [o_id].
  rewrite (find_order_none _ _ Hfresh). cbn [fst snd data queue].
  intros Hq. split; [reflexivity |].
  unfold paid in Hq. rewrite Hsid in Hq.
  unfold session_order in Hq.
  rewrite filter_update_orders in Hq by reflexivity.
  cbn [orders] in Hq. rewrite List.filter_app, Hnone in Hq.
  cbn [List.filter List.app with_session o_stripe_session_id] in Hq.
  rewrite String.eqb_refl in Hq. cbn [List.map] in Hq.
  destruct order as [o |]; [| discriminate].
  destruct Hq as [<- | []].
  unfold stripe_webhook, completed. rewrite String.eqb_refl.
  cbn [snd data queue]. unfold add_task. cbn [fst tasks].
  eexists. eexists. split; [reflexivity |].
  split.
  { unfold find_order, update_orders. cbn [orders]. rewrite Hsid.
    rewrite List.map_app. cbn [List.map with_session o_stripe_session_id].
    rewrite String.eqb_refl.
    assert (forall l,
              List.find (fun x => String.eqb (o_id x) oid) l = None ->
              forall x,
                o_id x = oid ->
                List.find (fun x => String.eqb (o_id x) oid)
                  (List.map
                     (fun o => if with_session sid o
                               then set_paid object stripe_now o else o) l
                   ++ [x]) = Some x) as Hfind.
    { induction l as [| y l IH]; cbn; intros Hl x Hx.
      - rewrite Hx, String.eqb_refl. reflexivity.
      - destruct (String.eqb (o_id y) oid) eqn:E; [discriminate |].
        assert (o_id (if with_session sid y
                      then set_paid object stripe_now y else y) = o_id y)
          as -> by (destruct (with_session sid y); reflexivity).
        rewrite E. apply IH; assumption. }
    apply Hfind; [exact Hfresh | reflexivity]. }
  cbn. repeat split; reflexivity.
Qed.

Lemma paid_order_is_queued_witness :
  let dumps := fun p : payload => format (default None (p !! "order_id")) in
  let request := {| ck_email := "ann@example.com";
                    ck_restaurant_url := konoba_url;
                    ck_restaurant_name := None |} in
  let object := {| s_id := "cs_test_1"; s_payment_intent := Some "pi_1";
                   s_amount_total := Some 4900 |} in
  let checkout := create_checkout "1a2b3c4d" 900
                    (Session "cs_test_1" "https://checkout.stripe.com/c/1")
                    request init_db in
  let s1 := {| data := snd checkout; queue := init_task_db |} in
  let order :=
    Some {| o_id := "1a2b3c4d"; o_email := "ann@example.com";
            o_restaurant_url := konoba_url; o_restaurant_name := None;
            o_stripe_session_id := Some "cs_test_1";
            o_stripe_payment_intent := Some "pi_1";
            o_status := "paid"; o_amount := Some 4900; o_report_id := None;
            o_report_url := None; o_expires_at := None;
            o_updated_at := 950 |} in
  let s2 := snd (stripe_webhook dumps 950 951 (completed object) order s1) in
  find_order "1a2b3c4d" init_db = None
  /\ List.filter (with_session "cs_test_1") (orders init_db) = []
  /\ s_id object = "cs_test_1"
  /\ session_order "cs_test_1" (paid object 950 (data s1)) order
  /\ fst checkout = CheckoutResponse "https://checkout.stripe.com/c/1"
                      "cs_test_1"
  /\ exists o t,
       order = Some o /\ find_order "1a2b3c4d" (data s2) = Some o
       /\ o_id o = "1a2b3c4d" /\ o_status o = "paid"
       /\ o_amount o = s_amount_total object
       /\ o_stripe_payment_intent o = s_payment_intent object
       /\ tasks (queue s2) = (tasks init_task_db ++ [t])%list
       /\ status t = PENDING /\ task_type t = "scrape_and_report"
       /\ TaskQueue.payload t
          = dumps (scrape_payload "1a2b3c4d" (ck_email request)
                     (ck_restaurant_url request)
                     (ck_restaurant_name request)).
Proof.
  intros dumps request object checkout s1 order s2.
  assert (session_order "cs_test_1" (paid object 950 (data s1)) order)
    as H4 by (vm_compute; left; reflexivity).
  split; [reflexivity |]. split; [reflexivity |]. split; [reflexivity |].
  split; [exact H4 |].
  exact (paid_order_is_queued dumps "1a2b3c4d" 900 950 951 "cs_test_1"
           "https://checkout.stripe.com/c/1" request object order init_db
           init_task_db eq_refl eq_refl eq_refl H4).
Defined.

(** ** update_report_with_data *)

Lemma update_reports_twice rid st w :
  update_reports rid (set_stats st) (update_reports rid (set_stats st) w)
  = update_reports rid (set_stats st) w.
Proof.
  unfold update_reports. cbn [reports orders outbox]. f_equal.
  rewrite List.map_map. apply List.map_ext. intros r.
  destruct (String.eqb (rp_id r) rid) eqn:E.
  - cbn [set_stats rp_id]. rewrite E. reflexivity.
  - rewrite E. reflexivity.
Qed.

(** X27: [update_report_with_data] can be repeated: run a second time on
    the same data it returns or raises as the first time and leaves the
    database as the first run left it; and for an id no report has it
    returns as for any other id, with the database unchanged. *)
Theorem update_report_repeatable io rid read w :
  let first := update_report_with_data io rid read w in
  update_report_with_data io rid read (snd first) = first
  /\ (find_report rid w = None -> snd first = w).
Proof.
  intros first. subst first.
  destruct (update_report_with_data io rid read w) as [x w1] eqn:H.
  cbn [snd]. pose proof H as H0.
  apply update_report_run in H
    as [(e & -> & ->) | (df & st & -> & Hread & Hst & ->)].
  - split; [exact H0 | reflexivity].
  - split.
    + revert H0. unfold update_report_with_data, bind, call, execute,
        stats_of, may_raise, ret, raise.
      destruct (generate_report_raises io); [discriminate |].
      destruct (generate_pdf_raises io); [discriminate |].
      rewrite Hread, Hst. intros _. rewrite update_reports_twice.
      reflexivity.
    + intros Hnone. apply find_report_none in Hnone. clear H0.
      destruct w as [rs os ms]. unfold update_reports.
      cbn [reports orders outbox] in *. f_equal.
      induction rs as [| r l IH]; cbn in *; [reflexivity |].
      apply orb_false_elim in Hnone as [E Hl]. rewrite E. f_equal. auto.
Qed.

Lemma update_report_repeatable_witness :
  let io := report_calls_at "0123456789ab" 1000 in
  let w := one_order "processing" in
  let first := update_report_with_data io "0123456789ab" (inr four_rows) w in
  find_report "0123456789ab" w = None
  /\ update_report_with_data io "0123456789ab" (inr four_rows) (snd first)
     = first
  /\ snd first = w.
Proof.
  intros io w first.
  assert (find_report "0123456789ab" w = None) as H by reflexivity.
  split; [exact H |].
  split.
  - exact (proj1 (update_report_repeatable io "0123456789ab"
                    (inr four_rows) w)).
  - exact (proj2 (update_report_repeatable io "0123456789ab"
                    (inr four_rows) w) H).
Defined.

End BackendSpec.
